(** * BackendGP: route handlers of the graduation-project portal

    A shallow embedding of [routes/authentication.js] and [routes/admin.js].
    Every handler is a computation in a small state-and-exception monad over
    a [world]: the tables behind the shared connection [conn], the open
    transaction (if any), the files on disk, and a log of the calls the
    handler made.  JavaScript objects that are sent as response bodies keep
    their keys in insertion order, so they are association lists; tables
    with a primary key are finite maps. *)

From Stdlib Require Import String Ascii ZArith List Bool Lia.
From stdpp Require Import base option list gmap strings pretty.

Set Warnings "-register-all".
Open Scope string_scope.
Open Scope Z_scope.

(** ** JavaScript values and objects *)

Module JS.

Inductive jsval : Type :=
| JUndefined
| JNull
| JBool (b : bool)
| JNum (z : Z)
| JStr (s : string)
| JArr (items : list jsval)
| JObj (fields : list (string * jsval)).

Abbreviation object := (list (string * jsval)).

(** [o.k] *)
Fixpoint get (k : string) (o : object) : jsval :=
  match o with
  | [] => JUndefined
  | (k', v) :: o' => if String.eqb k k' then v else get k o'
  end.

(** [k in o] for own properties *)
Definition has (k : string) (o : object) : bool :=
  existsb (fun kv => String.eqb k (fst kv)) o.

(** [delete o.k] *)
Definition delete (k : string) (o : object) : object :=
  List.filter (fun kv => negb (String.eqb k (fst kv))) o.

(** [o.k = v]: an existing key keeps its place, a new key goes last *)
Fixpoint set (k : string) (v : jsval) (o : object) : object :=
  match o with
  | [] => [(k, v)]
  | (k', v') :: o' =>
      if String.eqb k k' then (k, v) :: o' else (k', v') :: set k v o'
  end.

(** a body field that may be missing: [undefined] or a string *)
Definition of_field (f : option string) : jsval :=
  match f with Some s => JStr s | None => JUndefined end.

(** a nullable text column *)
Definition of_text (f : option string) : jsval :=
  match f with Some s => JStr s | None => JNull end.

Definition of_int (f : option Z) : jsval :=
  match f with Some z => JNum z | None => JNull end.

(** [`${x}`] for a body field *)
Definition template (f : option string) : string :=
  match f with Some s => s | None => "undefined" end.

(** [!x] for a body field: [undefined] and the empty string are falsy *)
Definition falsy (f : option string) : bool :=
  match f with
  | None => true
  | Some s => String.eqb s ""
  end.

(** [Array.prototype.join] *)
Fixpoint join (sep : string) (l : list string) : string :=
  match l with
  | [] => ""
  | [x] => x
  | x :: rest => x ++ sep ++ join sep rest
  end.

(** [s === x] for a text [s]: only a text is strictly equal to a text *)
Definition is_text (s : string) (x : jsval) : bool :=
  match x with
  | JStr t => String.eqb s t
  | _ => false
  end.

(** [Array.prototype.includes] on an array of strings *)
Definition includes (l : list string) (x : jsval) : bool :=
  existsb (fun s => is_text s x) l.

(** [String(x)]; inside an array [null] and [undefined] are the empty
    text *)
Fixpoint text (v : jsval) : string :=
  match v with
  | JUndefined => "undefined"
  | JNull => "null"
  | JBool true => "true"
  | JBool false => "false"
  | JNum z => pretty z
  | JStr s => s
  | JArr items =>
      join ","
        (map (fun x =>
                match x with
                | JUndefined | JNull => ""
                | _ => text x
                end) items)
  | JObj _ => "[object Object]"
  end.

(** [!x] for any value: [undefined], [null], [false], the empty string
    and zero are falsy *)
Definition falsy_value (v : jsval) : bool :=
  match v with
  | JUndefined | JNull => true
  | JBool b => negb b
  | JStr s => String.eqb s ""
  | JNum z => Z.eqb z 0
  | JArr _ | JObj _ => false
  end.

(** [x > n]; a comparison with [undefined] is false *)
Definition greater (v : jsval) (n : Z) : bool :=
  match v with
  | JNum z => Z.ltb n z
  | _ => false
  end.

End JS.
Import JS.

(** ** Requests and responses *)

Record teammate := {
  name : option string;
  studentId : Z;
}.

(** [req.body] is the parsed body: named values, texts for a form post
    and any value of JSON for a JSON post; the multipart parser delivers
    [teammateData] as an array of objects and the upload middleware leaves
    the stored file in [req.file]. *)
Record request := {
  body : list (string * jsval);
  params : list (string * Z);
  teammateData : option (list teammate);
  file : option string;
}.

(** [req.body.k] *)
Fixpoint value (k : string) (b : list (string * jsval)) : jsval :=
  match b with
  | [] => JUndefined
  | (k', v) :: b' => if String.eqb k k' then v else value k b'
  end.

(** a body field when it is a text *)
Definition field (k : string) (b : list (string * jsval)) : option string :=
  match value k b with
  | JStr s => Some s
  | _ => None
  end.

(** the body of a form post *)
Definition form (fields : list (string * string)) : list (string * jsval) :=
  map (fun kv => (fst kv, JStr (snd kv))) fields.

Fixpoint param (k : string) (p : list (string * Z)) : Z :=
  match p with
  | [] => 0
  | (k', v) :: p' => if String.eqb k k' then v else param k p'
  end.

Record response := {
  status : Z;
  json : jsval;
}.

(** [res.status(c).json({error: m})] and its variants *)
Definition error_body (m : string) : jsval := JObj [("error", JStr m)].
Definition err_body (m : string) : jsval := JObj [("err", JStr m)].
Definition message_body (m : string) : jsval := JObj [("message", JStr m)].
Definition errors_body (l : list jsval) : jsval := JObj [("errors", JArr l)].

(** ** Errors *)

Record sql_error := {
  code : string;
  sqlMessage : string;
}.

Inductive exn : Type :=
| SqlError (e : sql_error)
| Error (m : string)
| TypeError (m : string)
| ReferenceError (m : string).

(** ** The persistence gateway *)

Record student_row := {
  student_id : Z;
  student_name : option string;
  student_email : option string;
  student_password : option string;
  student_department : option string;
  student_project_id : option Z;
  student_token : option string;
}.

Record professor_row := {
  professor_id : Z;
  professor_name : option string;
  professor_email : option string;
  professor_password : option string;
  professor_department : option string;
  professor_token : option string;
}.

Record project_row := {
  title : option string;
  description : option string;
  supervisor_name : option string;
  graduation_year : option string;
  graduation_term : option string;
  department_name : option string;
  project_files_path : option string;
  github_link : option string;
  approval_status : string;
  total_votes : Z;
}.

Record project_student_row := {
  ps_project_id : Z;
  ps_student_name : option string;
  ps_student_id : Z;
}.

Record comment_row := {
  comment_project_id : Z;
  commenter_id : Z;
  commenter_name : option string;
  comment_text : option string;
}.

Record bookmark_row := {
  bookmark_student_id : Z;
  bookmark_project_id : Z;
  bookmark_title : option string;
}.

(** The rows behind [conn]. Tables with a primary key are maps from the
    key; [project_students] has none. The two ENUM columns of [projects]
    are held as the text that [SHOW COLUMNS] reports in its [Type] field. *)
Record database := {
  students : gmap Z student_row;
  professor : gmap Z professor_row;
  projects : gmap Z project_row;
  project_students : list project_student_row;
  comments : gmap Z comment_row;
  bookmarks : gmap Z bookmark_row;
  department_name_type : string;
  graduation_term_type : string;
}.

Inductive event : Type :=
| Query (sql : string)
| BeginTransaction
| Commit
| Rollback
| Unlink (path : string)
| ConsoleError (m : string).

(** Modelled from the spec: the persistence gateway ([db/dbConnection],
    not among the sources). One shared handle issues statements and returns
    row sets or affected-row counts, with an explicit begin / commit /
    rollback mode. [txn] holds the tables as they were when the open
    transaction began: those are the rows that exist for everyone else
    until the commit. [faults] forces gateway failures: each call to the
    gateway takes the next entry, and [Some e] makes that call fail with
    [e] without touching the tables. [entropy] feeds the random salts and
    tokens. *)
Record world := {
  tables : database;
  txn : option database;
  auto_increment : Z;
  files : gset string;
  faults : list (option sql_error);
  entropy : list string;
  events : list event;
}.

Definition set_tables (d : database) (w : world) : world :=
  {| tables := d; txn := txn w; auto_increment := auto_increment w;
     files := files w; faults := faults w; entropy := entropy w;
     events := events w |}.

Definition set_txn (t : option database) (w : world) : world :=
  {| tables := tables w; txn := t; auto_increment := auto_increment w;
     files := files w; faults := faults w; entropy := entropy w;
     events := events w |}.

Definition set_auto_increment (n : Z) (w : world) : world :=
  {| tables := tables w; txn := txn w; auto_increment := n;
     files := files w; faults := faults w; entropy := entropy w;
     events := events w |}.

Definition set_faults (f : list (option sql_error)) (w : world) : world :=
  {| tables := tables w; txn := txn w; auto_increment := auto_increment w;
     files := files w; faults := f; entropy := entropy w;
     events := events w |}.

Definition set_entropy (r : list string) (w : world) : world :=
  {| tables := tables w; txn := txn w; auto_increment := auto_increment w;
     files := files w; faults := faults w; entropy := r;
     events := events w |}.

Definition add_event (e : event) (w : world) : world :=
  {| tables := tables w; txn := txn w; auto_increment := auto_increment w;
     files := files w; faults := faults w; entropy := entropy w;
     events := events w ++ [e] |}.

(** The rows that exist once the handler is done: inside an open
    transaction nothing written since its begin has been committed. *)
Definition committed (w : world) : database :=
  match txn w with
  | Some snapshot => snapshot
  | None => tables w
  end.

(** ** The handler monad: state and exceptions *)

Definition M (A : Type) : Type := world -> (A + exn) * world.

Definition ret {A} (a : A) : M A := fun w => (inl a, w).

Definition throw {A} (e : exn) : M A := fun w => (inr e, w).

Definition bind {A B} (m : M A) (k : A -> M B) : M B :=
  fun w =>
    match m w with
    | (inl a, w') => k a w'
    | (inr e, w') => (inr e, w')
    end.

(** [try { m } catch (err) { h err }] *)
Definition try_catch {A} (m : M A) (h : exn -> M A) : M A :=
  fun w =>
    match m w with
    | (inl a, w') => (inl a, w')
    | (inr e, w') => h e w'
    end.

#[global] Instance M_ret : MRet M := @ret.
#[global] Instance M_bind : MBind M := fun A B k m => bind m k.

Definition modify (f : world -> world) : M unit := fun w => (inl tt, f w).

Definition console_error (m : string) : M unit :=
  modify (add_event (ConsoleError m)).

(** the next forced failure, if any *)
Definition next_fault : M (option sql_error) :=
  fun w => (inl (hd None (faults w)), set_faults (tl (faults w)) w).

(** the next [n] gateway calls are not forced to fail *)
Fixpoint quiet (n : nat) (forced : list (option sql_error)) : bool :=
  match n, forced with
  | O, _ => true
  | S _, [] => true
  | S n', None :: rest => quiet n' rest
  | S _, Some _ :: _ => false
  end.

(** [crypto.randomBytes(16).toString("hex")] and the salt of [bcrypt.hash] *)
Definition random_hex : M string :=
  fun w =>
    (inl (hd "00000000000000000000000000000000" (entropy w)),
     set_entropy (tl (entropy w)) w).

(** Modelled from the spec: [conn.query(sql, values, (err, result) =>
    ...)] of the gateway. The statement is logged, fails if a failure is
    forced, and otherwise does to the tables what [exec] says; the
    callback receives either the error or the result. *)
Definition conn_query {A} (sql : string)
    (exec : database -> (A + sql_error) * database) : M (A + sql_error) :=
  modify (add_event (Query sql));;
  f ← next_fault;
  match f with
  | Some e => ret (inr e)
  | None =>
      fun w =>
        match exec (tables w) with
        | (inl a, d) => (inl (inl a), set_tables d w)
        | (inr e, _) => (inl (inr e), w)
        end
  end.

(** Modelled from the spec: [conn.query(sql, values)] without a callback,
    on the handle that takes callbacks everywhere else in the route files
    (the login handler promisifies it first). The call hands back the
    query object at once, which is no promise: [await] yields that object.
    The statement is sent as any other; its rows or its error are handed
    to nobody, so no error of it is ever thrown into the handler. The
    handle runs its statements in the order of issue, so the effect is in
    place for every later statement. *)
Definition conn_query_detached {A} (sql : string)
    (exec : database -> (A + sql_error) * database) : M object :=
  conn_query sql exec;;
  ret [("sql", JStr sql)].

(** the tables once a statement has been run on them: a statement that
    is refused leaves them as they were *)
Definition tables_after {A} (exec : database -> (A + sql_error) * database)
    (d : database) : database :=
  match exec d with
  | (inl _, d') => d'
  | (inr _, _) => d
  end.

(** [new Promise((resolve, reject) => ... if (err) reject(err); else
    resolve(result))] followed by [await] *)
Definition await {A} (m : M (A + sql_error)) : M A :=
  r ← m;
  match r with
  | inl a => ret a
  | inr e => throw (SqlError e)
  end.

(** a statement whose result carries the generated key as [insertId] *)
Definition conn_insert (sql : string)
    (exec : Z -> database -> (unit + sql_error) * database)
    : M (Z + sql_error) :=
  modify (add_event (Query sql));;
  f ← next_fault;
  match f with
  | Some e => ret (inr e)
  | None =>
      fun w =>
        let insertId := auto_increment w in
        match exec insertId (tables w) with
        | (inl _, d) =>
            (inl (inl insertId),
             set_auto_increment (insertId + 1) (set_tables d w))
        | (inr e, _) => (inl (inr e), w)
        end
  end.

Definition set_files (f : gset string) (w : world) : world :=
  {| tables := tables w; txn := txn w; auto_increment := auto_increment w;
     files := f; faults := faults w; entropy := entropy w;
     events := events w |}.

(** [fs.unlink(path, callback)]: the callback receives the error when the
    file is not there *)
Definition fs_unlink (path : string) (callback : bool -> M unit) : M unit :=
  modify (add_event (Unlink path));;
  ((fun w =>
      if bool_decide (path ∈ files w)
      then callback false (set_files (files w ∖ {[path]}) w)
      else callback true w) : M unit).

(** Modelled from the spec: the transaction mode of the gateway. Beginning
    keeps the tables of that moment aside, committing drops them, rolling
    back puts them back; a rollback outside a transaction does nothing. *)
Definition conn_beginTransaction : M (unit + sql_error) :=
  modify (add_event BeginTransaction);;
  f ← next_fault;
  match f with
  | Some e => ret (inr e)
  | None => fun w => (inl (inl tt), set_txn (Some (tables w)) w)
  end.

Definition conn_commit : M (unit + sql_error) :=
  modify (add_event Commit);;
  f ← next_fault;
  match f with
  | Some e => ret (inr e)
  | None => fun w => (inl (inl tt), set_txn None w)
  end.

Definition conn_rollback : M (unit + sql_error) :=
  modify (add_event Rollback);;
  f ← next_fault;
  match f with
  | Some e => ret (inr e)
  | None =>
      fun w =>
        match txn w with
        | Some snapshot => (inl (inl tt), set_txn None (set_tables snapshot w))
        | None => (inl (inl tt), w)
        end
  end.

(** ** Text helpers *)

Definition is_digit (c : ascii) : bool :=
  (48 <=? nat_of_ascii c)%nat && (nat_of_ascii c <=? 57)%nat.

Fixpoint all_digits (s : string) : bool :=
  match s with
  | EmptyString => true
  | String c s' => is_digit c && all_digits s'
  end.

Definition unsigned_int (s : string) : bool :=
  negb (String.eqb s "") && all_digits s.

Fixpoint digits_value (acc : Z) (s : string) : Z :=
  match s with
  | EmptyString => acc
  | String c s' => digits_value (10 * acc + (Z.of_nat (nat_of_ascii c) - 48)) s'
  end.

Definition ends_with (suffix s : string) : bool :=
  (String.length suffix <=? String.length s)%nat &&
  String.eqb
    (substring (String.length s - String.length suffix)
               (String.length suffix) s)
    suffix.

(** [s.includes(sub)] *)
Fixpoint str_includes (sub s : string) : bool :=
  String.prefix sub s ||
  match s with
  | EmptyString => false
  | String _ s' => str_includes sub s'
  end.

(** Texts are held as their UTF-8 bytes. A byte [10xxxxxx] continues a
    character; a leading byte announces how many such bytes follow. *)
Definition is_continuation (c : ascii) : bool :=
  (128 <=? nat_of_ascii c)%nat && (nat_of_ascii c <? 192)%nat.

Definition trail (c : ascii) : nat :=
  if (nat_of_ascii c <? 192)%nat then 0
  else if (nat_of_ascii c <? 224)%nat then 1
  else if (nat_of_ascii c <? 240)%nat then 2
  else 3.

(** the characters of a text, [pending] bytes of the current character
    being still due; a continuation byte that nothing announced counts as
    a character of its own *)
Fixpoint characters_from (pending : nat) (s : string) : nat :=
  match s with
  | EmptyString => 0
  | String c s' =>
      if is_continuation c then
        match pending with
        | S p => characters_from p s'
        | O => S (characters_from 0 s')
        end
      else S (characters_from (trail c) s')
  end.

(** the length of a text in characters: a character outside the basic
    plane, two units of a JavaScript string, counts once *)
Definition characters (s : string) : nat := characters_from 0 s.

(** ** Request validators (express-validator over validator.js) *)

Module Validator.

(** [toString(value, false)]: [undefined] and [null] are the empty text,
    an array is its elements joined *)
Definition to_string_flat (v : jsval) : string :=
  match v with
  | JUndefined | JNull => ""
  | other => JS.text other
  end.

(** [toString(value)], the text a standard validator is given: of an
    array that is not empty, the text of its first element *)
Definition to_string (v : jsval) : string :=
  match v with
  | JArr (first :: _) => to_string_flat first
  | other => to_string_flat other
  end.

(** [isInt()] without options: the pattern [/^[-+]?[0-9]+$/] *)
Definition isInt (s : string) : bool :=
  match s with
  | String "+" s' | String "-" s' => unsigned_int s'
  | _ => unsigned_int s
  end.

(** [isLength({ min, max })] counts characters: the units of the string
    less its surrogate pairs *)
Definition isLength (min max : nat) (s : string) : bool :=
  (min <=? characters s)%nat && (characters s <=? max)%nat.

(** [isString()] looks at the value itself, not at its text *)
Definition isString (v : jsval) : bool :=
  match v with JStr _ => true | _ => false end.

(** [isEmail()] of validator.js is taken as given. *)
Class EmailSyntax := { isEmail : string -> bool }.

(** one entry of [errors.array()] *)
Definition field_error (path : string) (value : jsval) (msg : string)
    : jsval :=
  JObj [("value", value); ("msg", JStr msg);
        ("param", JStr path); ("location", JStr "body")].

Definition check (ok : bool) (path : string) (value : jsval) (msg : string)
    : list jsval :=
  if ok then [] else [field_error path value msg].

(** what a standard validator runs over: the elements of an array, or the
    value alone *)
Definition values (v : jsval) : list jsval :=
  match v with
  | JArr items => items
  | other => [other]
  end.

(** a validator of validator.js in a chain: it is given the text of each
    value and every refusal is an error of its own *)
Definition standard (validator : string -> bool) (path : string)
    (value : jsval) (msg : string) : list jsval :=
  flat_map (fun x => check (validator (to_string x)) path x msg)
           (values value).

(** the [.custom] validator on the email, given the value itself: what is
    no text has no [endsWith], and the message of the error thrown for
    that is reported instead *)
Definition email_domain (path : string) (value : jsval) : list jsval :=
  match value with
  | JStr v =>
      check (ends_with "@fci.helwan.edu.eg" v) path value
        "Email domain must be '@fci.helwan.edu.eg'"
  | JUndefined =>
      [field_error path value
         "Cannot read properties of undefined (reading 'endsWith')"]
  | JNull =>
      [field_error path value
         "Cannot read properties of null (reading 'endsWith')"]
  | _ => [field_error path value "value.endsWith is not a function"]
  end.

End Validator.
Import Validator.

(** ** Password hashing (bcrypt) *)

(** The hashing primitive is an external collaborator. What is used of it:
    a hash is the 60-character modular-crypt string. *)
Class Bcrypt := {
  bcrypt_hash : string -> Z -> string -> string;
  bcrypt_compare : string -> string -> bool;
  bcrypt_hash_length :
    forall data rounds salt,
      String.length (bcrypt_hash data rounds salt) = 60%nat;
}.

(** [x == null] *)
Definition nullish (v : jsval) : bool :=
  match v with
  | JUndefined | JNull => true
  | _ => false
  end.

(** [await bcrypt.hash(data, rounds)] with a fresh salt; data that is no
    text is refused with an error *)
Definition hash `{Bcrypt} (data : jsval) (rounds : Z) : M string :=
  match data with
  | JStr s => salt ← random_hex; ret (bcrypt_hash s rounds salt)
  | JUndefined | JNull => throw (Error "data and salt arguments required")
  | _ =>
      throw (Error "data must be a string or Buffer and salt must either be a salt string or a number of rounds")
  end.

(** [await bcrypt.compare(data, encrypted)]; both must be texts *)
Definition compare `{Bcrypt} (data encrypted : jsval) : M bool :=
  if nullish data || nullish encrypted then
    throw (Error "data and hash arguments required")
  else
    match data, encrypted with
    | JStr s, JStr h => ret (bcrypt_compare s h)
    | _, _ => throw (Error "data and hash must be strings")
    end.

(** ** Statements *)

Module Sql.

(** Modelled from the spec: the one value the server is given when [v]
    is bound to a placeholder that stands for one value. The driver writes
    an array as its elements separated by commas and an object as a list
    of assignments; that is a single value only for an array of a single
    element. *)
Fixpoint scalar (v : jsval) : option jsval :=
  match v with
  | JArr [x] => scalar x
  | JArr _ | JObj _ => None
  | other => Some other
  end.

(** Modelled from the spec: how the gateway reads a value bound to an
    integer column (the schema is not among the sources): a number, or the
    decimal text of one. *)
Definition int_value (v : jsval) : option Z :=
  match v with
  | JBool b => Some (if b then 1 else 0)
  | JNum z => Some z
  | JStr (String "-" s') =>
      if unsigned_int s' then Some (- digits_value 0 s') else None
  | JStr (String "+" s') =>
      if unsigned_int s' then Some (digits_value 0 s') else None
  | JStr s => if unsigned_int s then Some (digits_value 0 s) else None
  | _ => None
  end.

(** a value bound to a text column, when it is a text *)
Definition text_value (v : jsval) : option string :=
  match v with
  | JStr s => Some s
  | _ => None
  end.

Definition duplicate_entry (key : string) : sql_error :=
  {| code := "ER_DUP_ENTRY";
     sqlMessage := "Duplicate entry for key '" ++ key ++ "'" |}.

Definition bad_key : sql_error :=
  {| code := "ER_TRUNCATED_WRONG_VALUE_FOR_FIELD";
     sqlMessage := "Incorrect integer value" |}.

Definition parse_error : sql_error :=
  {| code := "ER_PARSE_ERROR";
     sqlMessage := "You have an error in your SQL syntax" |}.

Definition rows {A} (m : gmap Z A) : list A := map snd (map_to_list m).

(** a row of [students] as the object the driver returns *)
Definition student_object (r : student_row) : object :=
  [("student_id", JNum (student_id r));
   ("student_name", of_text (student_name r));
   ("student_email", of_text (student_email r));
   ("student_password", of_text (student_password r));
   ("student_department", of_text (student_department r));
   ("student_project_id", of_int (student_project_id r));
   ("student_token", of_text (student_token r))].

Definition student_of_object (id : Z) (o : object) : student_row :=
  {| student_id := id;
     student_name := text_value (get "student_name" o);
     student_email := text_value (get "student_email" o);
     student_password := text_value (get "student_password" o);
     student_department := text_value (get "student_department" o);
     student_project_id := int_value (get "student_project_id" o);
     student_token := text_value (get "student_token" o) |}.

Definition same_text (a b : option string) : bool :=
  match a, b with
  | Some x, Some y => String.eqb x y
  | _, _ => false
  end.

Definition with_students (m : gmap Z student_row) (d : database) : database :=
  {| students := m; professor := professor d; projects := projects d;
     project_students := project_students d; comments := comments d;
     bookmarks := bookmarks d;
     department_name_type := department_name_type d;
     graduation_term_type := graduation_term_type d |}.

(** [select * from students where student_id = ?]; what is bound must be
    one value for the statement to be accepted *)
Definition select_student_by_id (id : jsval) (d : database)
    : (list object + sql_error) * database :=
  match scalar id with
  | None => (inr parse_error, d)
  | Some v =>
      (inl match int_value v with
           | Some z => map student_object (option_list (students d !! z))
           | None => []
           end, d)
  end.

(** [select * from students where student_email = ?] *)
Definition select_student_by_email (email : jsval) (d : database)
    : (list object + sql_error) * database :=
  (inl (map student_object
          (List.filter (fun r => same_text (student_email r) (text_value email))
                       (rows (students d)))), d).

(** Modelled from the spec: [insert into students set ?]. The ID is the
    primary key and the email is unique; a violation is the duplicate-entry
    error of the server. *)
Definition insert_student (o : object) (d : database)
    : (unit + sql_error) * database :=
  match int_value (get "student_id" o) with
  | None => (inr bad_key, d)
  | Some id =>
      match students d !! id with
      | Some _ => (inr (duplicate_entry "PRIMARY"), d)
      | None =>
          if existsb (fun r => same_text (student_email r)
                                 (text_value (get "student_email" o)))
                     (rows (students d))
          then (inr (duplicate_entry "student_email"), d)
          else (inl tt,
                with_students (<[id := student_of_object id o]> (students d)) d)
      end
  end.

Definition with_professor (m : gmap Z professor_row) (d : database) : database :=
  {| students := students d; professor := m; projects := projects d;
     project_students := project_students d; comments := comments d;
     bookmarks := bookmarks d;
     department_name_type := department_name_type d;
     graduation_term_type := graduation_term_type d |}.

Definition with_projects (m : gmap Z project_row) (d : database) : database :=
  {| students := students d; professor := professor d; projects := m;
     project_students := project_students d; comments := comments d;
     bookmarks := bookmarks d;
     department_name_type := department_name_type d;
     graduation_term_type := graduation_term_type d |}.

Definition with_project_students (l : list project_student_row)
    (d : database) : database :=
  {| students := students d; professor := professor d; projects := projects d;
     project_students := l; comments := comments d;
     bookmarks := bookmarks d;
     department_name_type := department_name_type d;
     graduation_term_type := graduation_term_type d |}.

Definition with_comments (m : gmap Z comment_row) (d : database) : database :=
  {| students := students d; professor := professor d; projects := projects d;
     project_students := project_students d; comments := m;
     bookmarks := bookmarks d;
     department_name_type := department_name_type d;
     graduation_term_type := graduation_term_type d |}.

Definition with_bookmarks (m : gmap Z bookmark_row) (d : database) : database :=
  {| students := students d; professor := professor d; projects := projects d;
     project_students := project_students d; comments := comments d;
     bookmarks := m;
     department_name_type := department_name_type d;
     graduation_term_type := graduation_term_type d |}.

Definition with_department_name_type (t : string) (d : database) : database :=
  {| students := students d; professor := professor d; projects := projects d;
     project_students := project_students d; comments := comments d;
     bookmarks := bookmarks d;
     department_name_type := t;
     graduation_term_type := graduation_term_type d |}.

Definition with_graduation_term_type (t : string) (d : database) : database :=
  {| students := students d; professor := professor d; projects := projects d;
     project_students := project_students d; comments := comments d;
     bookmarks := bookmarks d;
     department_name_type := department_name_type d;
     graduation_term_type := t |}.

Definition professor_of_object (id : Z) (o : object) : professor_row :=
  {| professor_id := id;
     professor_name := text_value (get "professor_name" o);
     professor_email := text_value (get "professor_email" o);
     professor_password := text_value (get "professor_password" o);
     professor_department := text_value (get "professor_department" o);
     professor_token := text_value (get "professor_token" o) |}.

(** Modelled from the spec: [INSERT INTO professor SET ?]. ID and email
    are unique; a violation is the duplicate-entry error of the server. *)
Definition insert_professor (o : object) (d : database)
    : (unit + sql_error) * database :=
  match int_value (get "professor_id" o) with
  | None => (inr bad_key, d)
  | Some id =>
      match professor d !! id with
      | Some _ => (inr (duplicate_entry "PRIMARY"), d)
      | None =>
          if existsb (fun r => same_text (professor_email r)
                                 (text_value (get "professor_email" o)))
                     (rows (professor d))
          then (inr (duplicate_entry "professor_email"), d)
          else (inl tt,
                with_professor
                  (<[id := professor_of_object id o]> (professor d)) d)
      end
  end.

(** [SELECT student_id FROM project_students WHERE student_id IN (?)]
    with the list of IDs bound to the placeholder. An empty list is
    written [IN ()], which the server refuses. *)
Definition select_project_students_in (ids : list Z) (d : database)
    : (list Z + sql_error) * database :=
  match ids with
  | [] => (inr parse_error, d)
  | _ :: _ =>
      (inl (map ps_student_id
              (List.filter (fun r => existsb (Z.eqb (ps_student_id r)) ids)
                           (project_students d))), d)
  end.

(** [INSERT INTO projects (...) VALUES (...)] under the generated key *)
Definition insert_project (r : project_row) (id : Z) (d : database)
    : (unit + sql_error) * database :=
  match projects d !! id with
  | Some _ => (inr (duplicate_entry "PRIMARY"), d)
  | None => (inl tt, with_projects (<[id := r]> (projects d)) d)
  end.

(** [INSERT INTO project_students (project_id, student_name, student_id)
    VALUES (?, ?, ?)] *)
Definition insert_project_student (r : project_student_row) (d : database)
    : (unit + sql_error) * database :=
  (inl tt, with_project_students (project_students d ++ [r]) d).

(** the [affectedRows] of a delete by primary key *)
Definition affected {A} (m : gmap Z A) (id : Z) : Z :=
  match m !! id with Some _ => 1 | None => 0 end.

(** [DELETE FROM Projects WHERE project_id = ?] *)
Definition delete_project (id : Z) (d : database)
    : (Z + sql_error) * database :=
  (inl (affected (projects d) id),
   with_projects (base.delete id (projects d)) d).

(** [DELETE FROM comments WHERE comment_id = ?] *)
Definition delete_comment (id : Z) (d : database)
    : (Z + sql_error) * database :=
  (inl (affected (comments d) id),
   with_comments (base.delete id (comments d)) d).

(** [DELETE FROM bookmarks WHERE bookmark_id = ?] *)
Definition delete_bookmark (id : Z) (d : database)
    : (Z + sql_error) * database :=
  (inl (affected (bookmarks d) id),
   with_bookmarks (base.delete id (bookmarks d)) d).

(** [DELETE FROM Students WHERE student_id = ?] *)
Definition delete_student (id : Z) (d : database)
    : (Z + sql_error) * database :=
  (inl (affected (students d) id),
   with_students (base.delete id (students d)) d).

(** [SHOW COLUMNS FROM projects LIKE "department_name"]: the [Type] of the
    one row returned *)
Definition show_department_name (d : database)
    : (string + sql_error) * database :=
  (inl (department_name_type d), d).

Definition show_graduation_term (d : database)
    : (string + sql_error) * database :=
  (inl (graduation_term_type d), d).

(** Modelled from the spec: [ALTER TABLE projects MODIFY department_name
    ENUM(...)]. The column then reports the value list as it was written
    in the statement; a statement the server rejects is a forced failure. *)
Definition alter_department_name (definition : string) (d : database)
    : (unit + sql_error) * database :=
  (inl tt, with_department_name_type ("enum(" ++ definition ++ ")") d).

Definition alter_graduation_term (definition : string) (d : database)
    : (unit + sql_error) * database :=
  (inl tt, with_graduation_term_type ("enum(" ++ definition ++ ")") d).

End Sql.

(** ** routes/authentication.js: login and registration *)

(** [res.status(c).json(b)] *)
Definition respond (c : Z) (b : jsval) : M response :=
  ret {| status := c; json := b |}.

Section Authentication.
Context `{Bcrypt} `{EmailSyntax}.

Definition login_errors (req : request) : list jsval :=
  let student_id := value "student_id" (body req) in
  let password := value "password" (body req) in
  standard isInt "student_id" student_id
    "Please enter a valid student ID (integer)" ++
  standard (isLength 8 12) "password" password
    "Password should be between (8-12) characters".

Definition not_found_body : jsval :=
  errors_body [JObj [("msg", JStr "Student ID or password not found!")]].

(** [router.post("/student-login", ...)] *)
Definition student_login (req : request) : M response :=
  try_catch
    (let errors := login_errors req in
     if negb (Nat.eqb (length errors) 0) then
       respond 400 (errors_body errors)
     else
       student ← await (conn_query "select * from students where student_id = ?"
                    (Sql.select_student_by_id
                       (value "student_id" (body req))));
       match student with
       | [] => respond 404 not_found_body
       | student0 :: _ =>
           checkPassword ← compare (value "password" (body req))
                                   (get "student_password" student0);
           if (checkPassword : bool) then
             let student0 := JS.delete "student_password" student0 in
             newToken ← random_hex;
             let student0 := JS.set "student_token" (JStr newToken) student0 in
             respond 200 (JObj student0)
           else
             respond 404 not_found_body
       end)
    (fun err =>
       console_error "Error logging in student:";;
       respond 500 (err_body "Server error")).

Definition register_errors (req : request) : list jsval :=
  let email := value "email" (body req) in
  let student_name := value "student_name" (body req) in
  let password := value "password" (body req) in
  standard isEmail "email" email "Please enter a valid email!" ++
  email_domain "email" email ++
  check (isString student_name) "student_name" student_name
    "Please enter a valid name" ++
  standard (isLength 10 20) "student_name" student_name
    "Name should be between (10-20) characters" ++
  standard (isLength 8 12) "password" password
    "Password should be between (8-12) characters".

(** [router.post("/student-register", ...)]. Its three
    [await conn.query(...)] pass no callback: each yields the query
    object, whose [length] is [undefined], and [undefined > 0] is false. *)
Definition student_register (req : request) : M response :=
  try_catch
    (let errors := register_errors req in
     if negb (Nat.eqb (length errors) 0) then
       respond 400 (errors_body errors)
     else
       checkStudentIdExists ←
         conn_query_detached "select * from students where student_id = ?"
           (Sql.select_student_by_id (value "student_id" (body req)));
       if greater (get "length" checkStudentIdExists) 0 then
         respond 409 (error_body "Student ID already exists!")
       else
         checkEmailExists ←
           conn_query_detached "select * from students where student_email = ?"
             (Sql.select_student_by_email (value "email" (body req)));
         if greater (get "length" checkEmailExists) 0 then
           respond 409 (error_body "Email already exists!")
         else
           hashed ← hash (value "password" (body req)) 10;
           token ← random_hex;
           let studentData :=
             [("student_id", value "student_id" (body req));
              ("student_name", value "student_name" (body req));
              ("student_email", value "email" (body req));
              ("student_password", JStr hashed);
              ("student_department", value "student_department" (body req));
              ("student_project_id", JNull);
              ("student_token", JStr token)] in
           conn_query_detached "insert into students set ? "
             (Sql.insert_student studentData);;
           let studentData := JS.delete "student_password" studentData in
           respond 201 (JObj studentData))
    (fun err =>
       console_error "Error registering student:";;
       respond 500 (err_body "Server error")).

End Authentication.

(** ** routes/authentication.js: project registration *)

(** The names bound at the top level of [routes/authentication.js]: the
    [require]d modules of its first lines, its constants and its function
    declarations. Any other free name is looked up among the globals of
    the runtime. *)
Definition module_scope : list string :=
  ["router"; "conn"; "body"; "validationResult"; "util"; "bcrypt"; "crypto";
   "multer"; "path"; "express"; "saltRounds"; "storage"; "upload";
   "checkExistingStudents"; "startTransaction"; "commitTransaction";
   "rollbackTransaction"; "insertProject"; "insertProjectStudent";
   "insertComment"; "getProjectDetails"; "checkBookmarkExists";
   "insertBookmark"; "insertProfessor"; "hashPassword"].

(** what the module wrapper and the runtime provide *)
Definition runtime_globals : list string :=
  ["exports"; "require"; "module"; "__filename"; "__dirname"; "console";
   "process"; "Date"; "Promise"; "Error"].

Definition bound (x : string) : bool :=
  existsb (String.eqb x) (module_scope ++ runtime_globals).

Definition checkExistingStudents (studentIds : list Z) : M (list Z) :=
  await (conn_query
           "SELECT student_id FROM project_students WHERE student_id IN (?)"
           (Sql.select_project_students_in studentIds)).

Definition startTransaction : M unit := await conn_beginTransaction.

Definition commitTransaction : M unit := await conn_commit.

Definition rollbackTransaction : M unit := await conn_rollback.

(** resolves to the insert result; [insertId] is what is used of it *)
Definition insertProject
    (title description supervisor_name graduation_year graduation_term
     department_name project_files_path github_link : option string) : M Z :=
  await (conn_insert
           "INSERT INTO projects (title, description, supervisor_name, graduation_year, graduation_term, department_name, project_files_path, github_link, approval_status, total_votes) VALUES (?, ?, ?, ?, ?, ?, ?, ?, 'pending', 0)"
           (Sql.insert_project
              {| title := title; description := description;
                 supervisor_name := supervisor_name;
                 graduation_year := graduation_year;
                 graduation_term := graduation_term;
                 department_name := department_name;
                 project_files_path := project_files_path;
                 github_link := github_link;
                 approval_status := "pending"; total_votes := 0 |})).

Definition insertProjectStudent (projectId : Z) (studentName : option string)
    (studentId : Z) : M unit :=
  await (conn_query
           "INSERT INTO project_students (project_id, student_name, student_id) VALUES (?, ?, ?)"
           (Sql.insert_project_student
              {| ps_project_id := projectId; ps_student_name := studentName;
                 ps_student_id := studentId |})).

(** [for (const x of l) { await f(x); }] *)
Fixpoint for_of {A} (l : list A) (f : A -> M unit) : M unit :=
  match l with
  | [] => ret tt
  | x :: rest => f x;; for_of rest f
  end.

(** the three statements of a registration, as they appear in the log *)
Definition select_membership : string :=
  "SELECT student_id FROM project_students WHERE student_id IN (?)".

Definition insert_projects : string :=
  "INSERT INTO projects (title, description, supervisor_name, graduation_year, graduation_term, department_name, project_files_path, github_link, approval_status, total_votes) VALUES (?, ?, ?, ?, ?, ?, ?, ?, 'pending', 0)".

Definition insert_membership : string :=
  "INSERT INTO project_students (project_id, student_name, student_id) VALUES (?, ?, ?)".

(** the row [insertProjectStudent] writes for a teammate *)
Definition membership (projectId : Z) (t : teammate) : project_student_row :=
  {| ps_project_id := projectId; ps_student_name := name t;
     ps_student_id := studentId t |}.

(** [router.post("/register-project", upload.single("projectFile"), ...)]:
    the [try] block *)
Definition register_project_try (req : request) : M response :=
  let title := field "title" (body req) in
  let description := field "description" (body req) in
  let supervisor_name := field "supervisor_name" (body req) in
  let graduation_year := field "graduation_year" (body req) in
  let graduation_term := field "graduation_term" (body req) in
  let department_name := field "department_name" (body req) in
  let github_link := field "github_link" (body req) in
  let project_file_path := file req in
  teammates ←
    match teammateData req with
    | Some l => ret l
    | None =>
        throw (TypeError "Cannot read properties of undefined (reading 'map')")
    end;
  let studentIds := map studentId (teammates : list teammate) in
  existingStudents ← checkExistingStudents studentIds;
  if (0 <? length (existingStudents : list Z))%nat then
    respond 400
      (error_body "One or more students are already associated with a project")
  else
    startTransaction;;
    projectId ← insertProject title description supervisor_name
                  graduation_year graduation_term department_name
                  project_file_path github_link;
    (if (0 <? length teammates)%nat then
       for_of teammates
         (fun teammate =>
            insertProjectStudent projectId (name teammate)
              (studentId teammate))
     else ret tt);;
    commitTransaction;;
    respond 201
      (message_body "Project and student associations created successfully").

(** the [catch (err)] block of the same handler *)
Definition register_project_catch (req : request) (err : exn) : M response :=
  let project_file_path := file req in
  console_error "Error in project creation or student association:";;
  rollbackTransaction;;
  (if negb (falsy project_file_path) then
     if bound "fs" then
       fs_unlink (JS.template project_file_path)
         (fun unlinkErr =>
            if (unlinkErr : bool)
            then console_error "Error deleting uploaded file:"
            else ret tt)
     else throw (ReferenceError "fs is not defined")
   else ret tt);;
  respond 500
    (error_body "Server error during project creation. Transaction has been rolled back.").

Definition register_project (req : request) : M response :=
  try_catch (register_project_try req) (register_project_catch req).

(** ** Delete by ID (both route files) *)

(** [router.delete('/projects/:id', ...)] *)
Definition delete_project (req : request) : M response :=
  let projectId := param "id" (params req) in
  r ← conn_query "DELETE FROM Projects WHERE project_id = ?"
        (Sql.delete_project projectId);
  match r with
  | inr err => respond 500 (error_body "Error deleting project")
  | inl result => respond 200 (message_body "Project deleted successfully")
  end.

(** [router.delete("/delete-comment/:comment_id", ...)] *)
Definition delete_comment (req : request) : M response :=
  let comment_id := param "comment_id" (params req) in
  try_catch
    (r ← conn_query "DELETE FROM comments WHERE comment_id = ?"
           (Sql.delete_comment comment_id);
     match r with
     | inr err =>
         console_error "Error deleting comment:";;
         respond 500 (error_body "Server error")
     | inl affectedRows =>
         if 0 <? affectedRows
         then respond 200 (message_body "Comment deleted successfully")
         else respond 404 (error_body "Comment not found")
     end)
    (fun err =>
       console_error "Error deleting comment:";;
       respond 500 (error_body "Server error")).

(** [router.delete("/delete-bookmarks/:bookmark_id", ...)] *)
Definition delete_bookmarks (req : request) : M response :=
  let bookmarkId := param "bookmark_id" (params req) in
  try_catch
    (r ← conn_query "DELETE FROM bookmarks WHERE bookmark_id = ?"
           (Sql.delete_bookmark bookmarkId);
     match r with
     | inr err =>
         console_error "Error deleting bookmark:";;
         respond 500 (error_body "Server error")
     | inl affectedRows =>
         if 0 <? affectedRows
         then respond 200 (message_body "Bookmark deleted successfully")
         else respond 404 (error_body "Bookmark not found")
     end)
    (fun err =>
       console_error "Error deleting bookmark:";;
       respond 500 (error_body "Server error")).

(** [router.delete('/comments/:comment_id', ...)] *)
Definition delete_comments (req : request) : M response :=
  let commentId := param "comment_id" (params req) in
  r ← conn_query "DELETE FROM Comments WHERE comment_id = ?"
        (Sql.delete_comment commentId);
  match r with
  | inr err => respond 500 (error_body "Error deleting comment")
  | inl affectedRows =>
      if 0 <? affectedRows
      then respond 200 (message_body "Comment deleted successfully")
      else respond 404 (error_body "Comment not found")
  end.

(** [router.delete('/delete-student/:student_id', ...)] *)
Definition delete_student (req : request) : M response :=
  let studentId := param "student_id" (params req) in
  r ← conn_query "DELETE FROM Students WHERE student_id = ?"
        (Sql.delete_student studentId);
  match r with
  | inr err => respond 500 (error_body "Error deleting student account")
  | inl affectedRows =>
      if 0 <? affectedRows
      then respond 200 (message_body "Student account deleted successfully")
      else respond 404 (error_body "Student account not found")
  end.

(** ** routes/admin.js: professor registration *)

Section Professors.
Context `{Bcrypt} `{EmailSyntax}.

Definition professor_errors (req : request) : list jsval :=
  let professor_email := value "professor_email" (body req) in
  let password := value "password" (body req) in
  let professor_department := value "professor_department" (body req) in
  let professor_id := value "professor_id" (body req) in
  standard isEmail "professor_email" professor_email
    "Please enter a valid email" ++
  email_domain "professor_email" professor_email ++
  standard (isLength 8 12) "password" password
    "Password should be between 8 to 12 characters" ++
  check (isString professor_department) "professor_department"
    professor_department "Please enter a valid department" ++
  standard isInt "professor_id" professor_id
    "Please enter a valid professor ID (integer)".

(** [err.sqlMessage && err.sqlMessage.includes("Duplicate entry")] *)
Definition is_duplicate_entry (err : exn) : bool :=
  match err with
  | SqlError e =>
      negb (String.eqb (sqlMessage e) "") &&
      str_includes "Duplicate entry" (sqlMessage e)
  | _ => false
  end.

(** [router.post("/professor-register", ...)]. The
    [await conn.query(...)] of the insert passes no callback, so no error
    of the statement is thrown into the [try] block. *)
Definition professor_register (req : request) : M response :=
  try_catch
    (let errors := professor_errors req in
     if negb (Nat.eqb (length errors) 0) then
       respond 400 (errors_body errors)
     else
       hashed ← hash (value "password" (body req)) 10;
       token ← random_hex;
       let professorData :=
         [("professor_id", value "professor_id" (body req));
          ("professor_name", value "professor_name" (body req));
          ("professor_email", value "professor_email" (body req));
          ("professor_password", JStr hashed);
          ("professor_department", value "professor_department" (body req));
          ("professor_token", JStr token)] in
       conn_query_detached "INSERT INTO professor SET ?"
         (Sql.insert_professor professorData);;
       let professorData := JS.delete "professor_password" professorData in
       respond 201 (JObj professorData))
    (fun err =>
       console_error "Error registering professor:";;
       if is_duplicate_entry err then
         respond 409 (error_body "Duplicate entry for Professor ID or Email")
       else
         respond 500 (error_body "Server error")).

End Professors.

(** ** routes/admin.js: departments and graduation terms *)

Module Taxonomy.

Definition apostrophe : ascii := "'"%char.

Definition quotation_mark : string := String (ascii_of_nat 34) EmptyString.

(** a text without apostrophe *)
Fixpoint plain (s : string) : bool :=
  match s with
  | EmptyString => true
  | String c s' => negb (Ascii.eqb c apostrophe) && plain s'
  end.

(** an option as the handlers can read it back: not empty, no apostrophe *)
Definition readable (o : string) : Prop := plain o = true /\ o <> "".

(** [`'${option}'`] *)
Definition literal (option : string) : string := "'" ++ option ++ "'".

(** The scan behind [Type.match(/'([^']+)'/g)], left to right. [run] is
    [Some r] after an opening apostrophe, [r] being the characters read
    since. A closing apostrophe after at least one character completes a
    match; an apostrophe right after an apostrophe opens anew. *)
Fixpoint scan (s : string) (run : option string) : list string :=
  match s with
  | EmptyString => []
  | String c s' =>
      if Ascii.eqb c apostrophe then
        match run with
        | Some r =>
            if String.eqb r "" then scan s' (Some "")
            else literal r :: scan s' None
        | None => scan s' (Some "")
        end
      else
        match run with
        | Some r => scan s' (Some (r ++ String c EmptyString))
        | None => scan s' None
        end
  end.

(** [String.prototype.match] with a global pattern: [null] without a match *)
Definition match_quoted (s : string) : option (list string) :=
  match scan s None with
  | [] => None
  | l => Some l
  end.

(** [option.replace(/'/g, '')] *)
Fixpoint strip (s : string) : string :=
  match s with
  | EmptyString => EmptyString
  | String c s' =>
      if Ascii.eqb c apostrophe then strip s' else String c (strip s')
  end.

(** [result[0].Type.match(/'([^']+)'/g).map(option => option.replace(/'/g,
    '')).filter(option => option !== '')] *)
Definition current_options (type : string) : M (list string) :=
  match match_quoted type with
  | None => throw (TypeError "Cannot read properties of null (reading 'map')")
  | Some found =>
      ret (List.filter (fun option => negb (String.eqb option ""))
                       (map strip found))
  end.

(** [updatedOptions.map(option => `'${option}'`).join(',')] *)
Definition enum_definition (updatedOptions : list jsval) : string :=
  join "," (map (fun option => literal (text option)) updatedOptions).

(** [router.post('/departments', ...)] *)
Definition post_departments (req : request) : M response :=
  let newDepartmentName := value "department_name" (body req) in
  r ← conn_query
        ("SHOW COLUMNS FROM projects LIKE " ++ quotation_mark ++
         "department_name" ++ quotation_mark)
        Sql.show_department_name;
  match r with
  | inr err => respond 500 (error_body "Error retrieving department names")
  | inl type =>
      currentOptions ← current_options type;
      if includes currentOptions newDepartmentName then
        respond 400 (error_body "Department name already exists")
      else
        let updatedOptions :=
          (map JStr currentOptions ++ [newDepartmentName])%list in
        let newEnumDefinition := enum_definition updatedOptions in
        r ← conn_query
              ("ALTER TABLE projects MODIFY department_name ENUM(" ++
               newEnumDefinition ++ ")")
              (Sql.alter_department_name newEnumDefinition);
        match r with
        | inr err => respond 500 (error_body "Error adding new department")
        | inl _ => respond 200 (message_body "New department added successfully")
        end
  end.

(** [router.delete('/departments', ...)] *)
Definition delete_departments (req : request) : M response :=
  let departmentName := value "department_name" (body req) in
  if falsy_value departmentName then
    respond 400 (error_body "Department name is required in the request body")
  else
    r ← conn_query
          ("SHOW COLUMNS FROM projects LIKE " ++ quotation_mark ++
           "department_name" ++ quotation_mark)
          Sql.show_department_name;
    match r with
    | inr err => respond 500 (error_body "Error retrieving department names")
    | inl type =>
        currentOptions ← current_options type;
        if negb (includes currentOptions departmentName) then
          respond 404 (error_body "Department name not found in ENUM")
        else
          let updatedOptions :=
            List.filter (fun option => negb (is_text option departmentName))
                        currentOptions in
          let newEnumDefinition := enum_definition (map JStr updatedOptions) in
          r ← conn_query
                ("ALTER TABLE projects MODIFY department_name ENUM(" ++
                 newEnumDefinition ++ ")")
                (Sql.alter_department_name newEnumDefinition);
          match r with
          | inr err => respond 500 (error_body "Error deleting department")
          | inl _ => respond 200 (message_body "Department deleted successfully")
          end
    end.

(** [router.post('/graduation-terms', ...)] *)
Definition post_graduation_terms (req : request) : M response :=
  let newGraduationTerm := value "graduation_term" (body req) in
  r ← conn_query
        ("SHOW COLUMNS FROM projects LIKE " ++ quotation_mark ++
         "graduation_term" ++ quotation_mark)
        Sql.show_graduation_term;
  match r with
  | inr err => respond 500 (error_body "Error retrieving graduation terms")
  | inl type =>
      currentOptions ← current_options type;
      if includes currentOptions newGraduationTerm then
        respond 400 (error_body "Graduation term already exists")
      else
        let updatedOptions :=
          (map JStr currentOptions ++ [newGraduationTerm])%list in
        let newEnumDefinition := enum_definition updatedOptions in
        r ← conn_query
              ("ALTER TABLE projects MODIFY graduation_term ENUM(" ++
               newEnumDefinition ++ ")")
              (Sql.alter_graduation_term newEnumDefinition);
        match r with
        | inr err => respond 500 (error_body "Error adding new graduation term")
        | inl _ =>
            respond 200 (message_body "New graduation term added successfully")
        end
  end.

(** [router.delete('/graduation-terms', ...)] *)
Definition delete_graduation_terms (req : request) : M response :=
  let graduationTerm := value "graduation_term" (body req) in
  if falsy_value graduationTerm then
    respond 400 (error_body "Graduation term is required in the request body")
  else
    r ← conn_query
          ("SHOW COLUMNS FROM projects LIKE " ++ quotation_mark ++
           "graduation_term" ++ quotation_mark)
          Sql.show_graduation_term;
    match r with
    | inr err => respond 500 (error_body "Error retrieving graduation terms")
    | inl type =>
        currentOptions ← current_options type;
        if negb (includes currentOptions graduationTerm) then
          respond 404 (error_body "Graduation term not found in ENUM")
        else
          let updatedOptions :=
            List.filter (fun option => negb (is_text option graduationTerm))
                        currentOptions in
          let newEnumDefinition := enum_definition (map JStr updatedOptions) in
          r ← conn_query
                ("ALTER TABLE projects MODIFY graduation_term ENUM(" ++
                 newEnumDefinition ++ ")")
                (Sql.alter_graduation_term newEnumDefinition);
          match r with
          | inr err => respond 500 (error_body "Error deleting graduation term")
          | inl _ =>
              respond 200 (message_body "Graduation term deleted successfully")
          end
    end.

(** the allowed values as [GET /show-departments] reports them *)
Definition department_names (w : world) : option (list string) :=
  match match_quoted (department_name_type (tables w)) with
  | None => None
  | Some found =>
      Some (List.filter (fun option => negb (String.eqb option ""))
                        (map strip found))
  end.

End Taxonomy.

(** ** Sample data *)

Module Sample.

Definition first_char (s : string) : ascii :=
  match s with
  | String c _ => c
  | EmptyString => "."%char
  end.

Definition rest (s : string) : string :=
  match s with
  | String _ s' => s'
  | EmptyString => EmptyString
  end.

(** exactly [n] characters: [s] cut or filled with dots *)
Fixpoint pad (n : nat) (s : string) : string :=
  match n with
  | O => EmptyString
  | S n' => String (first_char s) (pad n' (rest s))
  end.

(** a stand-in with the shape of bcrypt's output: prefix, 22 characters of
    salt, 31 characters of digest *)
Definition toy_bcrypt : Bcrypt :=
  {| bcrypt_hash data rounds salt := "$2b$10$" ++ pad 22 salt ++ pad 31 data;
     bcrypt_compare data encrypted :=
       String.eqb (substring 29 31 encrypted) (pad 31 data);
     bcrypt_hash_length := fun _ _ _ => eq_refl |}.

Definition toy_email : EmailSyntax :=
  {| isEmail s := str_includes "@" s |}.

Definition empty_db : database :=
  {| students := ∅; professor := ∅; projects := ∅; project_students := [];
     comments := ∅; bookmarks := ∅;
     department_name_type := "enum('CS','IS')";
     graduation_term_type := "enum('Fall','Spring')" |}.

Definition world_of (d : database) (stored : list string)
    (forced : list (option sql_error)) : world :=
  {| tables := d; txn := None; auto_increment := 1;
     files := list_to_set stored; faults := forced;
     entropy := ["c29tZXNhbHRzb21lc2FsdA"; "9f86d081884c7d659a2feaa0c55ad015"];
     events := [] |}.

Definition mona : student_row :=
  {| student_id := 20201;
     student_name := Some "Mona Ibrahim";
     student_email := Some "mona@fci.helwan.edu.eg";
     student_password := Some (@bcrypt_hash toy_bcrypt "s3cretpass" 10 "salt");
     student_department := Some "CS";
     student_project_id := None;
     student_token := Some "0123456789abcdef0123456789abcdef" |}.

Definition campus : database :=
  {| students := {[ 20201 := mona ]};
     professor := ∅;
     projects := ∅;
     project_students :=
       [ {| ps_project_id := 7; ps_student_name := Some "Omar";
            ps_student_id := 20177 |} ];
     comments := {[ 3 := {| comment_project_id := 7; commenter_id := 20201;
                            commenter_name := Some "Mona Ibrahim";
                            comment_text := Some "Nice work" |} ]};
     bookmarks := {[ 5 := {| bookmark_student_id := 20201;
                             bookmark_project_id := 7;
                             bookmark_title := Some "Portal" |} ]};
     department_name_type := "enum('CS','IS')";
     graduation_term_type := "enum('Fall','Spring')" |}.

Definition login_request (id password : string) : request :=
  {| body := form [("student_id", id); ("password", password)];
     params := []; teammateData := None; file := None |}.

Definition registration : request :=
  {| body := form [("student_id", "20305"); ("student_name", "Youssef Adel");
              ("email", "youssef@fci.helwan.edu.eg");
              ("password", "longpassw0"); ("student_department", "IS")];
     params := []; teammateData := None; file := None |}.

Definition project_request (team : list teammate) (upload : option string)
    : request :=
  {| body := form [("title", "Portal"); ("description", "A project portal");
              ("supervisor_name", "Dr. Salma"); ("graduation_year", "2024");
              ("graduation_term", "Spring"); ("department_name", "CS");
              ("github_link", "https://github.com/example/portal");
              ("approval_status", "Approved"); ("total_votes", "99")];
     params := []; teammateData := Some team; file := upload |}.

Definition team : list teammate :=
  [ {| name := Some "Mona"; studentId := 20201 |};
    {| name := Some "Youssef"; studentId := 20305 |} ].

Definition professor_registration : request :=
  {| body := form [("professor_id", "77");
                   ("professor_name", "Dr. Salma Nabil");
                   ("professor_email", "salma@fci.helwan.edu.eg");
                   ("password", "s3cretpass"); ("professor_department", "CS")];
     params := []; teammateData := None; file := None |}.

Definition by_id (k : string) (id : Z) : request :=
  {| body := []; params := [(k, id)]; teammateData := None; file := None |}.

Definition named (k v : string) : request :=
  {| body := form [(k, v)]; params := []; teammateData := None;
     file := None |}.

Definition lost_connection : sql_error :=
  {| code := "PROTOCOL_CONNECTION_LOST";
     sqlMessage := "Connection lost: The server closed the connection." |}.

Definition duplicate_key : sql_error :=
  {| code := "ER_DUP_ENTRY";
     sqlMessage := "Duplicate entry '20305' for key 'PRIMARY'" |}.

End Sample.

(** ** Further statements of the route files *)

Module Rows.

(** [SELECT student_name FROM students WHERE student_id = ?] *)
Definition select_student_name (id : jsval) (d : database)
    : (list object + sql_error) * database :=
  match Sql.scalar id with
  | None => (inr Sql.parse_error, d)
  | Some v =>
      (inl match Sql.int_value v with
           | Some z =>
               map (fun r => [("student_name", of_text (student_name r))])
                   (option_list (students d !! z))
           | None => []
           end, d)
  end.

(** Modelled from the spec: [INSERT INTO comments (project_id, commenter_id,
    commenter_name, comment_text) VALUES (?, ?, ?, ?)] under the generated
    key. The commenter is an integer column; no existence of the project
    or of the commenter is required. *)
Definition insert_comment (project : Z) (commenter name_found text : jsval)
    (id : Z) (d : database) : (unit + sql_error) * database :=
  match Sql.int_value commenter with
  | Some c =>
      match comments d !! id with
      | Some _ => (inr (Sql.duplicate_entry "PRIMARY"), d)
      | None =>
          (inl tt,
           Sql.with_comments
             (<[id := {| comment_project_id := project; commenter_id := c;
                         commenter_name := Sql.text_value name_found;
                         comment_text := Sql.text_value text |}]>
                (comments d)) d)
      end
  | None => (inr Sql.bad_key, d)
  end.

(** a row of [comments] as the object the driver returns *)
Definition comment_object (entry : Z * comment_row) : object :=
  [("comment_id", JNum (fst entry));
   ("project_id", JNum (comment_project_id (snd entry)));
   ("commenter_id", JNum (commenter_id (snd entry)));
   ("commenter_name", of_text (commenter_name (snd entry)));
   ("comment_text", of_text (comment_text (snd entry)))].

(** [SELECT * FROM comments WHERE project_id = ?] *)
Definition select_comments (project : Z) (d : database)
    : (list object + sql_error) * database :=
  (inl (map comment_object
          (List.filter (fun entry => Z.eqb (comment_project_id (snd entry)) project)
                       (map_to_list (comments d)))), d).

(** one row of the join of [bookmarks] with [projects] *)
Definition bookmark_listing (d : database) (entry : Z * bookmark_row)
    : list object :=
  match projects d !! bookmark_project_id (snd entry) with
  | Some p =>
      [[("bookmark_id", JNum (fst entry));
        ("title", of_text (title p));
        ("department_name", of_text (department_name p));
        ("total_votes", JNum (total_votes p))]]
  | None => []
  end.

(** [SELECT bookmarks.bookmark_id, projects.title, projects.department_name,
    projects.total_votes FROM bookmarks INNER JOIN projects ON
    bookmarks.project_id = projects.project_id WHERE bookmarks.student_id =
    ?] *)
Definition select_bookmarks (student : Z) (d : database)
    : (list object + sql_error) * database :=
  (inl (flat_map (bookmark_listing d)
          (List.filter (fun entry => Z.eqb (bookmark_student_id (snd entry)) student)
                       (map_to_list (bookmarks d)))), d).

(** Modelled from the spec: [INSERT INTO professor (professor_name,
    professor_email, professor_password, professor_department,
    professor_token) VALUES (?, ?, ?, ?, ?)]. No ID is given, the row gets
    the generated key; the email is unique. *)
Definition insert_professor_row (o : object) (id : Z) (d : database)
    : (unit + sql_error) * database :=
  match professor d !! id with
  | Some _ => (inr (Sql.duplicate_entry "PRIMARY"), d)
  | None =>
      if existsb (fun r => Sql.same_text (professor_email r)
                             (Sql.text_value (get "professor_email" o)))
                 (Sql.rows (professor d))
      then (inr (Sql.duplicate_entry "professor_email"), d)
      else (inl tt,
            Sql.with_professor
              (<[id := Sql.professor_of_object id o]> (professor d)) d)
  end.

End Rows.

(** ** routes/authentication.js: comments *)

(** [insertComment(project_id, commenter_id, comment_text)]: resolves to
    the insert result, of which [insertId] is used *)
Definition insertComment (project_id : Z) (commenter_id comment_text : jsval)
    : M Z :=
  r ← conn_query "SELECT student_name FROM students WHERE student_id = ?"
        (Rows.select_student_name commenter_id);
  match r with
  | inr err => throw (SqlError err)
  | inl results =>
      let commenter_name :=
        match (results : list object) with
        | row :: _ => get "student_name" row
        | [] => JNull
        end in
      await (conn_insert
               "INSERT INTO comments (project_id, commenter_id, commenter_name, comment_text) VALUES (?, ?, ?, ?)"
               (Rows.insert_comment project_id commenter_id commenter_name
                  comment_text))
  end.

(** [router.post('/add-comment/:project_id', ...)] *)
Definition add_comment (req : request) : M response :=
  let commenter_id := value "commenter_id" (body req) in
  let comment_text := value "comment_text" (body req) in
  let project_id := param "project_id" (params req) in
  try_catch
    (insertId ← insertComment project_id commenter_id comment_text;
     respond 201
       (JObj [("message", JStr "Comment added successfully");
              ("comment_id", JNum insertId)]))
    (fun err =>
       console_error "Error adding comment:";;
       respond 500 (error_body "Server error while adding comment")).

(** [router.get("/show-comments/:project_id", ...)] *)
Definition show_comments (req : request) : M response :=
  let project_id := param "project_id" (params req) in
  try_catch
    (r ← conn_query "SELECT * FROM comments WHERE project_id = ?"
           (Rows.select_comments project_id);
     match r with
     | inr err =>
         console_error "Error fetching comments:";;
         respond 500 (error_body "Server error")
     | inl results =>
         respond 200 (JObj [("comments", JArr (map JObj results))])
     end)
    (fun err =>
       console_error "Error fetching comments:";;
       respond 500 (error_body "Server error")).

(** ** routes/authentication.js: bookmarks of a student *)

(** [router.get("/show-bookmarks/:student_id", ...)] *)
Definition show_bookmarks (req : request) : M response :=
  let studentId := param "student_id" (params req) in
  try_catch
    (r ← conn_query
           "SELECT bookmarks.bookmark_id, projects.title, projects.department_name, projects.total_votes FROM bookmarks INNER JOIN projects ON bookmarks.project_id = projects.project_id WHERE bookmarks.student_id = ?"
           (Rows.select_bookmarks studentId);
     match r with
     | inr err =>
         console_error "Error retrieving bookmarks:";;
         respond 500 (error_body "Server error")
     | inl result => respond 200 (JArr (map JObj result))
     end)
    (fun err =>
       console_error "Error retrieving bookmarks:";;
       respond 500 (error_body "Server error")).

(** ** routes/authentication.js: professors created by the admin *)

(** [const saltRounds = 10] *)
Definition saltRounds : Z := 10.

Section CreateProfessor.
Context `{Bcrypt}.

(** [hashPassword(password)]: the [catch] rethrows *)
Definition hashPassword (password : jsval) : M string :=
  try_catch (hash password saltRounds) (fun error => throw error).

Definition insertProfessor (name email : jsval) (password : string)
    (department : jsval) (token : string) : M Z :=
  await (conn_insert
           "INSERT INTO professor (professor_name, professor_email, professor_password, professor_department, professor_token) VALUES (?, ?, ?, ?, ?)"
           (Rows.insert_professor_row
              [("professor_name", name);
               ("professor_email", email);
               ("professor_password", JStr password);
               ("professor_department", department);
               ("professor_token", JStr token)])).

(** [router.post("/create-professor", ...)] *)
Definition create_professor (req : request) : M response :=
  let name := value "name" (body req) in
  let email := value "email" (body req) in
  let password := value "password" (body req) in
  let department := value "department" (body req) in
  try_catch
    (token ← random_hex;
     hashedPassword ← hashPassword password;
     insertProfessor name email hashedPassword department token;;
     respond 201
       (JObj [("message", JStr "Professor created successfully");
              ("token", JStr token)]))
    (fun error =>
       console_error "Error creating professor:";;
       respond 500 (error_body "Server error while creating professor")).

End CreateProfessor.

(** ** routes/admin.js: listing the departments *)

(** [router.get('/show-departments', ...)] *)
Definition show_departments (req : request) : M response :=
  r ← conn_query
        ("SHOW COLUMNS FROM projects LIKE " ++ Taxonomy.quotation_mark ++
         "department_name" ++ Taxonomy.quotation_mark)
        Sql.show_department_name;
  match r with
  | inr err => respond 500 (error_body "Error retrieving department names")
  | inl type =>
      currentOptions ← Taxonomy.current_options type;
      respond 200
        (JObj [("department_names", JArr (map JStr currentOptions))])
  end.

(** the options the handlers read out of the text of an ENUM column *)
Definition options_of (type : string) : option (list string) :=
  match Taxonomy.match_quoted type with
  | None => None
  | Some found =>
      Some (List.filter (fun option => negb (String.eqb option ""))
                        (map Taxonomy.strip found))
  end.

(** the allowed graduation terms *)
Definition graduation_terms (w : world) : option (list string) :=
  options_of (graduation_term_type (tables w)).

(** ** More sample data *)

Module Cases.

Definition portal : project_row :=
  {| title := Some "Portal"; description := Some "A project portal";
     supervisor_name := Some "Dr. Salma"; graduation_year := Some "2024";
     graduation_term := Some "Spring"; department_name := Some "CS";
     project_files_path := None; github_link := None;
     approval_status := "Approved"; total_votes := 12 |}.

(** the sample tables with project 7 in place and a bookmark on a project
    that is gone *)
Definition campus : database :=
  Sql.with_bookmarks
    (<[6 := {| bookmark_student_id := 20201; bookmark_project_id := 8;
               bookmark_title := Some "Gone" |}]>
       (bookmarks Sample.campus))
    (Sql.with_projects {[ 7 := portal ]} Sample.campus).

Definition world_of (forced : list (option sql_error)) : world :=
  {| tables := campus; txn := None; auto_increment := 10;
     files := ∅; faults := forced;
     entropy := ["9f86d081884c7d659a2feaa0c55ad015"; "c29tZXNhbHRzb21lc2FsdA"];
     events := [] |}.

Definition comment_by (commenter text : string) : request :=
  {| body := form [("commenter_id", commenter); ("comment_text", text)];
     params := [("project_id", 7)]; teammateData := None; file := None |}.

Definition new_professor : request :=
  {| body := form [("name", "Dr. Hany Farid");
                   ("email", "hany@fci.helwan.edu.eg");
                   ("password", "s3cretpass"); ("department", "IS")];
     params := []; teammateData := None; file := None |}.

Definition unnamed_professor : request :=
  {| body := form [("name", "Dr. Hany Farid");
                   ("email", "hany@fci.helwan.edu.eg")];
     params := []; teammateData := None; file := None |}.

Definition nothing : request :=
  {| body := []; params := []; teammateData := None; file := None |}.

Definition mona_again : request :=
  {| body := form [("student_id", "20201"); ("student_name", "Mona Ibrahim");
              ("email", "mona2@fci.helwan.edu.eg");
              ("password", "s3cretpass")];
     params := []; teammateData := None; file := None |}.

Definition mona_mail : request :=
  {| body := form [("student_id", "20999"); ("student_name", "Mona Ibrahim");
              ("email", "mona@fci.helwan.edu.eg");
              ("password", "s3cretpass")];
     params := []; teammateData := None; file := None |}.

(** a JSON login whose password is a number of eight digits *)
Definition numeric_login (id : string) : request :=
  {| body := [("student_id", JStr id); ("password", JNum 12345678)];
     params := []; teammateData := None; file := None |}.

(** a JSON login whose student_id is an empty array *)
Definition login_without_id : request :=
  {| body := [("student_id", JArr []); ("password", JStr "longpassw0")];
     params := []; teammateData := None; file := None |}.

(** a JSON body whose department name is the number 5 *)
Definition department_five : request :=
  {| body := [("department_name", JNum 5)];
     params := []; teammateData := None; file := None |}.

Definition outsider : request :=
  {| body := form [("student_id", "20400"); ("student_name", "Karim Mostafa");
              ("email", "karim@gmail.com"); ("password", "s3cretpass")];
     params := []; teammateData := None; file := None |}.

End Cases.

(** * Properties *)

Open Scope list_scope.

(** ** Running handlers *)

Create HintDb handler discriminated.

#[global] Hint Unfold mbind M_bind mret M_ret bind ret throw try_catch modify
  respond await next_fault random_hex console_error conn_query conn_insert
  conn_query_detached conn_beginTransaction conn_commit conn_rollback
  : handler.

Ltac run := autounfold with handler; cbn.

#[local] Arguments Sql.int_value : simpl never.

(** ** Reading the body *)

Lemma field_value (k : string) (b : list (string * jsval)) (s : string) :
  field k b = Some s -> value k b = JStr s.
Proof.
  unfold field. destruct (value k b); intros Heq; try discriminate.
  injection Heq as ->. reflexivity.
Qed.

Lemma int_value_field (k : string) (b : list (string * jsval)) (id : Z) :
  Sql.int_value (of_field (field k b)) = Some id ->
  exists s, value k b = JStr s /\ Sql.int_value (JStr s) = Some id.
Proof.
  destruct (field k b) as [s |] eqn:Hfield; cbn [of_field]; intros Hid.
  - exists s. split; [apply field_value; exact Hfield | exact Hid].
  - discriminate.
Qed.

Lemma text_value_value (k : string) (b : list (string * jsval)) :
  Sql.text_value (value k b) = field k b.
Proof. reflexivity. Qed.

Section LoginProperties.
Context `{Bcrypt}.

Lemma check_false (path : string) (value : jsval) (msg : string) :
  check false path value msg = [field_error path value msg].
Proof. reflexivity. Qed.

Lemma isLength_false (min max : nat) (s : string) :
  (characters s < min \/ max < characters s)%nat ->
  isLength min max s = false.
Proof.
  intros Hlen. unfold isLength. apply andb_false_iff.
  destruct Hlen as [Hlt | Hgt].
  - left. apply Nat.leb_gt. exact Hlt.
  - right. apply Nat.leb_gt. exact Hgt.
Qed.

Lemma standard_shape (validator : string -> bool) (path : string)
    (v : jsval) (msg : string) :
  Forall (fun e => exists path value msg, e = field_error path value msg)
         (standard validator path v msg).
Proof.
  unfold standard. induction (values v) as [| x l IH]; cbn; [constructor |].
  apply Forall_app. split; [| exact IH].
  unfold check. destruct (validator _); repeat constructor; eauto.
Qed.

(** a standard validator reports exactly the values it refuses *)
Lemma standard_nil (validator : string -> bool) (path : string)
    (v : jsval) (msg : string) :
  standard validator path v msg = [] <->
  forall x, In x (values v) -> validator (to_string x) = true.
Proof.
  unfold standard. induction (values v) as [| x l IH]; cbn.
  - split; [intros _ y [] | reflexivity].
  - split.
    + intros Hnil y [<- | Hin].
      * destruct (validator (to_string x)); [reflexivity | discriminate].
      * apply app_eq_nil in Hnil. apply IH; [apply Hnil | exact Hin].
    + intros Hall. rewrite (Hall x) by (left; reflexivity). cbn.
      apply IH. intros y Hin. apply Hall. right. exact Hin.
Qed.

Lemma standard_refuses (validator : string -> bool) (path : string)
    (v x : jsval) (msg : string) :
  In x (values v) -> validator (to_string x) = false ->
  standard validator path v msg <> [].
Proof.
  intros Hin Hbad Hnil.
  rewrite (proj1 (standard_nil validator path v msg) Hnil x Hin) in Hbad.
  discriminate.
Qed.

(** C10: a login in which a value given as student_id is not an integer,
    or a value given as password is shorter than 8 or longer than 12
    characters, is answered 400 with a non-empty list of field errors, and
    the handler has touched nothing: no statement reached the gateway. The
    values of a field are its elements when it holds an array, and
    otherwise the one value it holds. *)
Theorem student_login_invalid_400 (req : request) (w : world) :
  (exists x, In x (values (value "student_id" (body req))) /\
             isInt (to_string x) = false) \/
  (exists x, In x (values (value "password" (body req))) /\
             (characters (to_string x) < 8 \/
              12 < characters (to_string x))%nat) ->
  exists errors,
    errors = login_errors req /\
    errors <> [] /\
    Forall (fun e => exists path value msg, e = field_error path value msg)
           errors /\
    student_login req w =
      (inl {| status := 400; json := errors_body errors |}, w).
Proof.
  intros Hbad.
  assert (Hshape : Forall (fun e => exists path value msg,
                             e = field_error path value msg)
                          (login_errors req)).
  { unfold login_errors. apply Forall_app. split; apply standard_shape. }
  assert (Hne : login_errors req <> []).
  { unfold login_errors. intros Hnil. apply app_eq_nil in Hnil.
    destruct Hnil as [Hid Hpw].
    destruct Hbad as [(x & Hin & Hx) | (x & Hin & Hx)].
    - exact (standard_refuses _ _ _ _ _ Hin Hx Hid).
    - apply (isLength_false 8 12) in Hx.
      exact (standard_refuses _ _ _ _ _ Hin Hx Hpw). }
  exists (login_errors req). repeat split; try assumption.
  unfold student_login. run.
  destruct (login_errors req) as [| e errors]; [congruence | reflexivity].
Qed.

End LoginProperties.

(** a login with a malformed ID and a short password *)
Lemma student_login_invalid_400_witness :
  exists errors,
    errors = @login_errors (Sample.login_request "2020x" "short") /\
    errors <> [] /\
    Forall (fun e => exists path value msg, e = field_error path value msg)
           errors /\
    @student_login Sample.toy_bcrypt (Sample.login_request "2020x" "short")
      (Sample.world_of Sample.campus [] []) =
      (inl {| status := 400; json := errors_body errors |},
       Sample.world_of Sample.campus [] []).
Proof.
  apply (@student_login_invalid_400 Sample.toy_bcrypt).
  left. exists (JStr "2020x"). split; [left; reflexivity | reflexivity].
Defined.

(** a password of eight Arabic letters, sixteen bytes, is within the
    bounds; one of six letters, twelve bytes, is not *)
Example isLength_counts_characters :
  String.length "كلمةسرية" = 16%nat /\
  characters "كلمةسرية" = 8%nat /\
  login_errors (Sample.login_request "20201" "كلمةسرية") = [] /\
  String.length "سريةكل" = 12%nat /\
  login_errors (Sample.login_request "20201" "سريةكل") <> [].
Proof. repeat split; try reflexivity. discriminate. Qed.

(** C10 as stated fails for a JSON login whose student_id is the empty
    array. That is no integer, yet there is no value in it for the
    validator to refuse: validation passes, the lookup is sent, the server
    refuses the statement written for an empty array, and the answer is
    500, not 400. *)
Lemma student_login_claim_counterexample :
  let req := Cases.login_without_id in
  let w := Sample.world_of Sample.campus [] [] in
  let r := @student_login Sample.toy_bcrypt req w in
  isInt (to_string (value "student_id" (body req))) = false /\
  Sql.int_value (value "student_id" (body req)) = None /\
  login_errors req = [] /\
  fst r = inl {| status := 500; json := err_body "Server error" |} /\
  events (snd r) =
    [Query "select * from students where student_id = ?";
     ConsoleError "Error logging in student:"].
Proof. cbv zeta. repeat split; vm_compute; reflexivity. Qed.

Section LoginOutcomes.
Context `{Bcrypt}.

Lemma login_record_fields (row : student_row) (token k : string) :
  k <> "student_password" -> k <> "student_token" ->
  get k (JS.set "student_token" (JStr token)
           (JS.delete "student_password" (Sql.student_object row))) =
  get k (Sql.student_object row).
Proof.
  intros Hpw Htok. cbn.
  repeat match goal with
         | |- context [String.eqb k ?s] =>
             destruct (String.eqb_spec k s); try congruence
         end.
Qed.

(** what a validated login does once its lookup is answered *)
Lemma student_login_found (req : request) (w : world) (id : Z) :
  login_errors req = [] ->
  hd None (faults w) = None ->
  Sql.int_value (of_field (field "student_id" (body req))) = Some id ->
  student_login req w =
  let w1 :=
    set_tables (tables w)
      (set_faults (tl (faults w))
         (add_event (Query "select * from students where student_id = ?") w))
  in
  match students (tables w) !! id with
  | None => (inl {| status := 404; json := not_found_body |}, w1)
  | Some row =>
      try_catch
        (checkPassword ← compare (value "password" (body req))
                           (of_text (student_password row));
         if (checkPassword : bool) then
           newToken ← random_hex;
           respond 200
             (JObj (JS.set "student_token" (JStr newToken)
                      (JS.delete "student_password"
                         (Sql.student_object row))))
         else respond 404 not_found_body)
        (fun _ =>
           console_error "Error logging in student:";;
           respond 500 (err_body "Server error"))
        w1
  end.
Proof.
  intros Hvalid Hfault Hid.
  destruct (int_value_field _ _ _ Hid) as (s & Hvalue & Hs).
  unfold student_login. rewrite Hvalid. run.
  rewrite Hfault. cbn. rewrite Hvalue. cbn. rewrite Hs.
  destruct (students (tables w) !! id); reflexivity.
Qed.

(** On the path the handler was written for, a password that is a text
    against a stored hash, an unknown ID and a known ID with a password
    that does not match get the same response, status 404 with the one
    generic body; a matching password gets 200 with the stored record,
    without its password field and with a fresh token in place of the
    stored one. *)
Lemma student_login_text_password (req : request) (w : world) (id : Z)
    (password : string) :
  login_errors req = [] ->
  hd None (faults w) = None ->
  Sql.int_value (of_field (field "student_id" (body req))) = Some id ->
  field "password" (body req) = Some password ->
  (students (tables w) !! id = None ->
   fst (student_login req w) =
     inl {| status := 404; json := not_found_body |}) /\
  (forall row stored,
     students (tables w) !! id = Some row ->
     student_password row = Some stored ->
     bcrypt_compare password stored = false ->
     fst (student_login req w) =
       inl {| status := 404; json := not_found_body |}) /\
  (forall row stored,
     students (tables w) !! id = Some row ->
     student_password row = Some stored ->
     bcrypt_compare password stored = true ->
     exists o,
       fst (student_login req w) = inl {| status := 200; json := JObj o |} /\
       has "student_password" o = false /\
       get "student_password" o = JUndefined /\
       forall k, k <> "student_password" -> k <> "student_token" ->
                 get k o = get k (Sql.student_object row)).
Proof.
  intros Hvalid Hfault Hid Hpw.
  pose proof (student_login_found req w id Hvalid Hfault Hid) as Hrun.
  cbv zeta in Hrun. rewrite (field_value _ _ _ Hpw) in Hrun.
  repeat split.
  - intros Hnone. rewrite Hrun, Hnone. reflexivity.
  - intros row stored Hrow Hstored Hcmp.
    rewrite Hrun, Hrow, Hstored. unfold compare. run.
    rewrite Hcmp. reflexivity.
  - intros row stored Hrow Hstored Hcmp.
    rewrite Hrun, Hrow, Hstored. unfold compare. run.
    rewrite Hcmp. cbn.
    eexists. split; [reflexivity |].
    split; [reflexivity |]. split; [reflexivity |].
    intros k Hk1 Hk2. apply login_record_fields; assumption.
Qed.

(** A validated login under a known ID is answered 500, not the generic
    404, as soon as the comparison cannot be made: when the password of
    the body is no text, or when the stored row has no password. *)
Lemma student_login_compare_throws (req : request) (w : world) (id : Z)
    (row : student_row) :
  login_errors req = [] ->
  hd None (faults w) = None ->
  Sql.int_value (of_field (field "student_id" (body req))) = Some id ->
  students (tables w) !! id = Some row ->
  field "password" (body req) = None \/ student_password row = None ->
  fst (student_login req w) =
    inl {| status := 500; json := err_body "Server error" |}.
Proof.
  intros Hvalid Hfault Hid Hrow Hbad.
  rewrite (student_login_found req w id Hvalid Hfault Hid), Hrow.
  cbv zeta. unfold compare, field in *.
  destruct Hbad as [Hpw | Hstored].
  - destruct (value "password" (body req)); try discriminate;
      destruct (student_password row); reflexivity.
  - rewrite Hstored.
    destruct (value "password" (body req)); reflexivity.
Qed.

End LoginOutcomes.

(** C8: the login handler reveals whether an ID exists. A JSON login whose
    password is the number 12345678 passes validation, the number having
    eight digits. Under the ID of a stored student it is answered 500
    with the body of the catch block, because the comparison refuses a
    password that is no text; under an ID nobody has it is answered the
    generic 404. *)
Theorem student_login_numeric_password :
  let w := Sample.world_of Sample.campus [] [] in
  students (tables w) !! 20201 = Some Sample.mona /\
  students (tables w) !! 99999 = None /\
  login_errors (Cases.numeric_login "20201") = [] /\
  login_errors (Cases.numeric_login "99999") = [] /\
  fst (@student_login Sample.toy_bcrypt (Cases.numeric_login "20201") w) =
    inl {| status := 500; json := err_body "Server error" |} /\
  fst (@student_login Sample.toy_bcrypt (Cases.numeric_login "99999") w) =
    inl {| status := 404; json := not_found_body |}.
Proof. vm_compute. repeat split. Qed.

Section RegistrationProperties.
Context `{Bcrypt} `{EmailSyntax}.

Lemma check_nil (ok : bool) (path : string) (value : jsval) (msg : string) :
  check ok path value msg = [] -> ok = true.
Proof. destruct ok; [reflexivity | discriminate]. Qed.

Lemma quiet_next (n : nat) (forced : list (option sql_error)) :
  quiet (S n) forced = true ->
  hd None forced = None /\ quiet n (tl forced) = true.
Proof.
  destruct forced as [| [e |] rest]; cbn; intros Hq.
  - split; [reflexivity | destruct n; reflexivity].
  - discriminate.
  - split; [reflexivity | exact Hq].
Qed.

Lemma text_value_of_field (f : option string) :
  Sql.text_value (of_field f) = f.
Proof. destruct f; reflexivity. Qed.

Lemma same_text_eq (a b : option string) :
  Sql.same_text a b = true -> a = b.
Proof.
  destruct a as [x |], b as [y |]; cbn; try discriminate.
  intros Heq. apply String.eqb_eq in Heq. congruence.
Qed.

Lemma no_row_with_email (email : option string) (l : list student_row) :
  (forall r, In r l -> student_email r <> email) ->
  List.filter (fun r => Sql.same_text (student_email r) email) l = [] /\
  existsb (fun r => Sql.same_text (student_email r) email) l = false.
Proof.
  induction l as [| r l IH]; intros Hfresh; cbn; [split; reflexivity |].
  destruct (Sql.same_text (student_email r) email) eqn:Hsame.
  - apply same_text_eq in Hsame. exfalso. apply (Hfresh r); [left |]; auto.
  - apply IH. intros r' Hin. apply Hfresh. right. exact Hin.
Qed.

(** a character takes at most four bytes *)
Lemma characters_from_bound (s : string) (pending : nat) :
  (pending <= 3)%nat ->
  (String.length s <= pending + 4 * characters_from pending s)%nat.
Proof.
  revert pending. induction s as [| c s IH]; intros pending Hp; cbn.
  - lia.
  - destruct (is_continuation c).
    + destruct pending as [| p].
      * specialize (IH 0%nat). lia.
      * specialize (IH p). lia.
    + assert (Ht : (trail c <= 3)%nat).
      { unfold trail. repeat destruct (_ <? _)%nat; lia. }
      specialize (IH (trail c) Ht). lia.
Qed.

Lemma characters_bound (s : string) :
  (String.length s <= 4 * characters s)%nat.
Proof. apply (characters_from_bound s 0). lia. Qed.

Lemma valid_password_length (req : request) (password : string) :
  register_errors req = [] ->
  field "password" (body req) = Some password ->
  isLength 8 12 password = true.
Proof.
  unfold register_errors. intros Hnil Hpw.
  repeat (apply app_eq_nil in Hnil; destruct Hnil as [_ Hnil]).
  rewrite (field_value _ _ _ Hpw) in Hnil.
  apply (proj1 (standard_nil _ _ _ _) Hnil (JStr password)).
  left. reflexivity.
Qed.

(** a statement sent without a callback: whatever comes of it, the call
    yields the query object *)
Lemma conn_query_detached_run {A} (sql : string)
    (exec : database -> (A + sql_error) * database) (w : world) :
  exists w',
    conn_query_detached sql exec w = (inl [("sql", JStr sql)], w') /\
    tables w' = match hd None (faults w) with
                | Some _ => tables w
                | None => tables_after exec (tables w)
                end /\
    txn w' = txn w /\ auto_increment w' = auto_increment w /\
    files w' = files w /\ faults w' = tl (faults w) /\
    entropy w' = entropy w /\ events w' = events w ++ [Query sql].
Proof.
  unfold tables_after. run.
  destruct (hd None (faults w)); cbn.
  - eexists. split; [reflexivity |]. repeat split.
  - destruct (exec (tables w)) as [[a | e] d]; cbn;
      eexists; (split; [reflexivity |]); repeat split.
Qed.

Lemma select_student_by_id_keeps (v : jsval) (d : database) :
  tables_after (Sql.select_student_by_id v) d = d.
Proof.
  unfold tables_after, Sql.select_student_by_id.
  destruct (Sql.scalar v); reflexivity.
Qed.

Lemma select_student_by_email_keeps (v : jsval) (d : database) :
  tables_after (Sql.select_student_by_email v) d = d.
Proof. reflexivity. Qed.

(** what the handler sends to [insert into students set ?] *)
Lemma student_register_valid (req : request) (w : world) (password : string) :
  register_errors req = [] ->
  field "password" (body req) = Some password ->
  let salt := hd "00000000000000000000000000000000" (entropy w) in
  let token := hd "00000000000000000000000000000000" (tl (entropy w)) in
  let studentData :=
    [("student_id", value "student_id" (body req));
     ("student_name", value "student_name" (body req));
     ("student_email", value "email" (body req));
     ("student_password", JStr (bcrypt_hash password 10 salt));
     ("student_department", value "student_department" (body req));
     ("student_project_id", JNull);
     ("student_token", JStr token)] in
  let r := student_register req w in
  fst r = inl {| status := 201;
                 json := JObj (JS.delete "student_password" studentData) |} /\
  tables (snd r) =
    match hd None (tl (tl (faults w))) with
    | Some _ => tables w
    | None => tables_after (Sql.insert_student studentData) (tables w)
    end /\
  txn (snd r) = txn w /\
  files (snd r) = files w /\
  faults (snd r) = tl (tl (tl (faults w))) /\
  events (snd r) =
    events w ++
    [Query "select * from students where student_id = ?";
     Query "select * from students where student_email = ?";
     Query "insert into students set ? "].
Proof.
  intros Hvalid Hpw salt token studentData r. subst r.
  unfold student_register. rewrite Hvalid.
  cbn [length Nat.eqb negb].
  unfold try_catch, mbind, M_bind, bind.
  destruct (conn_query_detached_run
              "select * from students where student_id = ?"
              (Sql.select_student_by_id (value "student_id" (body req))) w)
    as (w1 & -> & Ht1 & Hx1 & _ & Hfi1 & Hfa1 & Hen1 & Hev1).
  cbn [get greater String.eqb Ascii.eqb Bool.eqb].
  destruct (conn_query_detached_run
              "select * from students where student_email = ?"
              (Sql.select_student_by_email (value "email" (body req))) w1)
    as (w2 & -> & Ht2 & Hx2 & _ & Hfi2 & Hfa2 & Hen2 & Hev2).
  cbn [get greater String.eqb Ascii.eqb Bool.eqb].
  unfold hash. rewrite (field_value _ _ _ Hpw).
  unfold mbind, M_bind, bind, random_hex, ret. cbn [fst snd].
  match goal with
  | |- context [conn_query_detached ?sql ?exec ?w3] =>
      destruct (conn_query_detached_run sql exec w3)
        as (w4 & -> & Ht4 & Hx4 & _ & Hfi4 & Hfa4 & Hen4 & Hev4)
  end.
  cbn in Ht4, Hx4, Hfi4, Hfa4, Hev4.
  rewrite select_student_by_id_keeps in Ht1.
  assert (Ht1' : tables w1 = tables w)
    by (destruct (hd None (faults w)); exact Ht1).
  assert (Ht2' : tables w2 = tables w).
  { rewrite Ht2, select_student_by_email_keeps.
    destruct (hd None (faults w1)); exact Ht1'. }
  unfold respond, ret. cbn [fst snd].
  rewrite Ht4, Hx4, Hfi4, Hfa4, Hev4, Hfa2, Hfa1, Hev2, Hev1, Hx2, Hx1,
    Hfi2, Hfi1, Ht2', Hen2, Hen1, <- !app_assoc.
  repeat split.
Qed.

(** C9: a registration that passes validation, with an ID and an email no
    stored student has and a gateway that answers, is answered 201 with a
    body that has no password field, and the row stored under the ID holds
    as its password the bcrypt hash of the submitted password, which is
    not the submitted password. *)
Theorem student_register_stores_hash (req : request) (w : world) (id : Z)
    (password : string) :
  register_errors req = [] ->
  field "password" (body req) = Some password ->
  Sql.int_value (of_field (field "student_id" (body req))) = Some id ->
  students (tables w) !! id = None ->
  (forall r, In r (Sql.rows (students (tables w))) ->
             student_email r <> field "email" (body req)) ->
  quiet 3 (faults w) = true ->
  let salt := hd "00000000000000000000000000000000" (entropy w) in
  exists o row,
    fst (student_register req w) = inl {| status := 201; json := JObj o |} /\
    has "student_password" o = false /\
    students (tables (snd (student_register req w))) !! id = Some row /\
    student_password row = Some (bcrypt_hash password 10 salt) /\
    student_password row <> Some password.
Proof.
  intros Hvalid Hpw Hid Hfree Hemail Hquiet salt.
  pose proof (valid_password_length req password Hvalid Hpw) as Hlen.
  apply quiet_next in Hquiet. destruct Hquiet as [_ Hquiet].
  apply quiet_next in Hquiet. destruct Hquiet as [_ Hquiet].
  apply quiet_next in Hquiet. destruct Hquiet as [Hf3 _].
  destruct (no_row_with_email _ _ Hemail) as [_ Hnot].
  destruct (int_value_field _ _ _ Hid) as (s & Hvalue & Hs).
  destruct (student_register_valid req w password Hvalid Hpw)
    as (Hout & Htables & _).
  rewrite Hf3 in Htables.
  unfold tables_after, Sql.insert_student in Htables.
  cbn [get String.eqb Ascii.eqb Bool.eqb] in Htables.
  rewrite Hvalue, Hs, Hfree in Htables.
  rewrite <- Hvalue, text_value_value, Hnot in Htables.
  eexists. eexists. split; [exact Hout |].
  split; [reflexivity |].
  split; [rewrite Htables; apply lookup_insert_eq |].
  split; [reflexivity |].
  cbn. intros Heq. injection Heq as Heq.
  pose proof (bcrypt_hash_length password 10 salt) as Hhash.
  fold salt in Heq. rewrite Heq in Hhash.
  pose proof (characters_bound password) as Hbytes.
  unfold isLength in Hlen.
  apply andb_true_iff in Hlen. destruct Hlen as [_ Hmax].
  apply Nat.leb_le in Hmax. lia.
Qed.

End RegistrationProperties.

(** a new student registering against the sample tables *)
Lemma student_register_stores_hash_witness :
  let req := Sample.registration in
  let w := Sample.world_of Sample.campus [] [] in
  exists o row,
    fst (@student_register Sample.toy_bcrypt Sample.toy_email req w) =
      inl {| status := 201; json := JObj o |} /\
    has "student_password" o = false /\
    students (tables (snd (@student_register Sample.toy_bcrypt
                             Sample.toy_email req w))) !! 20305 = Some row /\
    student_password row =
      Some (@bcrypt_hash Sample.toy_bcrypt "longpassw0" 10
              "c29tZXNhbHRzb21lc2FsdA") /\
    student_password row <> Some "longpassw0".
Proof.
  intros req w.
  apply (@student_register_stores_hash Sample.toy_bcrypt Sample.toy_email
           req w 20305 "longpassw0"); try reflexivity.
  intros r Hin. vm_compute in Hin.
  destruct Hin as [Hr | []]. subst r. discriminate.
Defined.

(** ** Project registration *)

Lemma with_project_students_same (d : database) :
  Sql.with_project_students (project_students d) d = d.
Proof. destruct d; reflexivity. Qed.

Lemma quiet_none (n : nat) (forced : list (option sql_error)) :
  hd None forced = None -> quiet (S n) forced = quiet n (tl forced).
Proof.
  destruct forced as [| [e |] rest]; cbn; intros Hhd;
    [destruct n; reflexivity | discriminate | reflexivity].
Qed.

Lemma quiet_some (n : nat) (forced : list (option sql_error))
    (e : sql_error) :
  hd None forced = Some e -> quiet (S n) forced = false.
Proof. destruct forced as [| [e' |] rest]; cbn; intros Hhd; congruence. Qed.

Lemma skipn_tl {A} (n : nat) (l : list A) :
  skipn (S n) l = skipn n (tl l).
Proof. destruct l; [destruct n |]; reflexivity. Qed.

(** the calls after the first [n] quiet ones *)
Lemma quiet_last (n : nat) (forced : list (option sql_error)) :
  quiet (n + 1) forced =
  match hd None (skipn n forced) with
  | None => quiet n forced
  | Some _ => false
  end.
Proof.
  revert forced. induction n as [| n IH]; intros forced.
  - destruct forced as [| [e |] rest]; reflexivity.
  - destruct forced as [| [e |] rest].
    + cbn [Nat.add skipn hd quiet]. reflexivity.
    + cbn [Nat.add quiet]. destruct (hd None (skipn (S n) (Some e :: rest)));
        reflexivity.
    + cbn [Nat.add quiet skipn]. apply IH.
Qed.

Lemma insertProjectStudent_run (projectId : Z) (studentName : option string)
    (studentId : Z) (w : world) :
  insertProjectStudent projectId studentName studentId w =
  let w1 :=
    set_faults (tl (faults w))
      (add_event (Query "INSERT INTO project_students (project_id, student_name, student_id) VALUES (?, ?, ?)") w) in
  match hd None (faults w) with
  | Some e => (inr (SqlError e), w1)
  | None =>
      (inl tt,
       set_tables
         (Sql.with_project_students
            (project_students (tables w) ++
             [{| ps_project_id := projectId; ps_student_name := studentName;
                 ps_student_id := studentId |}])
            (tables w)) w1)
  end.
Proof.
  unfold insertProjectStudent. run. destruct (hd None (faults w)); reflexivity.
Qed.

(** the teammate loop: it touches nothing but [project_students]; it runs
    to its end, every teammate then having a row, exactly when none of its
    inserts is forced to fail *)
Lemma insert_teammates_run (projectId : Z) (tm : list teammate) :
  forall (w : world) (out : unit + exn) (w' : world),
    for_of tm
      (fun teammate =>
         insertProjectStudent projectId (name teammate) (studentId teammate))
      w = (out, w') ->
    txn w' = txn w /\ files w' = files w /\
    (forall u, out = inl u ->
       tables w' =
         Sql.with_project_students
           (project_students (tables w) ++ map (membership projectId) tm)
           (tables w) /\
       events w' =
         events w ++
         repeat (Query "INSERT INTO project_students (project_id, student_name, student_id) VALUES (?, ?, ?)")
                (length tm) /\
       quiet (length tm) (faults w) = true /\
       faults w' = skipn (length tm) (faults w)) /\
    (forall e, out = inr e -> quiet (length tm) (faults w) = false).
Proof.
  induction tm as [| t tm IH]; intros w out w' Hrun.
  - cbn in Hrun. injection Hrun as <- <-.
    repeat split; try reflexivity; try discriminate.
    + rewrite app_nil_r. symmetry. apply with_project_students_same.
    + cbn. rewrite app_nil_r. reflexivity.
  - cbn [for_of] in Hrun. unfold mbind, M_bind, bind in Hrun.
    rewrite insertProjectStudent_run in Hrun. cbv zeta in Hrun.
    cbn [length].
    destruct (hd None (faults w)) as [e |] eqn:Hhd.
    + injection Hrun as <- <-.
      repeat split; intros; try discriminate.
      apply (quiet_some _ _ e Hhd).
    + apply IH in Hrun. destruct Hrun as (Htxn & Hfiles & Hok & Hfail).
      cbn [faults set_tables set_faults add_event] in Hok, Hfail.
      rewrite (quiet_none _ _ Hhd), skipn_tl.
      repeat split; try assumption.
      * destruct (Hok u H) as [Htab _]. rewrite Htab. cbn.
        rewrite <- app_assoc. reflexivity.
      * destruct (Hok u H) as (_ & Hev & _). rewrite Hev. cbn.
        rewrite <- app_assoc. reflexivity.
      * destruct (Hok u H) as (_ & _ & Hq & _). exact Hq.
      * destruct (Hok u H) as (_ & _ & _ & Hsk). exact Hsk.
Qed.

Lemma nobody_associated (tm : list teammate) (l : list project_student_row) :
  (forall t r, In t tm -> In r l -> ps_student_id r <> studentId t) ->
  List.filter (fun r => existsb (Z.eqb (ps_student_id r)) (map studentId tm)) l
  = [].
Proof.
  intros Hfree. induction l as [| r l IH]; [reflexivity |]. cbn.
  destruct (existsb _ _) eqn:Hex.
  - apply existsb_exists in Hex. destruct Hex as (id & Hin & Heq).
    apply in_map_iff in Hin. destruct Hin as (t & <- & Ht).
    apply Z.eqb_eq in Heq. exfalso.
    apply (Hfree t r); [exact Ht | left; reflexivity | exact Heq].
  - apply IH. intros t r' Ht Hr'. apply Hfree; [exact Ht | right; exact Hr'].
Qed.

Lemma somebody_associated (tm : list teammate) (l : list project_student_row)
    (t : teammate) (r : project_student_row) :
  In t tm -> In r l -> ps_student_id r = studentId t ->
  List.filter (fun r => existsb (Z.eqb (ps_student_id r)) (map studentId tm)) l
  <> [].
Proof.
  intros Ht Hr Heq Hnil.
  assert (Hin : In r (List.filter
                        (fun r => existsb (Z.eqb (ps_student_id r))
                                          (map studentId tm)) l)).
  { apply filter_In. split; [exact Hr |]. apply existsb_exists.
    exists (studentId t). split; [apply in_map; exact Ht |].
    apply Z.eqb_eq. exact Heq. }
  rewrite Hnil in Hin. destruct Hin.
Qed.

Section ProjectRegistration.

#[local] Arguments Sql.select_project_students_in : simpl never.

Lemma select_in_some (ids : list Z) (d : database) :
  ids <> [] ->
  Sql.select_project_students_in ids d =
  (inl (map ps_student_id
          (List.filter (fun r => existsb (Z.eqb (ps_student_id r)) ids)
                       (project_students d))), d).
Proof. destruct ids; [congruence | reflexivity]. Qed.

Lemma student_ids_nil (tm : list teammate) :
  map studentId tm = [] <-> tm = [].
Proof. destruct tm; split; intros Heq; try reflexivity; discriminate. Qed.

(** the lookup of the teammates: refused for an empty team *)
Lemma checkExistingStudents_run (tm : list teammate) (w : world) :
  checkExistingStudents (map studentId tm) w =
  let w1 :=
    set_faults (tl (faults w)) (add_event (Query select_membership) w) in
  match hd None (faults w) with
  | Some e => (inr (SqlError e), w1)
  | None =>
      match tm with
      | [] => (inr (SqlError Sql.parse_error), w1)
      | _ :: _ =>
          (inl (map ps_student_id
                  (List.filter
                     (fun r => existsb (Z.eqb (ps_student_id r))
                                       (map studentId tm))
                     (project_students (tables w)))),
           set_tables (tables w) w1)
      end
  end.
Proof.
  unfold checkExistingStudents. run.
  destruct (hd None (faults w)); [reflexivity |].
  destruct tm as [| t tm]; [reflexivity |].
  rewrite select_in_some by discriminate. reflexivity.
Qed.

(** the teammates pass the check when the lookup is answered and finds
    none of them *)
Lemma check_passes (tm : list teammate) (w : world) :
  fst (checkExistingStudents (map studentId tm) w) = inl [] <->
  tm <> [] /\ hd None (faults w) = None /\
  List.filter (fun r => existsb (Z.eqb (ps_student_id r)) (map studentId tm))
              (project_students (tables w)) = [].
Proof.
  rewrite checkExistingStudents_run. cbv zeta.
  destruct (hd None (faults w)).
  - split; [discriminate | intros (_ & Hf & _); discriminate].
  - destruct tm as [| t tm].
    + split; [discriminate | intros (Hne & _); congruence].
    + cbn [fst]. split.
      * intros Heq. injection Heq as Heq. apply map_eq_nil in Heq.
        repeat split; [discriminate | exact Heq].
      * intros (_ & _ & ->). reflexivity.
Qed.

(** every way the [try] block can end *)
Lemma register_project_try_cases (req : request) (w : world)
    (out : response + exn) (w' : world) :
  register_project_try req w = (out, w') ->
  (exists tm,
     teammateData req = Some tm /\ hd None (faults w) = None /\
     List.filter (fun r => existsb (Z.eqb (ps_student_id r)) (map studentId tm))
                 (project_students (tables w)) <> [] /\
     out = inl {| status := 400;
                  json := error_body "One or more students are already associated with a project" |} /\
     tables w' = tables w /\ txn w' = txn w /\ files w' = files w /\
     events w' = events w ++ [Query select_membership])
  \/
  (exists tm row,
     teammateData req = Some tm /\ hd None (faults w) = None /\
     List.filter (fun r => existsb (Z.eqb (ps_student_id r)) (map studentId tm))
                 (project_students (tables w)) = [] /\
     projects (tables w) !! auto_increment w = None /\
     approval_status row = "pending" /\ total_votes row = 0 /\
     project_files_path row = file req /\
     out = inl {| status := 201;
                  json := message_body "Project and student associations created successfully" |} /\
     txn w' = None /\ files w' = files w /\
     tables w' =
       Sql.with_project_students
         (project_students (tables w) ++ map (membership (auto_increment w)) tm)
         (Sql.with_projects (<[auto_increment w := row]> (projects (tables w)))
                            (tables w)) /\
     events w' =
       events w ++
       [Query select_membership; BeginTransaction; Query insert_projects] ++
       repeat (Query insert_membership) (length tm) ++ [Commit] /\
     tm <> [] /\
     quiet (length tm + 3) (tl (faults w)) = true /\
     row = {| title := field "title" (body req);
              description := field "description" (body req);
              supervisor_name := field "supervisor_name" (body req);
              graduation_year := field "graduation_year" (body req);
              graduation_term := field "graduation_term" (body req);
              department_name := field "department_name" (body req);
              project_files_path := file req;
              github_link := field "github_link" (body req);
              approval_status := "pending"; total_votes := 0 |})
  \/
  (exists e,
     out = inr e /\ files w' = files w /\
     (txn w = None -> committed w' = tables w) /\
     (forall tm,
        teammateData req = Some tm ->
        fst (checkExistingStudents (map studentId tm) w) = inl [] ->
        match projects (tables w) !! auto_increment w with
        | None => quiet (length tm + 3) (tl (faults w))
        | Some _ => false
        end = false)).
Proof.
  intros Hrun. unfold register_project_try in Hrun.
  destruct (teammateData req) as [tm |] eqn:Hteam.
  2: { cbn in Hrun. injection Hrun as <- <-. right. right.
       eexists. repeat split; [| discriminate].
       unfold committed. intros ->. reflexivity. }
  assert (Hsteps : (length tm + 3 = S (S (length tm + 1)))%nat) by lia.
  unfold checkExistingStudents, startTransaction, insertProject,
    commitTransaction in Hrun.
  autounfold with handler in Hrun. cbn in Hrun.
  destruct (hd None (faults w)) eqn:Hf1; cbn in Hrun.
  { injection Hrun as <- <-. right. right. eexists. repeat split.
    - unfold committed. cbn. intros ->. reflexivity.
    - intros tm' Hteam' Hcheck. apply check_passes in Hcheck.
      destruct Hcheck as (_ & Hf & _). congruence. }
  destruct (list_eq_nil_dec tm) as [-> | Hne].
  { cbn in Hrun. injection Hrun as <- <-. right. right. eexists.
    repeat split.
    - unfold committed. cbn. intros ->. reflexivity.
    - intros tm' Hteam' Hcheck. apply check_passes in Hcheck.
      destruct Hcheck as (Hne & _). congruence. }
  rewrite select_in_some in Hrun
    by (intros Hnil; apply student_ids_nil in Hnil; contradiction).
  cbn in Hrun.
  destruct (List.filter _ _) eqn:Hex; cbn in Hrun.
  2: { injection Hrun as <- <-. left. exists tm.
       repeat split; try reflexivity. rewrite Hex. discriminate. }
  destruct (hd None (tl (faults w))) eqn:Hf2; cbn in Hrun.
  { injection Hrun as <- <-. right. right. eexists. repeat split.
    - unfold committed. cbn. intros ->. reflexivity.
    - intros tm' Hteam' _. injection Hteam' as <-.
      rewrite Hsteps, (quiet_some _ _ _ Hf2).
      destruct (projects _ !! _); reflexivity. }
  destruct (hd None (tl (tl (faults w)))) eqn:Hf3; cbn in Hrun.
  { injection Hrun as <- <-. right. right. eexists. repeat split.
    intros tm' Hteam' _. injection Hteam' as <-.
    rewrite Hsteps, (quiet_none _ _ Hf2), (quiet_some _ _ _ Hf3).
    destruct (projects _ !! _); reflexivity. }
  unfold Sql.insert_project in Hrun.
  destruct (projects (tables w) !! auto_increment w) eqn:Hfresh; cbn in Hrun.
  { injection Hrun as <- <-. right. right. eexists. repeat split. }
  assert (Hguard : forall (f : teammate -> M unit) (W : world),
            (if match length tm with 0%nat => false | S _ => true end
             then for_of tm f else fun w0 : world => (inl tt, w0)) W =
            for_of tm f W)
    by (intros; destruct tm; reflexivity).
  rewrite Hguard in Hrun. clear Hguard.
  match type of Hrun with
  | (let (_, _) := ?loop ?w1 in _) = _ =>
      destruct (loop w1) as [r w2] eqn:Hloop
  end.
  apply insert_teammates_run in Hloop.
  destruct Hloop as (Htxn & Hfiles & Hok & Hfail). cbn in Htxn, Hfiles.
  cbn [faults set_tables set_faults set_txn set_auto_increment add_event]
    in Hok, Hfail.
  destruct r as [[] | e].
  2: { injection Hrun as <- <-. right. right. eexists. repeat split.
       - exact Hfiles.
       - unfold committed. rewrite Htxn. reflexivity.
       - intros tm' Hteam' _. injection Hteam' as <-.
         rewrite Hsteps, (quiet_none _ _ Hf2), (quiet_none _ _ Hf3),
           quiet_last, (Hfail e eq_refl).
         destruct (hd None (skipn _ _)); reflexivity. }
  destruct (Hok tt eq_refl) as (Htab & Hev & Hquiet & Hrest).
  cbn in Htab, Hev.
  destruct (hd None (faults w2)) eqn:Hf4; cbn in Hrun.
  { injection Hrun as <- <-. right. right. eexists. repeat split.
    - exact Hfiles.
    - unfold committed. cbn. rewrite Htxn. reflexivity.
    - intros tm' Hteam' _. injection Hteam' as <-.
      rewrite Hsteps, (quiet_none _ _ Hf2), (quiet_none _ _ Hf3),
        quiet_last, <- Hrest, Hf4. reflexivity. }
  injection Hrun as <- <-. right. left. eexists tm, _.
  repeat split; try eassumption; try reflexivity.
  - cbn. rewrite Hev. unfold select_membership, insert_projects,
      insert_membership. rewrite <- !app_assoc. reflexivity.
  - rewrite Hsteps, (quiet_none _ _ Hf2), (quiet_none _ _ Hf3),
      quiet_last, <- Hrest, Hf4. exact Hquiet.
Qed.

End ProjectRegistration.

(** how the [catch] block ends: with the error of a failed rollback, with
    the unbound [fs] when a file was uploaded, and with the 500 otherwise *)
Lemma register_project_catch_outcome (req : request) (err : exn) (w : world) :
  let r := register_project_catch req err w in
  fst r =
    match hd None (faults w) with
    | Some e => inr (SqlError e)
    | None =>
        if negb (falsy (file req))
        then inr (ReferenceError "fs is not defined")
        else inl {| status := 500;
                    json := error_body "Server error during project creation. Transaction has been rolled back." |}
    end /\
  files (snd r) = files w /\
  committed (snd r) = committed w /\
  In Rollback (events (snd r)).
Proof.
  unfold register_project_catch, rollbackTransaction. run.
  destruct (hd None (faults w)); cbn.
  - repeat split. apply in_or_app. right. left. reflexivity.
  - unfold committed.
    destruct (txn w) eqn:Htxn; cbn; destruct (falsy (file req)); cbn;
      rewrite ?Htxn; repeat split; apply in_or_app; right; left; reflexivity.
Qed.



(** the insert of the second teammate fails, no upload: the first
    teammate's row is gone with the rollback and 500 is answered *)
Example register_project_second_teammate_fails :
  let req := Sample.project_request Sample.team None in
  let w := Sample.world_of Sample.campus []
             [None; None; None; None; Some Sample.lost_connection] in
  fst (register_project req w) =
    inl {| status := 500;
           json := error_body "Server error during project creation. Transaction has been rolled back." |} /\
  tables (snd (register_project req w)) = tables w /\
  txn (snd (register_project req w)) = None /\
  events (snd (register_project req w)) =
    [Query select_membership; BeginTransaction; Query insert_projects;
     Query insert_membership; Query insert_membership;
     ConsoleError "Error in project creation or student association:";
     Rollback].
Proof. cbv zeta. repeat split; vm_compute; reflexivity. Qed.

(** an empty team: the lookup is refused by the server and the handler
    answers 500 without having begun a transaction *)
Example register_project_empty_team :
  let req := Sample.project_request [] None in
  let w := Sample.world_of Sample.campus [] [] in
  fst (register_project req w) =
    inl {| status := 500;
           json := error_body "Server error during project creation. Transaction has been rolled back." |} /\
  tables (snd (register_project req w)) = tables w /\
  events (snd (register_project req w)) =
    [Query select_membership;
     ConsoleError "Error in project creation or student association:";
     Rollback].
Proof. cbv zeta. repeat split; vm_compute; reflexivity. Qed.

(** C3: when a teammate already has a membership row and the lookup is
    answered, the handler answers 400 having issued that one SELECT and
    nothing else: no transaction is begun, no table changes, and the files
    on disk, the upload among them, stay as they were. *)
Theorem register_project_rejects_associated (req : request)
    (tm : list teammate) (t : teammate) (r : project_student_row)
    (w : world) :
  teammateData req = Some tm ->
  In t tm ->
  In r (project_students (tables w)) ->
  ps_student_id r = studentId t ->
  hd None (faults w) = None ->
  let out := fst (register_project req w) in
  let w' := snd (register_project req w) in
  out = inl {| status := 400;
               json := error_body "One or more students are already associated with a project" |} /\
  events w' = events w ++ [Query select_membership] /\
  tables w' = tables w /\
  txn w' = txn w /\
  files w' = files w.
Proof.
  intros Hteam Ht Hr Heq Hfault out w'. subst out w'.
  pose proof (somebody_associated tm _ t r Ht Hr Heq) as Hsome.
  unfold register_project, try_catch, register_project_try.
  rewrite Hteam. unfold mbind, M_bind, bind, mret, M_ret, ret.
  rewrite checkExistingStudents_run. cbv zeta. rewrite Hfault.
  destruct tm as [| t0 tm0]; [destruct Ht |].
  destruct (List.filter _ _) as [| r0 found]; [congruence |].
  cbn. repeat split.
Qed.

(** a team with a student who already belongs to project 7 *)
Lemma register_project_rejects_associated_witness :
  let taken := {| name := Some "Omar"; studentId := 20177 |} in
  let req := Sample.project_request [taken] (Some "project_files/1.rar") in
  let w := Sample.world_of Sample.campus ["project_files/1.rar"] [] in
  let out := fst (register_project req w) in
  let w' := snd (register_project req w) in
  out = inl {| status := 400;
               json := error_body "One or more students are already associated with a project" |} /\
  events w' = events w ++ [Query select_membership] /\
  tables w' = tables w /\
  txn w' = txn w /\
  files w' = files w.
Proof.
  intros taken req w.
  apply (register_project_rejects_associated req [taken] taken
           {| ps_project_id := 7; ps_student_name := Some "Omar";
              ps_student_id := 20177 |} w);
    try reflexivity; left; reflexivity.
Defined.

(** C4: whenever the handler answers 201, the one project row it has
    written sits under the generated ID with approval status "pending" and
    zero votes, whatever the request carried, and the membership rows it
    has written, one per teammate, all refer to that ID. *)
Theorem register_project_row_forced (req : request) (w : world)
    (r : response) :
  fst (register_project req w) = inl r ->
  status r = 201 ->
  let w' := snd (register_project req w) in
  let projectId := auto_increment w in
  exists tm row,
    teammateData req = Some tm /\
    projects (tables w) !! projectId = None /\
    projects (tables w') = <[projectId := row]> (projects (tables w)) /\
    approval_status row = "pending" /\
    total_votes row = 0 /\
    project_students (tables w') =
      project_students (tables w) ++ map (membership projectId) tm /\
    (forall m, In m (map (membership projectId) tm) ->
               ps_project_id m = projectId).
Proof.
  intros Hout Hstatus w' projectId. subst w' projectId.
  revert Hout. unfold register_project, try_catch.
  destruct (register_project_try req w) as [o w1] eqn:Htry.
  apply register_project_try_cases in Htry.
  destruct Htry as [(tm & _ & _ & _ & -> & _)
                   | [(tm & row & Hteam & _ & _ & Hnew & Hpending & Hvotes &
                       _ & -> & _ & _ & Htab & _)
                     | (e & -> & _)]].
  - cbn. intros Hr. injection Hr as <-. discriminate.
  - cbn. intros _. exists tm, row. rewrite Htab. cbn.
    repeat split; try assumption.
    intros m Hm. apply in_map_iff in Hm. destruct Hm as (t & <- & _).
    reflexivity.
  - intros Hr.
    destruct (register_project_catch_outcome req e w1) as (Hout & _).
    cbn zeta in Hout. rewrite Hr in Hout.
    destruct (hd None (faults w1)); [discriminate |].
    destruct (negb (falsy (file req))); [discriminate |].
    injection Hout as ->. discriminate.
Qed.

(** a request that names "Approved" and 99 votes for itself *)
Lemma register_project_row_forced_witness :
  let req := Sample.project_request Sample.team None in
  let w := Sample.world_of Sample.campus [] [] in
  let w' := snd (register_project req w) in
  field "approval_status" (body req) = Some "Approved" /\
  field "total_votes" (body req) = Some "99" /\
  exists tm row,
    teammateData req = Some tm /\
    projects (tables w) !! 1 = None /\
    projects (tables w') = <[1 := row]> (projects (tables w)) /\
    approval_status row = "pending" /\
    total_votes row = 0 /\
    project_students (tables w') =
      project_students (tables w) ++ map (membership 1) tm /\
    (forall m, In m (map (membership 1) tm) -> ps_project_id m = 1).
Proof.
  intros req w w'. split; [reflexivity |]. split; [reflexivity |].
  apply (register_project_row_forced req w
           {| status := 201;
              json := message_body "Project and student associations created successfully" |});
    reflexivity.
Defined.

(** with an upload, the [catch] block never reaches its response: the
    handler ends on an error and the file stays where it was *)
Lemma register_project_upload_kept (req : request) (w : world) (path : string) :
  file req = Some path -> path <> "" ->
  forall r, fst (register_project req w) = inl r ->
            status r <> 500 /\ files (snd (register_project req w)) = files w.
Proof.
  intros Hfile Hpath r. unfold register_project, try_catch.
  destruct (register_project_try req w) as [o w1] eqn:Htry.
  apply register_project_try_cases in Htry.
  destruct Htry as [(tm & _ & _ & _ & -> & _ & _ & Hfiles & _)
                   | [(tm & row & _ & _ & _ & _ & _ & _ & _ & -> & _ & Hfiles & _)
                     | (e & -> & _)]].
  - cbn. intros Hr. injection Hr as <-. split; [discriminate | exact Hfiles].
  - cbn. intros Hr. injection Hr as <-. split; [discriminate | exact Hfiles].
  - intros Hr.
    destruct (register_project_catch_outcome req e w1) as (Hout & _).
    cbn zeta in Hout. rewrite Hr in Hout. rewrite Hfile in Hout. cbn in Hout.
    destruct (hd None (faults w1)); [discriminate |].
    destruct (String.eqb_spec path ""); [contradiction | discriminate].
Qed.

(** C2: a registration with an upload whose project insert fails. The
    rollback is attempted and succeeds, and then the name [fs] has no
    binding: the handler ends on a ReferenceError, having neither removed
    the file nor answered 500. *)
Theorem register_project_upload_not_removed :
  let req := Sample.project_request Sample.team (Some "project_files/1.rar") in
  let w := Sample.world_of Sample.campus ["project_files/1.rar"]
             [None; None; Some Sample.lost_connection] in
  bound "fs" = false /\
  fst (register_project req w) = inr (ReferenceError "fs is not defined") /\
  events (snd (register_project req w)) =
    [Query select_membership; BeginTransaction; Query insert_projects;
     ConsoleError "Error in project creation or student association:";
     Rollback] /\
  files (snd (register_project req w)) = files w /\
  bool_decide ("project_files/1.rar" ∈ files (snd (register_project req w)))
  = true.
Proof.
  cbv zeta. repeat split; vm_compute; reflexivity.
Qed.

(** ** Delete by ID *)

Lemma with_comments_same (d : database) :
  Sql.with_comments (comments d) d = d.
Proof. destruct d; reflexivity. Qed.

Lemma with_bookmarks_same (d : database) :
  Sql.with_bookmarks (bookmarks d) d = d.
Proof. destruct d; reflexivity. Qed.

Lemma with_students_same (d : database) :
  Sql.with_students (students d) d = d.
Proof. destruct d; reflexivity. Qed.

Lemma with_projects_same (d : database) :
  Sql.with_projects (projects d) d = d.
Proof. destruct d; reflexivity. Qed.

(** the comment, bookmark and student endpoints look at [affectedRows] *)
Lemma delete_comment_by_id (req : request) (w : world) :
  hd None (faults w) = None ->
  let id := param "comment_id" (params req) in
  let r := delete_comment req w in
  match comments (tables w) !! id with
  | None =>
      fst r = inl {| status := 404; json := error_body "Comment not found" |} /\
      tables (snd r) = tables w
  | Some _ =>
      fst r = inl {| status := 200;
                     json := message_body "Comment deleted successfully" |} /\
      tables (snd r) =
        Sql.with_comments (base.delete id (comments (tables w))) (tables w)
  end.
Proof.
  intros Hfault id r. subst id r. unfold delete_comment. run.
  rewrite Hfault. cbn. unfold Sql.affected.
  destruct (comments (tables w) !! _) eqn:Hrow; cbn; split; try reflexivity.
  rewrite (delete_id _ _ Hrow). apply with_comments_same.
Qed.

Lemma delete_bookmarks_by_id (req : request) (w : world) :
  hd None (faults w) = None ->
  let id := param "bookmark_id" (params req) in
  let r := delete_bookmarks req w in
  match bookmarks (tables w) !! id with
  | None =>
      fst r = inl {| status := 404; json := error_body "Bookmark not found" |} /\
      tables (snd r) = tables w
  | Some _ =>
      fst r = inl {| status := 200;
                     json := message_body "Bookmark deleted successfully" |} /\
      tables (snd r) =
        Sql.with_bookmarks (base.delete id (bookmarks (tables w))) (tables w)
  end.
Proof.
  intros Hfault id r. subst id r. unfold delete_bookmarks. run.
  rewrite Hfault. cbn. unfold Sql.affected.
  destruct (bookmarks (tables w) !! _) eqn:Hrow; cbn; split; try reflexivity.
  rewrite (delete_id _ _ Hrow). apply with_bookmarks_same.
Qed.

Lemma delete_student_by_id (req : request) (w : world) :
  hd None (faults w) = None ->
  let id := param "student_id" (params req) in
  let r := delete_student req w in
  match students (tables w) !! id with
  | None =>
      fst r = inl {| status := 404;
                     json := error_body "Student account not found" |} /\
      tables (snd r) = tables w
  | Some _ =>
      fst r = inl {| status := 200;
                     json := message_body "Student account deleted successfully" |} /\
      tables (snd r) =
        Sql.with_students (base.delete id (students (tables w))) (tables w)
  end.
Proof.
  intros Hfault id r. subst id r. unfold delete_student. run.
  rewrite Hfault. cbn. unfold Sql.affected.
  destruct (students (tables w) !! _) eqn:Hrow; cbn; split; try reflexivity.
  rewrite (delete_id _ _ Hrow). apply with_students_same.
Qed.

(** the project endpoint does not: it answers 200 whenever the statement
    itself went through *)
Lemma delete_project_always_200 (req : request) (w : world) :
  hd None (faults w) = None ->
  fst (delete_project req w) =
    inl {| status := 200; json := message_body "Project deleted successfully" |}.
Proof.
  intros Hfault. unfold delete_project. run. rewrite Hfault. reflexivity.
Qed.

(** C7: deleting project 999 from tables that hold no project at all is
    answered 200 "Project deleted successfully", where the sibling
    endpoints answer 404 for an ID that matches nothing. *)
Theorem delete_project_missing_200 :
  let w := Sample.world_of Sample.campus [] [] in
  projects (tables w) !! 999 = None /\
  fst (delete_project (Sample.by_id "id" 999) w) =
    inl {| status := 200; json := message_body "Project deleted successfully" |} /\
  fst (delete_comment (Sample.by_id "comment_id" 999) w) =
    inl {| status := 404; json := error_body "Comment not found" |} /\
  fst (delete_bookmarks (Sample.by_id "bookmark_id" 999) w) =
    inl {| status := 404; json := error_body "Bookmark not found" |} /\
  fst (delete_student (Sample.by_id "student_id" 999) w) =
    inl {| status := 404; json := error_body "Student account not found" |}.
Proof. cbv zeta. repeat split; vm_compute; reflexivity. Qed.

(** ** Duplicate keys at insert time *)

Section DuplicateKeys.
Context `{Bcrypt} `{EmailSyntax}.

Lemma valid_professor_password (req : request) (password : string) :
  professor_errors req = [] ->
  field "password" (body req) = Some password ->
  isLength 8 12 password = true.
Proof.
  unfold professor_errors. intros Hnil Hpw.
  apply app_eq_nil in Hnil. destruct Hnil as [_ Hnil].
  apply app_eq_nil in Hnil. destruct Hnil as [_ Hnil].
  apply app_eq_nil in Hnil. destruct Hnil as [Hnil _].
  rewrite (field_value _ _ _ Hpw) in Hnil.
  apply (proj1 (standard_nil _ _ _ _) Hnil (JStr password)).
  left. reflexivity.
Qed.

(** what the handler sends to [INSERT INTO professor SET ?], and what it
    answers whatever comes of the statement *)
Lemma professor_register_valid (req : request) (w : world)
    (password : string) :
  professor_errors req = [] ->
  field "password" (body req) = Some password ->
  let salt := hd "00000000000000000000000000000000" (entropy w) in
  let token := hd "00000000000000000000000000000000" (tl (entropy w)) in
  let professorData :=
    [("professor_id", value "professor_id" (body req));
     ("professor_name", value "professor_name" (body req));
     ("professor_email", value "professor_email" (body req));
     ("professor_password", JStr (bcrypt_hash password 10 salt));
     ("professor_department", value "professor_department" (body req));
     ("professor_token", JStr token)] in
  let r := professor_register req w in
  fst r = inl {| status := 201;
                 json := JObj (JS.delete "professor_password"
                                 professorData) |} /\
  tables (snd r) =
    match hd None (faults w) with
    | Some _ => tables w
    | None => tables_after (Sql.insert_professor professorData) (tables w)
    end /\
  txn (snd r) = txn w /\
  files (snd r) = files w /\
  faults (snd r) = tl (faults w) /\
  events (snd r) = events w ++ [Query "INSERT INTO professor SET ?"].
Proof.
  intros Hvalid Hpw salt token professorData r. subst r.
  unfold professor_register. rewrite Hvalid.
  cbn [length Nat.eqb negb].
  unfold hash. rewrite (field_value _ _ _ Hpw).
  unfold try_catch, mbind, M_bind, bind, random_hex, ret. cbn [fst snd].
  match goal with
  | |- context [conn_query_detached ?sql ?exec ?w3] =>
      destruct (conn_query_detached_run sql exec w3)
        as (w4 & -> & Ht4 & Hx4 & _ & Hfi4 & Hfa4 & Hen4 & Hev4)
  end.
  cbn in Ht4, Hx4, Hfi4, Hfa4, Hev4.
  unfold respond, ret. cbn [fst snd].
  rewrite Ht4, Hx4, Hfi4, Hfa4, Hev4. repeat split.
Qed.

(** the server refuses a student under a stored ID or a stored email *)
Lemma insert_student_refused (o : object) (d : database) (id : Z) :
  Sql.int_value (get "student_id" o) = Some id ->
  is_Some (students d !! id) \/
  existsb (fun r => Sql.same_text (student_email r)
                      (Sql.text_value (get "student_email" o)))
          (Sql.rows (students d)) = true ->
  exists key,
    Sql.insert_student o d = (inr (Sql.duplicate_entry key), d).
Proof.
  intros Hid Htaken. unfold Sql.insert_student. rewrite Hid.
  destruct (students d !! id) as [row |] eqn:Hrow.
  - eexists. reflexivity.
  - destruct Htaken as [[row Hsome] | ->]; [discriminate |].
    eexists. reflexivity.
Qed.

Lemma insert_professor_refused (o : object) (d : database) (id : Z)
    (row : professor_row) :
  Sql.int_value (get "professor_id" o) = Some id ->
  professor d !! id = Some row ->
  Sql.insert_professor o d = (inr (Sql.duplicate_entry "PRIMARY"), d).
Proof.
  intros Hid Hrow. unfold Sql.insert_professor. rewrite Hid, Hrow.
  reflexivity.
Qed.

(** the [catch] block of the professor handler is written to recognise
    the error of the server *)
Lemma duplicate_entry_recognised (key : string) :
  is_duplicate_entry (SqlError (Sql.duplicate_entry key)) = true.
Proof. reflexivity. Qed.

End DuplicateKeys.

(** C6: a duplicate key at insert time goes unnoticed. A valid
    registration under the ID of a stored student is answered 201 and no
    table changes, the insert having been refused by the server; so is a
    valid registration of a new student whose insert is made to fail with
    the duplicate-key error; so is the second of two identical professor
    registrations, although the catch block of that handler would answer
    409 for this very error. None of the three gets the 409. *)
Theorem registration_duplicate_key_201 :
  let w := Sample.world_of Sample.campus [] [] in
  let forced := Sample.world_of Sample.campus []
                  [None; None; Some Sample.duplicate_key] in
  let again := @student_register Sample.toy_bcrypt Sample.toy_email
                 Cases.mona_again w in
  let new := @student_register Sample.toy_bcrypt Sample.toy_email
               Sample.registration forced in
  let w1 := snd (@professor_register Sample.toy_bcrypt Sample.toy_email
                   Sample.professor_registration w) in
  let second := @professor_register Sample.toy_bcrypt Sample.toy_email
                  Sample.professor_registration w1 in
  (students (tables w) !! 20201 = Some Sample.mona /\
   @register_errors Sample.toy_email Cases.mona_again = [] /\
   (exists o, fst again = inl {| status := 201; json := JObj o |}) /\
   tables (snd again) = tables w) /\
  (@register_errors Sample.toy_email Sample.registration = [] /\
   (exists o, fst new = inl {| status := 201; json := JObj o |}) /\
   tables (snd new) = tables forced) /\
  (is_Some (professor (tables w1) !! 77) /\
   @professor_errors Sample.toy_email Sample.professor_registration = [] /\
   (exists o, fst second = inl {| status := 201; json := JObj o |}) /\
   tables (snd second) = tables w1 /\
   is_duplicate_entry (SqlError (Sql.duplicate_entry "PRIMARY")) = true).
Proof.
  cbv zeta.
  repeat split; try (vm_compute; reflexivity);
    eexists; vm_compute; reflexivity.
Qed.

(** ** Departments *)

Import Taxonomy.

#[local] Arguments String.append : simpl nomatch.

Lemma append_assoc (a b c : string) :
  ((a ++ b) ++ c)%string = (a ++ b ++ c)%string.
Proof. induction a as [| x a IH]; cbn; [reflexivity | rewrite IH; reflexivity]. Qed.

Lemma append_empty (a : string) : (a ++ "")%string = a.
Proof. induction a as [| x a IH]; cbn; [reflexivity | rewrite IH; reflexivity]. Qed.

Lemma plain_append (a b : string) :
  plain (a ++ b) = plain a && plain b.
Proof.
  induction a as [| x a IH]; cbn; [reflexivity |].
  rewrite IH. apply andb_assoc.
Qed.

(** outside a literal, text without apostrophe is skipped *)
Lemma scan_skip (p s : string) :
  plain p = true -> scan (p ++ s) None = scan s None.
Proof.
  induction p as [| c p IH]; cbn; intros Hp; [reflexivity |].
  apply andb_true_iff in Hp. destruct Hp as [Hc Hp].
  apply negb_true_iff in Hc. rewrite Hc. apply IH. exact Hp.
Qed.

(** inside a literal, it is collected *)
Lemma scan_collect (p s : string) :
  forall r, plain p = true ->
            scan (p ++ s) (Some r) = scan s (Some (r ++ p)%string).
Proof.
  induction p as [| c p IH]; cbn; intros r Hp.
  - rewrite append_empty. reflexivity.
  - apply andb_true_iff in Hp. destruct Hp as [Hc Hp].
    apply negb_true_iff in Hc. rewrite Hc. rewrite IH by exact Hp.
    rewrite append_assoc. reflexivity.
Qed.

Lemma scan_literal (o s : string) :
  plain o = true -> o <> "" ->
  scan (literal o ++ s) None = literal o :: scan s None.
Proof.
  intros Hplain Hne. unfold literal. rewrite !append_assoc. cbn.
  rewrite scan_collect by exact Hplain. cbn.
  destruct (String.eqb_spec o ""); [contradiction | reflexivity].
Qed.

Lemma scan_definition (l : list string) (suffix : string) :
  Forall readable l -> plain suffix = true ->
  scan (join "," (map literal l) ++ suffix) None = map literal l.
Proof.
  intros Hl Hs. induction Hl as [| o l [Ho1 Ho2] Hl IH].
  - cbn. rewrite <- (append_empty suffix). rewrite scan_skip by exact Hs.
    reflexivity.
  - destruct l as [| o' l].
    + cbn [map join]. rewrite scan_literal by assumption.
      rewrite <- (append_empty suffix). rewrite scan_skip by exact Hs.
      reflexivity.
    + change (join "," (map literal (o :: o' :: l)))
        with (literal o ++ "," ++ join "," (map literal (o' :: l)))%string.
      rewrite !append_assoc. rewrite scan_literal by assumption.
      change ("," ++ join "," (map literal (o' :: l)) ++ suffix)%string
        with ("," ++ (join "," (map literal (o' :: l)) ++ suffix))%string.
      rewrite scan_skip by reflexivity. rewrite IH. reflexivity.
Qed.

Lemma strip_plain (o : string) : plain o = true -> strip o = o.
Proof.
  induction o as [| c o IH]; cbn; intros Hp; [reflexivity |].
  apply andb_true_iff in Hp. destruct Hp as [Hc Hp].
  apply negb_true_iff in Hc. rewrite Hc, IH by exact Hp. reflexivity.
Qed.

Lemma strip_append (a b : string) :
  strip (a ++ b) = (strip a ++ strip b)%string.
Proof.
  induction a as [| c a IH]; cbn; [reflexivity |].
  destruct (Ascii.eqb c apostrophe); cbn; rewrite IH; reflexivity.
Qed.

Lemma strip_literal (o : string) : plain o = true -> strip (literal o) = o.
Proof.
  intros Hp. unfold literal. cbn. rewrite strip_append. cbn.
  rewrite strip_plain by exact Hp. apply append_empty.
Qed.

Lemma options_of_literals (l : list string) :
  Forall readable l ->
  List.filter (fun option => negb (String.eqb option ""))
              (map strip (map literal l)) = l.
Proof.
  induction 1 as [| o l [Ho1 Ho2] Hl IH]; [reflexivity |].
  cbn [map List.filter]. rewrite strip_literal by exact Ho1.
  destruct (String.eqb_spec o ""); [contradiction |]. cbn. rewrite IH.
  reflexivity.
Qed.

(** whatever the column text, every match of the scan is a literal around
    a readable option *)
Lemma scan_readable (s : string) :
  forall run,
    match run with Some r => plain r = true | None => True end ->
    exists l, scan s run = map literal l /\ Forall readable l.
Proof.
  induction s as [| c s IH]; intros run Hrun; cbn.
  - exists []. split; [reflexivity | constructor].
  - destruct (Ascii.eqb c apostrophe) eqn:Hc.
    + destruct run as [r |].
      * destruct (String.eqb_spec r "").
        -- apply IH. reflexivity.
        -- destruct (IH None I) as (l & Hl & Hall).
           exists (r :: l). split; [cbn; rewrite Hl; reflexivity |].
           constructor; [split; assumption | exact Hall].
      * apply IH. reflexivity.
    + destruct run as [r |]; [| apply IH; exact I].
      apply IH. rewrite plain_append, Hrun. cbn. rewrite Hc. reflexivity.
Qed.

Lemma department_names_readable (w : world) (opts : list string) :
  department_names w = Some opts -> Forall readable opts /\ opts <> [].
Proof.
  unfold department_names, match_quoted.
  destruct (scan_readable (department_name_type (tables w)) None I)
    as (l & Hl & Hall).
  rewrite Hl. destruct l as [| o l]; [discriminate |].
  change (map literal (o :: l)) with (literal o :: map literal l).
  cbv iota. change (literal o :: map literal l) with (map literal (o :: l)).
  rewrite options_of_literals by exact Hall.
  intros Hopts. injection Hopts as <-. split; [exact Hall | discriminate].
Qed.

Lemma current_options_run (w0 w : world) (opts : list string) :
  department_names w0 = Some opts ->
  current_options (department_name_type (tables w0)) w = (inl opts, w).
Proof.
  unfold department_names, current_options.
  destruct (match_quoted _); [| discriminate].
  intros Hopts. injection Hopts as <-. reflexivity.
Qed.

Lemma includes_In (l : list string) (n : string) :
  includes l (JStr n) = true <-> In n l.
Proof.
  unfold includes. rewrite existsb_exists. cbn [is_text]. split.
  - intros (x & Hin & Heq). apply String.eqb_eq in Heq. subst. exact Hin.
  - intros Hin. exists n. split; [exact Hin | apply String.eqb_refl].
Qed.

Lemma includes_not_In (l : list string) (n : string) :
  ~ In n l -> includes l (JStr n) = false.
Proof.
  intros Hnot. destruct (includes l (JStr n)) eqn:Hinc; [| reflexivity].
  apply includes_In in Hinc. contradiction.
Qed.

Lemma definition_of_options (l : list string) :
  enum_definition (map JStr l) = join "," (map literal l).
Proof. unfold enum_definition. rewrite map_map. reflexivity. Qed.

(** rewriting the column with readable options and reading it back *)
Lemma department_names_rewritten (w : world) (l : list string) :
  Forall readable l -> l <> [] ->
  department_name_type (tables w) =
    ("enum(" ++ enum_definition (map JStr l) ++ ")")%string ->
  department_names w = Some l.
Proof.
  intros Hall Hne Htype. unfold department_names, match_quoted.
  rewrite Htype, definition_of_options.
  change ("enum(" ++ join "," (map literal l) ++ ")")%string
    with ("enum(" ++ (join "," (map literal l) ++ ")"))%string.
  rewrite scan_skip by reflexivity.
  rewrite scan_definition by (assumption || reflexivity).
  destruct l as [| o l]; [contradiction |].
  change (map literal (o :: l)) with (literal o :: map literal l).
  cbv iota. change (literal o :: map literal l) with (map literal (o :: l)).
  rewrite options_of_literals by exact Hall. reflexivity.
Qed.

Lemma filter_out_new (l : list string) (n : string) :
  ~ In n l ->
  List.filter (fun option => negb (String.eqb option n)) (l ++ [n]) = l.
Proof.
  intros Hnot. rewrite List.filter_app. cbn. rewrite String.eqb_refl. cbn.
  rewrite app_nil_r. induction l as [| o l IH]; [reflexivity |]. cbn.
  destruct (String.eqb_spec o n) as [-> | Hne].
  - exfalso. apply Hnot. left. reflexivity.
  - cbn. rewrite IH; [reflexivity |]. intros Hin. apply Hnot. right. exact Hin.
Qed.

#[local] Arguments current_options : simpl never.
#[local] Arguments includes : simpl never.
#[local] Arguments enum_definition : simpl never.

Lemma quiet_two_more (forced : list (option sql_error)) :
  quiet 4 forced = true -> quiet 2 (tl (tl forced)) = true.
Proof.
  intros Hq. apply quiet_next in Hq. destruct Hq as [_ Hq].
  apply quiet_next in Hq. destruct Hq as [_ Hq]. exact Hq.
Qed.

Lemma quiet_weaken (n : nat) (forced : list (option sql_error)) :
  quiet (S n) forced = true -> quiet n forced = true.
Proof.
  revert forced. induction n as [| n IH]; intros forced Hq; [reflexivity |].
  destruct forced as [| [e |] rest]; cbn in *; try discriminate;
    [reflexivity |].
  apply IH. exact Hq.
Qed.

Lemma post_departments_present (req : request) (w : world)
    (opts : list string) (n : string) :
  field "department_name" (body req) = Some n ->
  department_names w = Some opts ->
  hd None (faults w) = None ->
  In n opts ->
  fst (post_departments req w) =
    inl {| status := 400; json := error_body "Department name already exists" |} /\
  tables (snd (post_departments req w)) = tables w.
Proof.
  intros Hfield Hopts Hfault Hin. unfold post_departments. rewrite (field_value _ _ _ Hfield).
  run. rewrite Hfault. cbn.
  rewrite (current_options_run w _ opts Hopts).
  apply includes_In in Hin. rewrite Hin. split; reflexivity.
Qed.

Lemma post_departments_added (req : request) (w : world)
    (opts : list string) (n : string) :
  field "department_name" (body req) = Some n ->
  department_names w = Some opts ->
  quiet 2 (faults w) = true ->
  ~ In n opts ->
  let r := post_departments req w in
  fst r = inl {| status := 200;
                 json := message_body "New department added successfully" |} /\
  department_name_type (tables (snd r)) =
    ("enum(" ++ enum_definition (map JStr (opts ++ [n])) ++ ")")%string /\
  faults (snd r) = tl (tl (faults w)).
Proof.
  intros Hfield Hopts Hquiet Hnot r. subst r.
  apply quiet_next in Hquiet. destruct Hquiet as [Hf1 Hquiet].
  apply quiet_next in Hquiet. destruct Hquiet as [Hf2 _].
  unfold post_departments. rewrite (field_value _ _ _ Hfield).
  run. rewrite Hf1. cbn.
  rewrite (current_options_run w _ opts Hopts).
  rewrite (includes_not_In _ _ Hnot). cbn. rewrite Hf2. cbn.
  rewrite map_app. repeat split.
Qed.

Lemma delete_departments_absent (req : request) (w : world)
    (opts : list string) (n : string) :
  field "department_name" (body req) = Some n ->
  n <> "" ->
  department_names w = Some opts ->
  hd None (faults w) = None ->
  ~ In n opts ->
  fst (delete_departments req w) =
    inl {| status := 404;
           json := error_body "Department name not found in ENUM" |} /\
  tables (snd (delete_departments req w)) = tables w.
Proof.
  intros Hfield Hne Hopts Hfault Hnot. unfold delete_departments.
  rewrite (field_value _ _ _ Hfield). cbn [falsy_value].
  destruct (String.eqb_spec n ""); [contradiction |].
  run. rewrite Hfault. cbn.
  rewrite (current_options_run w _ opts Hopts).
  rewrite (includes_not_In _ _ Hnot). split; reflexivity.
Qed.

Lemma delete_departments_removed (req : request) (w : world)
    (opts : list string) (n : string) :
  field "department_name" (body req) = Some n ->
  n <> "" ->
  department_names w = Some opts ->
  quiet 2 (faults w) = true ->
  In n opts ->
  let r := delete_departments req w in
  fst r = inl {| status := 200;
                 json := message_body "Department deleted successfully" |} /\
  department_name_type (tables (snd r)) =
    ("enum(" ++
     enum_definition
       (map JStr (List.filter (fun option => negb (String.eqb option n)) opts)) ++
     ")")%string.
Proof.
  intros Hfield Hne Hopts Hquiet Hin r. subst r.
  apply quiet_next in Hquiet. destruct Hquiet as [Hf1 Hquiet].
  apply quiet_next in Hquiet. destruct Hquiet as [Hf2 _].
  unfold delete_departments. rewrite (field_value _ _ _ Hfield). cbn [falsy_value].
  destruct (String.eqb_spec n ""); [contradiction |].
  run. rewrite Hf1. cbn.
  rewrite (current_options_run w _ opts Hopts).
  apply includes_In in Hin. rewrite Hin. cbn. rewrite Hf2. cbn.
  split; reflexivity.
Qed.

Lemma delete_departments_unnamed (req : request) (w : world) :
  falsy_value (value "department_name" (body req)) = true ->
  delete_departments req w =
    (inl {| status := 400;
            json := error_body "Department name is required in the request body" |},
     w).
Proof.
  intros Hfalsy. unfold delete_departments. rewrite Hfalsy. reflexivity.
Qed.

(** C5, as the handlers have it. A delete whose name is missing or empty
    (any falsy value) is answered 400 at once: the world is returned as it
    was, whatever the column holds and whatever the gateway would do. For
    a name that is a text, on a column with the options [opts]: when the
    lookup is answered, adding a name that is an option is answered 400
    and changes no table, and deleting a name that is not empty and not an
    option is answered 404 and changes no table; and when the four
    statements are answered, adding a name that is not empty, has no
    apostrophe and is not an option, then deleting it, is answered 200
    twice and leaves the options exactly as they were. *)
Theorem departments_add_delete (req : request) (w : world)
    (opts : list string) (n : string) :
  (falsy_value (value "department_name" (body req)) = true ->
   delete_departments req w =
     (inl {| status := 400;
             json := error_body "Department name is required in the request body" |},
      w)) /\
  (field "department_name" (body req) = Some n ->
   department_names w = Some opts ->
   (hd None (faults w) = None -> In n opts ->
    fst (post_departments req w) =
      inl {| status := 400;
             json := error_body "Department name already exists" |} /\
    tables (snd (post_departments req w)) = tables w) /\
   (hd None (faults w) = None -> n <> "" -> ~ In n opts ->
    fst (delete_departments req w) =
      inl {| status := 404;
             json := error_body "Department name not found in ENUM" |} /\
    tables (snd (delete_departments req w)) = tables w) /\
   (quiet 4 (faults w) = true -> readable n -> ~ In n opts ->
    let w1 := snd (post_departments req w) in
    let w2 := snd (delete_departments req w1) in
    fst (post_departments req w) =
      inl {| status := 200;
             json := message_body "New department added successfully" |} /\
    department_names w1 = Some (opts ++ [n]) /\
    fst (delete_departments req w1) =
      inl {| status := 200;
             json := message_body "Department deleted successfully" |} /\
    department_names w2 = Some opts)).
Proof.
  split; [apply delete_departments_unnamed |].
  intros Hfield Hopts.
  destruct (department_names_readable w opts Hopts) as [Hread Hsome].
  repeat apply conj.
  - intros Hf1 Hin. apply (post_departments_present req w opts n); assumption.
  - intros Hf1 Hne Hnot.
    apply (delete_departments_absent req w opts n); assumption.
  - intros Hquiet [Hplain Hne] Hnot w1 w2.
    destruct (post_departments_added req w opts n Hfield Hopts) as
      (Hadd & Htype1 & Hfaults1); [| exact Hnot |].
    { apply quiet_weaken, quiet_weaken. exact Hquiet. }
    fold w1 in Htype1, Hfaults1.
    assert (Hopts1 : department_names w1 = Some (opts ++ [n])).
    { apply department_names_rewritten; [| | exact Htype1].
      - apply Forall_app. split; [exact Hread |].
        constructor; [split; assumption | constructor].
      - destruct opts; discriminate. }
    destruct (delete_departments_removed req w1 (opts ++ [n]) n Hfield Hne
                Hopts1) as (Hdel & Htype2).
    { rewrite Hfaults1. apply quiet_two_more. exact Hquiet. }
    { apply in_or_app. right. left. reflexivity. }
    fold w2 in Htype2. rewrite (filter_out_new opts n Hnot) in Htype2.
    repeat split; try assumption.
    apply department_names_rewritten; assumption.
Qed.

(** a delete without a name on a gateway that has lost its connection;
    and deleting "SE" from the sample column, then adding it and deleting
    it again *)
Lemma departments_add_delete_witness :
  let down := Sample.world_of Sample.campus [] [Some Sample.lost_connection] in
  let req := Sample.named "department_name" "SE" in
  let w := Sample.world_of Sample.campus [] [] in
  let w1 := snd (post_departments req w) in
  let w2 := snd (delete_departments req w1) in
  delete_departments Cases.nothing down =
    (inl {| status := 400;
            json := error_body "Department name is required in the request body" |},
     down) /\
  department_names w = Some ["CS"; "IS"] /\
  fst (delete_departments req w) =
    inl {| status := 404;
           json := error_body "Department name not found in ENUM" |} /\
  fst (post_departments req w) =
    inl {| status := 200;
           json := message_body "New department added successfully" |} /\
  department_names w1 = Some ["CS"; "IS"; "SE"] /\
  fst (delete_departments req w1) =
    inl {| status := 200;
           json := message_body "Department deleted successfully" |} /\
  department_names w2 = Some ["CS"; "IS"].
Proof.
  intros down req w w1 w2.
  assert (Hnew : ~ In "SE" ["CS"; "IS"]) by (cbn; intuition discriminate).
  split.
  { apply (proj1 (departments_add_delete Cases.nothing down [] "")).
    reflexivity. }
  destruct (proj2 (departments_add_delete req w ["CS"; "IS"] "SE")
              eq_refl eq_refl)
    as (_ & Habsent & Hround).
  split; [reflexivity |].
  split; [apply Habsent; [reflexivity | discriminate | exact Hnew] |].
  apply Hround;
    [reflexivity | split; [reflexivity | discriminate] | exact Hnew].
Defined.

(** C5 as stated fails on the sample column, whose options are CS and IS.
    The empty name is not an option, yet deleting it is answered 400, not
    404. The name SE','AI is not an option: adding it is answered 200,
    deleting it again is answered 404, and the options are then CS, IS, SE
    and AI. And the name given as the number 5 is added as the option "5",
    which the delete, comparing the options with the number, does not
    find. *)
Lemma departments_claim_counterexample :
  let w := Sample.world_of Sample.campus [] [] in
  let unnamed := Sample.named "department_name" "" in
  let quoted := Sample.named "department_name" "SE','AI" in
  let w1 := snd (post_departments quoted w) in
  let w2 := snd (delete_departments quoted w1) in
  let w3 := snd (post_departments Cases.department_five w) in
  let w4 := snd (delete_departments Cases.department_five w3) in
  department_names w = Some ["CS"; "IS"] /\
  (~ In "" ["CS"; "IS"] /\
   fst (delete_departments unnamed w) =
     inl {| status := 400;
            json := error_body "Department name is required in the request body" |}) /\
  (~ In "SE','AI" ["CS"; "IS"] /\
   fst (post_departments quoted w) =
     inl {| status := 200;
            json := message_body "New department added successfully" |} /\
   fst (delete_departments quoted w1) =
     inl {| status := 404;
            json := error_body "Department name not found in ENUM" |} /\
   department_names w2 = Some ["CS"; "IS"; "SE"; "AI"] /\
   In "SE" ["CS"; "IS"; "SE"; "AI"] /\ ~ In "SE" ["CS"; "IS"]) /\
  (fst (post_departments Cases.department_five w) =
     inl {| status := 200;
            json := message_body "New department added successfully" |} /\
   department_names w3 = Some ["CS"; "IS"; "5"] /\
   fst (delete_departments Cases.department_five w3) =
     inl {| status := 404;
            json := error_body "Department name not found in ENUM" |} /\
   department_names w4 = Some ["CS"; "IS"; "5"]).
Proof.
  cbv zeta. repeat split; try (vm_compute; reflexivity);
    try (cbn; intuition discriminate).
Qed.

(** * Further properties *)

(** ** Student registration and login *)

Section AccountProperties.
Context `{Bcrypt} `{EmailSyntax}.

(** X1: a registration whose email is no text ending in the faculty
    domain, or whose name is no text of 10 to 20 characters, or in which a
    value given as password is shorter than 8 or longer than 12
    characters, is answered 400 with the field errors, and nothing else
    happens. *)
Theorem student_register_invalid_400 (req : request) (w : world) :
  (forall e, field "email" (body req) = Some e ->
             ends_with "@fci.helwan.edu.eg" e = false) \/
  (forall s, field "student_name" (body req) = Some s ->
             (characters s < 10 \/ 20 < characters s)%nat) \/
  (exists x, In x (values (value "password" (body req))) /\
             (characters (to_string x) < 8 \/
              12 < characters (to_string x))%nat) ->
  register_errors req <> [] /\
  student_register req w =
    (inl {| status := 400; json := errors_body (register_errors req) |}, w).
Proof.
  intros Hbad.
  assert (Hne : register_errors req <> []).
  { unfold register_errors. intros Hnil.
    apply app_eq_nil in Hnil. destruct Hnil as [_ Hnil].
    apply app_eq_nil in Hnil. destruct Hnil as [Hdomain Hnil].
    apply app_eq_nil in Hnil. destruct Hnil as [Hstring Hnil].
    apply app_eq_nil in Hnil. destruct Hnil as [Hname Hpw].
    destruct Hbad as [Hmail | [Hlen | (x & Hin & Hlen)]].
    - unfold email_domain, field in *.
      destruct (value "email" (body req)); try discriminate.
      rewrite (Hmail s eq_refl) in Hdomain. discriminate.
    - apply check_nil in Hstring. unfold isString, field in *.
      destruct (value "student_name" (body req)) eqn:Hvalue;
        try discriminate.
      specialize (Hlen s eq_refl).
      apply (isLength_false 10 20) in Hlen.
      apply (standard_refuses _ _ (JStr s) (JStr s) _ (or_introl eq_refl) Hlen
               Hname).
    - apply (isLength_false 8 12) in Hlen.
      exact (standard_refuses _ _ _ _ _ Hin Hlen Hpw). }
  split; [exact Hne |].
  unfold student_register. run.
  destruct (register_errors req); [congruence | reflexivity].
Qed.

(** the server refuses a student whose email a stored student has *)
Lemma insert_student_email_taken (o : object) (d : database) :
  existsb (fun r => Sql.same_text (student_email r)
                      (Sql.text_value (get "student_email" o)))
          (Sql.rows (students d)) = true ->
  tables_after (Sql.insert_student o) d = d.
Proof.
  intros Htaken. unfold tables_after, Sql.insert_student.
  destruct (Sql.int_value (get "student_id" o)) as [id |]; [| reflexivity].
  destruct (students d !! id); [reflexivity |].
  rewrite Htaken. reflexivity.
Qed.

(** X2: a valid registration under an ID that a stored student has is not
    refused. The lookup of the ID is sent without a callback and its rows
    reach nobody, so the handler goes on, sends the insert, which the
    server refuses, and answers 201 with the submitted ID: no table has
    changed. *)
Theorem student_register_existing_id_unnoticed (req : request) (w : world)
    (id : Z) (row : student_row) (password : string) :
  register_errors req = [] ->
  field "password" (body req) = Some password ->
  Sql.int_value (of_field (field "student_id" (body req))) = Some id ->
  students (tables w) !! id = Some row ->
  let r := student_register req w in
  (exists o, fst r = inl {| status := 201; json := JObj o |} /\
             get "student_id" o = of_field (field "student_id" (body req))) /\
  tables (snd r) = tables w /\
  events (snd r) =
    events w ++
    [Query "select * from students where student_id = ?";
     Query "select * from students where student_email = ?";
     Query "insert into students set ? "].
Proof.
  intros Hvalid Hpw Hid Hrow r. subst r.
  destruct (int_value_field _ _ _ Hid) as (s & Hvalue & Hs).
  destruct (student_register_valid req w password Hvalid Hpw)
    as (Hout & Htables & _ & _ & _ & Hevents).
  split; [| split; [| exact Hevents]].
  - eexists. split; [exact Hout |]. cbn.
    unfold field. rewrite Hvalue. reflexivity.
  - rewrite Htables. destruct (hd None (tl (tl (faults w)))); [reflexivity |].
    unfold tables_after.
    match goal with
    | |- context [Sql.insert_student ?o ?d] =>
        destruct (insert_student_refused o d id) as (key & ->)
    end; [cbn; rewrite Hvalue; exact Hs | left; eexists; exact Hrow |].
    reflexivity.
Qed.

Lemma some_row_with_email (email : option string) (l : list student_row)
    (r : student_row) (e : string) :
  In r l -> student_email r = Some e -> email = Some e ->
  existsb (fun r => Sql.same_text (student_email r) email) l = true.
Proof.
  intros Hin Hmail ->. apply existsb_exists. exists r.
  split; [exact Hin |]. rewrite Hmail. cbn. apply String.eqb_refl.
Qed.

(** X3: a valid registration whose email a stored student has is not
    refused either: it is answered 201 with the submitted email, the
    insert having been refused by the server, and no table has changed. *)
Theorem student_register_existing_email_unnoticed (req : request)
    (w : world) (row : student_row) (email password : string) :
  register_errors req = [] ->
  field "password" (body req) = Some password ->
  field "email" (body req) = Some email ->
  In row (Sql.rows (students (tables w))) ->
  student_email row = Some email ->
  let r := student_register req w in
  (exists o, fst r = inl {| status := 201; json := JObj o |} /\
             get "student_email" o = JStr email) /\
  tables (snd r) = tables w.
Proof.
  intros Hvalid Hpw Hfield Hin Hmail r. subst r.
  destruct (student_register_valid req w password Hvalid Hpw)
    as (Hout & Htables & _).
  split.
  - eexists. split; [exact Hout |]. cbn.
    rewrite (field_value _ _ _ Hfield). reflexivity.
  - rewrite Htables. destruct (hd None (tl (tl (faults w)))); [reflexivity |].
    apply insert_student_email_taken. cbn.
    rewrite (field_value _ _ _ Hfield). cbn.
    apply (some_row_with_email _ _ row email Hin Hmail eq_refl).
Qed.

(** the run of a registration that goes through *)
Lemma student_register_new (req : request) (w : world) (id : Z)
    (password : string) :
  register_errors req = [] ->
  field "password" (body req) = Some password ->
  Sql.int_value (of_field (field "student_id" (body req))) = Some id ->
  students (tables w) !! id = None ->
  (forall r, In r (Sql.rows (students (tables w))) ->
             student_email r <> field "email" (body req)) ->
  quiet 3 (faults w) = true ->
  let r := student_register req w in
  (exists o, fst r = inl {| status := 201; json := JObj o |}) /\
  (exists row,
     student_password row =
       Some (bcrypt_hash password 10
               (hd "00000000000000000000000000000000" (entropy w))) /\
     tables (snd r) =
       Sql.with_students (<[id := row]> (students (tables w))) (tables w)) /\
  faults (snd r) = tl (tl (tl (faults w))).
Proof.
  intros Hvalid Hpw Hid Hfree Hemail Hquiet r. subst r.
  apply quiet_next in Hquiet. destruct Hquiet as [_ Hquiet].
  apply quiet_next in Hquiet. destruct Hquiet as [_ Hquiet].
  apply quiet_next in Hquiet. destruct Hquiet as [Hf3 _].
  destruct (no_row_with_email _ _ Hemail) as [_ Hnot].
  destruct (int_value_field _ _ _ Hid) as (s & Hvalue & Hs).
  destruct (student_register_valid req w password Hvalid Hpw)
    as (Hout & Htables & _ & _ & Hfaults & _).
  rewrite Hf3 in Htables.
  unfold tables_after, Sql.insert_student in Htables.
  cbn [get String.eqb Ascii.eqb Bool.eqb] in Htables.
  rewrite Hvalue, Hs, Hfree in Htables.
  rewrite <- Hvalue, text_value_value, Hnot in Htables.
  split; [eexists; exact Hout |]. split; [| exact Hfaults].
  eexists. split; [| exact Htables]. reflexivity.
Qed.

(** the run of a login whose lookup is answered *)
Lemma student_login_run (req : request) (w : world) (id : Z)
    (password : string) :
  login_errors req = [] ->
  hd None (faults w) = None ->
  Sql.int_value (of_field (field "student_id" (body req))) = Some id ->
  field "password" (body req) = Some password ->
  fst (student_login req w) =
    match students (tables w) !! id with
    | None => inl {| status := 404; json := not_found_body |}
    | Some row =>
        match student_password row with
        | Some stored =>
            if bcrypt_compare password stored then
              inl {| status := 200;
                     json := JObj (JS.set "student_token"
                                     (JStr (hd "00000000000000000000000000000000"
                                               (entropy w)))
                                     (JS.delete "student_password"
                                        (Sql.student_object row))) |}
            else inl {| status := 404; json := not_found_body |}
        | None => inl {| status := 500; json := err_body "Server error" |}
        end
    end.
Proof.
  intros Hvalid Hfault Hid Hpw.
  rewrite (student_login_found req w id Hvalid Hfault Hid). cbv zeta.
  rewrite (field_value _ _ _ Hpw).
  destruct (students (tables w) !! id) as [row |]; [| reflexivity].
  destruct (student_password row) as [stored |]; [| reflexivity].
  unfold compare. run. destruct (bcrypt_compare password stored); reflexivity.
Qed.

(** X4: a login never writes: whatever the request and whatever the
    gateway does, the tables, the open transaction and the files are
    afterwards what they were; the token it hands out is stored nowhere. *)
Theorem student_login_never_writes (req : request) (w : world) :
  let r := student_login req w in
  tables (snd r) = tables w /\ txn (snd r) = txn w /\ files (snd r) = files w.
Proof.
  intros r. subst r. unfold student_login.
  destruct (login_errors req) as [| e errors]; run; [| repeat split].
  destruct (hd None (faults w)); cbn; [repeat split |].
  unfold Sql.select_student_by_id.
  destruct (Sql.scalar _) as [v |]; cbn; [| repeat split].
  destruct (Sql.int_value v) as [id |]; cbn; [| repeat split].
  destruct (students (tables w) !! id) as [row |]; cbn; [| repeat split].
  unfold compare.
  destruct (nullish _ || nullish _); cbn; [repeat split |].
  destruct (value "password" (body req)); cbn; try (repeat split; fail).
  destruct (student_password row) as [stored |]; cbn; [| repeat split].
  destruct (bcrypt_compare s stored); repeat split.
Qed.

(** X5: a validated login whose lookup fails is answered 500 "Server
    error", whatever the error was. *)
Theorem student_login_lookup_failure_500 (req : request) (w : world)
    (e : sql_error) :
  login_errors req = [] ->
  hd None (faults w) = Some e ->
  fst (student_login req w) =
    inl {| status := 500; json := err_body "Server error" |} /\
  events (snd (student_login req w)) =
    events w ++ [Query "select * from students where student_id = ?";
                 ConsoleError "Error logging in student:"].
Proof.
  intros Hvalid Hfault. unfold student_login. rewrite Hvalid. run.
  rewrite Hfault. cbn. rewrite <- app_assoc. split; reflexivity.
Qed.

(** X6: registering and then logging in with the same ID and password is
    answered 201 and then 200, provided the hash of a password compares
    equal to that password. *)
Theorem student_register_then_login (req : request) (w : world) (id : Z)
    (password : string) :
  register_errors req = [] ->
  login_errors req = [] ->
  field "password" (body req) = Some password ->
  Sql.int_value (of_field (field "student_id" (body req))) = Some id ->
  students (tables w) !! id = None ->
  (forall r, In r (Sql.rows (students (tables w))) ->
             student_email r <> field "email" (body req)) ->
  quiet 4 (faults w) = true ->
  (forall salt, bcrypt_compare password (bcrypt_hash password 10 salt) = true) ->
  let w1 := snd (student_register req w) in
  (exists o, fst (student_register req w) =
               inl {| status := 201; json := JObj o |}) /\
  (exists o, fst (student_login req w1) =
               inl {| status := 200; json := JObj o |} /\
             has "student_password" o = false).
Proof.
  intros Hvalid Hlogin Hpw Hid Hfree Hemail Hquiet Hcmp w1.
  destruct (student_register_new req w id password Hvalid Hpw Hid Hfree Hemail)
    as (Hout & (row & Hstored & Htab) & Hfaults).
  { apply quiet_weaken. exact Hquiet. }
  fold w1 in Htab, Hfaults. split; [exact Hout |].
  assert (Hf : hd None (faults w1) = None).
  { rewrite Hfaults. apply quiet_next in Hquiet. destruct Hquiet as [_ Hq].
    apply quiet_next in Hq. destruct Hq as [_ Hq].
    apply quiet_next in Hq. destruct Hq as [_ Hq].
    apply quiet_next in Hq. apply Hq. }
  rewrite (student_login_run req w1 id password Hlogin Hf Hid Hpw).
  rewrite Htab. cbn. rewrite lookup_insert_eq, Hstored, Hcmp.
  eexists. split; reflexivity.
Qed.

(** X7: registering the same valid request twice is answered 201 both
    times. The first run stores the student; the second is not stopped by
    the lookup of the ID, its insert is refused by the server, and it
    changes no table. *)
Theorem student_register_twice (req : request) (w : world) (id : Z)
    (password : string) :
  register_errors req = [] ->
  field "password" (body req) = Some password ->
  Sql.int_value (of_field (field "student_id" (body req))) = Some id ->
  students (tables w) !! id = None ->
  (forall r, In r (Sql.rows (students (tables w))) ->
             student_email r <> field "email" (body req)) ->
  quiet 3 (faults w) = true ->
  let w1 := snd (student_register req w) in
  (exists o, fst (student_register req w) =
               inl {| status := 201; json := JObj o |}) /\
  is_Some (students (tables w1) !! id) /\
  (exists o, fst (student_register req w1) =
               inl {| status := 201; json := JObj o |}) /\
  tables (snd (student_register req w1)) = tables w1.
Proof.
  intros Hvalid Hpw Hid Hfree Hemail Hquiet w1.
  destruct (student_register_new req w id password Hvalid Hpw Hid Hfree Hemail
              Hquiet)
    as (Hout & (row & _ & Htab) & _).
  fold w1 in Htab. split; [exact Hout |].
  assert (Hrow : students (tables w1) !! id = Some row).
  { rewrite Htab. cbn. apply lookup_insert_eq. }
  split; [eexists; exact Hrow |].
  destruct (int_value_field _ _ _ Hid) as (s & Hvalue & Hs).
  destruct (student_register_valid req w1 password Hvalid Hpw)
    as (Hout1 & Htables1 & _).
  split; [eexists; exact Hout1 |].
  rewrite Htables1. destruct (hd None (tl (tl (faults w1)))); [reflexivity |].
  unfold tables_after.
  match goal with
  | |- context [Sql.insert_student ?o ?d] =>
      destruct (insert_student_refused o d id) as (key & ->)
  end; [cbn; rewrite Hvalue; exact Hs | left; eexists; exact Hrow |].
  reflexivity.
Qed.

(** X8: once a student is deleted, a login under that ID is answered with
    the generic 404, whatever the password. *)
Theorem delete_student_then_login (del req : request) (w : world) (id : Z)
    (password : string) :
  param "student_id" (params del) = id ->
  login_errors req = [] ->
  Sql.int_value (of_field (field "student_id" (body req))) = Some id ->
  field "password" (body req) = Some password ->
  quiet 2 (faults w) = true ->
  let w1 := snd (delete_student del w) in
  fst (student_login req w1) = inl {| status := 404; json := not_found_body |}.
Proof.
  intros Hparam Hlogin Hid Hpw Hquiet w1.
  apply quiet_next in Hquiet. destruct Hquiet as [Hf1 Hquiet].
  apply quiet_next in Hquiet. destruct Hquiet as [Hf2 _].
  assert (Hw1 : faults w1 = tl (faults w) /\
                students (tables w1) !! id = None).
  { subst w1. unfold delete_student. run. rewrite Hf1. cbn. rewrite Hparam.
    destruct (0 <? Sql.affected (students (tables w)) id); cbn;
      (split; [reflexivity | apply lookup_delete_eq]). }
  destruct Hw1 as [Hfaults Hgone].
  rewrite (student_login_run req w1 id password Hlogin); try assumption.
  - rewrite Hgone. reflexivity.
  - rewrite Hfaults. exact Hf2.
Qed.

End AccountProperties.

(** a registration from another mail domain *)
Lemma student_register_invalid_400_witness :
  let w := Sample.world_of Sample.campus [] [] in
  @register_errors Sample.toy_email Cases.outsider <> [] /\
  @student_register Sample.toy_bcrypt Sample.toy_email Cases.outsider w =
    (inl {| status := 400;
            json := errors_body (@register_errors Sample.toy_email Cases.outsider) |},
     w).
Proof.
  intros w.
  apply (@student_register_invalid_400 Sample.toy_bcrypt Sample.toy_email).
  left. intros e He. vm_compute in He. injection He as <-. reflexivity.
Defined.

(** a second registration under Mona's ID *)
Lemma student_register_existing_id_unnoticed_witness :
  let w := Sample.world_of Sample.campus [] [] in
  let r := @student_register Sample.toy_bcrypt Sample.toy_email
             Cases.mona_again w in
  students (tables w) !! 20201 = Some Sample.mona /\
  (exists o, fst r = inl {| status := 201; json := JObj o |} /\
             get "student_id" o = JStr "20201") /\
  tables (snd r) = tables w /\
  events (snd r) =
    events w ++
    [Query "select * from students where student_id = ?";
     Query "select * from students where student_email = ?";
     Query "insert into students set ? "].
Proof.
  intros w. split; [reflexivity |].
  apply (@student_register_existing_id_unnoticed Sample.toy_bcrypt
           Sample.toy_email Cases.mona_again w 20201 Sample.mona
           "s3cretpass"); reflexivity.
Defined.

(** a registration under a new ID with Mona's email *)
Lemma student_register_existing_email_unnoticed_witness :
  let w := Sample.world_of Sample.campus [] [] in
  let r := @student_register Sample.toy_bcrypt Sample.toy_email
             Cases.mona_mail w in
  (exists o, fst r = inl {| status := 201; json := JObj o |} /\
             get "student_email" o = JStr "mona@fci.helwan.edu.eg") /\
  tables (snd r) = tables w.
Proof.
  intros w.
  apply (@student_register_existing_email_unnoticed Sample.toy_bcrypt
           Sample.toy_email Cases.mona_mail w Sample.mona
           "mona@fci.helwan.edu.eg" "s3cretpass"); try reflexivity.
  vm_compute. left. reflexivity.
Defined.

(** Mona logging in while the connection is lost *)
Lemma student_login_lookup_failure_500_witness :
  let req := Sample.login_request "20201" "s3cretpass" in
  let w := Sample.world_of Sample.campus [] [Some Sample.lost_connection] in
  fst (@student_login Sample.toy_bcrypt req w) =
    inl {| status := 500; json := err_body "Server error" |} /\
  events (snd (@student_login Sample.toy_bcrypt req w)) =
    events w ++ [Query "select * from students where student_id = ?";
                 ConsoleError "Error logging in student:"].
Proof.
  intros req w.
  apply (@student_login_lookup_failure_500 Sample.toy_bcrypt req w
           Sample.lost_connection); reflexivity.
Defined.

(** Youssef registering and logging in *)
Lemma student_register_then_login_witness :
  let w := Sample.world_of Sample.campus [] [] in
  let w1 := snd (@student_register Sample.toy_bcrypt Sample.toy_email
                   Sample.registration w) in
  (exists o, fst (@student_register Sample.toy_bcrypt Sample.toy_email
                    Sample.registration w) =
               inl {| status := 201; json := JObj o |}) /\
  (exists o, fst (@student_login Sample.toy_bcrypt Sample.registration w1) =
               inl {| status := 200; json := JObj o |} /\
             has "student_password" o = false).
Proof.
  intros w.
  apply (@student_register_then_login Sample.toy_bcrypt Sample.toy_email
           Sample.registration w 20305 "longpassw0"); try reflexivity.
  intros r Hin. vm_compute in Hin.
  destruct Hin as [Hr | []]. subst r. discriminate.
Defined.

(** Youssef registering twice *)
Lemma student_register_twice_witness :
  let w := Sample.world_of Sample.campus [] [] in
  let w1 := snd (@student_register Sample.toy_bcrypt Sample.toy_email
                   Sample.registration w) in
  (exists o, fst (@student_register Sample.toy_bcrypt Sample.toy_email
                    Sample.registration w) =
               inl {| status := 201; json := JObj o |}) /\
  is_Some (students (tables w1) !! 20305) /\
  (exists o, fst (@student_register Sample.toy_bcrypt Sample.toy_email
                    Sample.registration w1) =
               inl {| status := 201; json := JObj o |}) /\
  tables (snd (@student_register Sample.toy_bcrypt Sample.toy_email
                 Sample.registration w1)) = tables w1.
Proof.
  intros w.
  apply (@student_register_twice Sample.toy_bcrypt Sample.toy_email
           Sample.registration w 20305 "longpassw0"); try reflexivity.
  intros r Hin. vm_compute in Hin.
  destruct Hin as [Hr | []]. subst r. discriminate.
Defined.

(** Mona's account deleted, then Mona logging in with her password *)
Lemma delete_student_then_login_witness :
  let w := Sample.world_of Sample.campus [] [] in
  let w1 := snd (delete_student (Sample.by_id "student_id" 20201) w) in
  students (tables w) !! 20201 = Some Sample.mona /\
  fst (@student_login Sample.toy_bcrypt
         (Sample.login_request "20201" "s3cretpass") w1) =
    inl {| status := 404; json := not_found_body |}.
Proof.
  intros w. split; [reflexivity |].
  apply (@delete_student_then_login Sample.toy_bcrypt
           (Sample.by_id "student_id" 20201)
           (Sample.login_request "20201" "s3cretpass") w 20201 "s3cretpass");
    reflexivity.
Defined.

(** ** Professor registration *)

Section ProfessorProperties.
Context `{Bcrypt} `{EmailSyntax}.

Lemma no_professor_with_email (email : option string)
    (l : list professor_row) :
  (forall r, In r l -> professor_email r <> email) ->
  existsb (fun r => Sql.same_text (professor_email r) email) l = false.
Proof.
  induction l as [| r l IH]; intros Hfresh; cbn; [reflexivity |].
  destruct (Sql.same_text (professor_email r) email) eqn:Hsame.
  - apply same_text_eq in Hsame. exfalso. apply (Hfresh r); [left |]; auto.
  - apply IH. intros r' Hin. apply Hfresh. right. exact Hin.
Qed.

(** a validated email is a text *)
Lemma valid_professor_email (req : request) :
  professor_errors req = [] ->
  value "professor_email" (body req) =
  of_field (field "professor_email" (body req)).
Proof.
  unfold professor_errors. intros Hnil.
  apply app_eq_nil in Hnil. destruct Hnil as [_ Hnil].
  apply app_eq_nil in Hnil. destruct Hnil as [Hdomain _].
  unfold email_domain, field in *.
  destruct (value "professor_email" (body req)); try discriminate.
  reflexivity.
Qed.

(** X9: a valid professor registration under a free ID and email is
    answered 201 with the record minus its password, and the row stored
    under the ID holds the bcrypt hash of the password, which is not the
    password. *)
Theorem professor_register_stores_hash (req : request) (w : world) (id : Z)
    (password : string) :
  professor_errors req = [] ->
  field "password" (body req) = Some password ->
  Sql.int_value (of_field (field "professor_id" (body req))) = Some id ->
  professor (tables w) !! id = None ->
  (forall r, In r (Sql.rows (professor (tables w))) ->
             professor_email r <> field "professor_email" (body req)) ->
  hd None (faults w) = None ->
  let r := professor_register req w in
  let salt := hd "00000000000000000000000000000000" (entropy w) in
  exists o row,
    fst r = inl {| status := 201; json := JObj o |} /\
    has "professor_password" o = false /\
    get "professor_email" o = of_field (field "professor_email" (body req)) /\
    professor (tables (snd r)) !! id = Some row /\
    professor_password row = Some (bcrypt_hash password 10 salt) /\
    professor_password row <> Some password.
Proof.
  intros Hvalid Hpw Hid Hfree Hemail Hfault r salt. subst r.
  pose proof (valid_professor_password req password Hvalid Hpw) as Hlen.
  pose proof (no_professor_with_email _ _ Hemail) as Hnot.
  destruct (int_value_field _ _ _ Hid) as (s & Hvalue & Hs).
  destruct (professor_register_valid req w password Hvalid Hpw)
    as (Hout & Htables & _).
  rewrite Hfault in Htables.
  unfold tables_after, Sql.insert_professor in Htables.
  cbn [get String.eqb Ascii.eqb Bool.eqb] in Htables.
  rewrite Hvalue, Hs, Hfree in Htables.
  rewrite <- Hvalue, text_value_value, Hnot in Htables.
  eexists. eexists. split; [exact Hout |].
  split; [reflexivity |].
  split; [cbn; apply valid_professor_email; exact Hvalid |].
  split; [rewrite Htables; apply lookup_insert_eq |].
  split; [reflexivity |].
  cbn. intros Heq. injection Heq as Heq.
  pose proof (bcrypt_hash_length password 10 salt) as Hhash.
  fold salt in Heq. rewrite Heq in Hhash.
  pose proof (characters_bound password) as Hbytes.
  unfold isLength in Hlen.
  apply andb_true_iff in Hlen. destruct Hlen as [_ Hmax].
  apply Nat.leb_le in Hmax. lia.
Qed.

(** X10: a valid professor registration under an ID that is taken is not
    refused. The insert is sent without a callback, the server refuses it,
    the error reaches nobody, and the handler answers 201 with the
    submitted ID: no table has changed and the catch block, which would
    answer 409, has not run. *)
Theorem professor_register_taken_id_unnoticed (req : request) (w : world)
    (id : Z) (row : professor_row) (password : string) :
  professor_errors req = [] ->
  field "password" (body req) = Some password ->
  Sql.int_value (of_field (field "professor_id" (body req))) = Some id ->
  professor (tables w) !! id = Some row ->
  let r := professor_register req w in
  (exists o, fst r = inl {| status := 201; json := JObj o |} /\
             get "professor_id" o =
               of_field (field "professor_id" (body req))) /\
  tables (snd r) = tables w /\
  events (snd r) = events w ++ [Query "INSERT INTO professor SET ?"].
Proof.
  intros Hvalid Hpw Hid Hrow r. subst r.
  destruct (int_value_field _ _ _ Hid) as (s & Hvalue & Hs).
  destruct (professor_register_valid req w password Hvalid Hpw)
    as (Hout & Htables & _ & _ & _ & Hevents).
  split; [| split; [| exact Hevents]].
  - eexists. split; [exact Hout |]. cbn.
    unfold field. rewrite Hvalue. reflexivity.
  - rewrite Htables. destruct (hd None (faults w)); [reflexivity |].
    unfold tables_after.
    rewrite (insert_professor_refused _ _ id row);
      [reflexivity | cbn; rewrite Hvalue; exact Hs | exact Hrow].
Qed.

End ProfessorProperties.

(** Dr. Salma registering on tables without professors *)
Lemma professor_register_stores_hash_witness :
  let w := Sample.world_of Sample.campus [] [] in
  let r := @professor_register Sample.toy_bcrypt Sample.toy_email
             Sample.professor_registration w in
  exists o row,
    fst r = inl {| status := 201; json := JObj o |} /\
    has "professor_password" o = false /\
    get "professor_email" o = JStr "salma@fci.helwan.edu.eg" /\
    professor (tables (snd r)) !! 77 = Some row /\
    professor_password row =
      Some (@bcrypt_hash Sample.toy_bcrypt "s3cretpass" 10
              "c29tZXNhbHRzb21lc2FsdA") /\
    professor_password row <> Some "s3cretpass".
Proof.
  intros w.
  apply (@professor_register_stores_hash Sample.toy_bcrypt Sample.toy_email
           Sample.professor_registration w 77 "s3cretpass"); try reflexivity.
  intros r Hin. vm_compute in Hin. destruct Hin.
Defined.

(** Dr. Salma registering a second time *)
Lemma professor_register_taken_id_unnoticed_witness :
  let w := Sample.world_of Sample.campus [] [] in
  let w1 := snd (@professor_register Sample.toy_bcrypt Sample.toy_email
                   Sample.professor_registration w) in
  let r := @professor_register Sample.toy_bcrypt Sample.toy_email
             Sample.professor_registration w1 in
  (exists o, fst r = inl {| status := 201; json := JObj o |} /\
             get "professor_id" o = JStr "77") /\
  tables (snd r) = tables w1 /\
  events (snd r) = events w1 ++ [Query "INSERT INTO professor SET ?"].
Proof.
  intros w w1.
  apply (@professor_register_taken_id_unnoticed Sample.toy_bcrypt
           Sample.toy_email Sample.professor_registration w1 77
           (Sql.professor_of_object 77
              [("professor_id", JStr "77");
               ("professor_name", JStr "Dr. Salma Nabil");
               ("professor_email", JStr "salma@fci.helwan.edu.eg");
               ("professor_password",
                JStr (@bcrypt_hash Sample.toy_bcrypt "s3cretpass" 10
                        "c29tZXNhbHRzb21lc2FsdA"));
               ("professor_department", JStr "CS");
               ("professor_token", JStr "9f86d081884c7d659a2feaa0c55ad015")])
           "s3cretpass");
    reflexivity.
Defined.

(** ** Project registration: the edges *)

(** X11: a request without teammateData, and without an upload, never
    reaches the gateway with a statement: the failed [map] is caught, a
    rollback is issued, 500 is answered, and the committed tables are what
    they were. *)
Theorem register_project_without_teammates (req : request) (w : world) :
  teammateData req = None ->
  falsy (file req) = true ->
  hd None (faults w) = None ->
  let r := register_project req w in
  fst r = inl {| status := 500;
                 json := error_body "Server error during project creation. Transaction has been rolled back." |} /\
  events (snd r) =
    events w ++ [ConsoleError "Error in project creation or student association:";
                 Rollback] /\
  committed (snd r) = committed w /\
  files (snd r) = files w.
Proof.
  intros Hteam Hfile Hfault r. subst r.
  unfold register_project, register_project_try, register_project_catch,
    rollbackTransaction.
  rewrite Hteam, Hfile. run. rewrite Hfault. cbn.
  unfold committed.
  destruct (txn w) eqn:Htxn; cbn; rewrite ?Htxn, <- ?app_assoc; repeat split.
Qed.

Lemma register_project_without_teammates_witness :
  let w := Sample.world_of Sample.campus [] [] in
  let r := register_project Cases.nothing w in
  fst r = inl {| status := 500;
                 json := error_body "Server error during project creation. Transaction has been rolled back." |} /\
  events (snd r) =
    events w ++ [ConsoleError "Error in project creation or student association:";
                 Rollback] /\
  committed (snd r) = committed w /\
  files (snd r) = files w.
Proof.
  intros w. apply (register_project_without_teammates Cases.nothing w);
    reflexivity.
Defined.

(** X12: the handler never removes a file: whatever the request and
    whatever the gateway does, the files on disk are afterwards what they
    were. And with an upload it never answers 500: it answers 201 or 400,
    or ends on an error without an answer. *)
Theorem register_project_never_unlinks (req : request) (w : world) :
  files (snd (register_project req w)) = files w /\
  (forall path r,
     file req = Some path -> path <> "" ->
     fst (register_project req w) = inl r ->
     status r = 201 \/ status r = 400).
Proof.
  unfold register_project, try_catch.
  destruct (register_project_try req w) as [o w1] eqn:Htry.
  apply register_project_try_cases in Htry.
  destruct Htry as [(tm & _ & _ & _ & -> & _ & _ & Hfiles & _)
                   | [(tm & row & _ & _ & _ & _ & _ & _ & _ & -> & _ & Hfiles & _)
                     | (e & -> & Hfiles & _)]].
  - cbn. split; [exact Hfiles |]. intros path r _ _ Hr.
    injection Hr as <-. right. reflexivity.
  - cbn. split; [exact Hfiles |]. intros path r _ _ Hr.
    injection Hr as <-. left. reflexivity.
  - destruct (register_project_catch_outcome req e w1) as (Hout & Hkept & _).
    cbn zeta in Hout, Hkept. split; [rewrite Hkept; exact Hfiles |].
    intros path r Hfile Hpath Hr. rewrite Hr, Hfile in Hout. cbn in Hout.
    destruct (hd None (faults w1)); [discriminate |].
    destruct (String.eqb_spec path ""); [contradiction | discriminate].
Qed.

(** the registration with an upload whose second teammate cannot be
    inserted *)
Lemma register_project_never_unlinks_witness :
  let req := Sample.project_request Sample.team (Some "project_files/1.rar") in
  let w := Sample.world_of Sample.campus ["project_files/1.rar"]
             [None; None; None; None; Some Sample.lost_connection] in
  fst (register_project req w) = inr (ReferenceError "fs is not defined") /\
  files (snd (register_project req w)) = files w /\
  (forall path r,
     file req = Some path -> path <> "" ->
     fst (register_project req w) = inl r ->
     status r = 201 \/ status r = 400).
Proof.
  intros req w. split; [vm_compute; reflexivity |].
  apply (register_project_never_unlinks req w).
Defined.

(** ** Comments *)

Lemma text_value_of_text (f : option string) :
  Sql.text_value (of_text f) = f.
Proof. destruct f; reflexivity. Qed.

Lemma In_map_to_list {A} (m : gmap Z A) (id : Z) (x : A) :
  In (id, x) (map_to_list m) <-> m !! id = Some x.
Proof. rewrite <- list_elem_of_In. apply elem_of_map_to_list. Qed.

(** what [SELECT * FROM comments WHERE project_id = ?] returns *)
Lemma select_comments_rows (project : Z) (d : database) (o : object) :
  In o (map Rows.comment_object
          (List.filter
             (fun entry => Z.eqb (comment_project_id (snd entry)) project)
             (map_to_list (comments d)))) <->
  exists id row,
    comments d !! id = Some row /\ comment_project_id row = project /\
    o = Rows.comment_object (id, row).
Proof.
  rewrite in_map_iff. split.
  - intros ([id row] & <- & Hin). apply filter_In in Hin.
    destruct Hin as [Hin Hp]. cbn in Hp. apply Z.eqb_eq in Hp.
    apply In_map_to_list in Hin. exists id, row. auto.
  - intros (id & row & Hrow & Hp & ->). exists (id, row).
    split; [reflexivity |]. apply filter_In. split.
    + apply In_map_to_list. exact Hrow.
    + cbn. apply Z.eqb_eq. exact Hp.
Qed.

(** the run of an add-comment that goes through *)
Lemma add_comment_run (req : request) (w : world) (c : Z) :
  Sql.int_value (of_field (field "commenter_id" (body req))) = Some c ->
  comments (tables w) !! auto_increment w = None ->
  quiet 2 (faults w) = true ->
  let r := add_comment req w in
  let id := auto_increment w in
  fst r = inl {| status := 201;
                 json := JObj [("message", JStr "Comment added successfully");
                               ("comment_id", JNum id)] |} /\
  tables (snd r) =
    Sql.with_comments
      (<[id := {| comment_project_id := param "project_id" (params req);
                  commenter_id := c;
                  commenter_name :=
                    match students (tables w) !! c with
                    | Some s => student_name s
                    | None => None
                    end;
                  comment_text := field "comment_text" (body req) |}]>
         (comments (tables w)))
      (tables w) /\
  faults (snd r) = tl (tl (faults w)).
Proof.
  intros Hc Hfree Hquiet r id. subst r id.
  apply quiet_next in Hquiet. destruct Hquiet as [Hf1 Hquiet].
  apply quiet_next in Hquiet. destruct Hquiet as [Hf2 _].
  destruct (int_value_field _ _ _ Hc) as (t & Hvalue & Ht).
  unfold add_comment, insertComment. run. rewrite Hf1. cbn.
  rewrite Hvalue. cbn. rewrite Ht.
  destruct (students (tables w) !! c) as [s |]; cbn; rewrite Hf2; cbn;
    unfold Rows.insert_comment; rewrite Ht; cbn; rewrite Hfree; cbn;
    rewrite ?text_value_of_text; repeat split.
Qed.

(** X13: an add-comment that goes through is answered 201 with the
    generated ID, and the row stored under that ID carries the project of
    the path, the commenter and the text of the body, and as commenter
    name the name the student of that ID has at this moment: nothing when
    there is no such student, which is no reason to refuse the comment. *)
Theorem add_comment_stores_name (req : request) (w : world) (c : Z) :
  Sql.int_value (of_field (field "commenter_id" (body req))) = Some c ->
  comments (tables w) !! auto_increment w = None ->
  quiet 2 (faults w) = true ->
  let r := add_comment req w in
  let id := auto_increment w in
  fst r = inl {| status := 201;
                 json := JObj [("message", JStr "Comment added successfully");
                               ("comment_id", JNum id)] |} /\
  comments (tables (snd r)) !! id =
    Some {| comment_project_id := param "project_id" (params req);
            commenter_id := c;
            commenter_name :=
              match students (tables w) !! c with
              | Some s => student_name s
              | None => None
              end;
            comment_text := field "comment_text" (body req) |} /\
  (forall other, other <> id ->
     comments (tables (snd r)) !! other = comments (tables w) !! other) /\
  students (tables (snd r)) = students (tables w).
Proof.
  intros Hc Hfree Hquiet r id.
  destruct (add_comment_run req w c Hc Hfree Hquiet) as (Hout & Htab & _).
  fold r in Hout, Htab. fold id in Hout, Htab.
  split; [exact Hout |]. rewrite Htab. cbn.
  split; [apply lookup_insert_eq |]. split; [| reflexivity].
  intros other Hne. apply lookup_insert_ne. congruence.
Qed.

(** X14: when the lookup of the commenter's name fails, the comment is
    not inserted: 500 is answered after that one statement. *)
Theorem add_comment_lookup_failure_500 (req : request) (w : world)
    (e : sql_error) :
  hd None (faults w) = Some e ->
  let r := add_comment req w in
  fst r = inl {| status := 500;
                 json := error_body "Server error while adding comment" |} /\
  tables (snd r) = tables w /\
  events (snd r) =
    events w ++ [Query "SELECT student_name FROM students WHERE student_id = ?";
                 ConsoleError "Error adding comment:"].
Proof.
  intros Hfault r. subst r. unfold add_comment, insertComment. run.
  rewrite Hfault. cbn. rewrite <- app_assoc. repeat split.
Qed.

(** X15: show-comments, when its statement is answered, lists exactly the
    stored comments of the project of the path, each with its ID. *)
Theorem show_comments_lists_project (req : request) (w : world) :
  hd None (faults w) = None ->
  exists l,
    fst (show_comments req w) =
      inl {| status := 200; json := JObj [("comments", JArr (map JObj l))] |} /\
    forall o,
      In o l <->
      exists id row,
        comments (tables w) !! id = Some row /\
        comment_project_id row = param "project_id" (params req) /\
        o = Rows.comment_object (id, row).
Proof.
  intros Hfault. unfold show_comments. run. rewrite Hfault. cbn.
  eexists. split; [reflexivity |]. intros o. apply select_comments_rows.
Qed.

(** X16: a comment that was added is listed by show-comments of the same
    project, under the ID the add-comment answered. *)
Theorem add_comment_then_show (req : request) (w : world) (c : Z) :
  Sql.int_value (of_field (field "commenter_id" (body req))) = Some c ->
  comments (tables w) !! auto_increment w = None ->
  quiet 3 (faults w) = true ->
  let w1 := snd (add_comment req w) in
  exists l,
    fst (show_comments req w1) =
      inl {| status := 200; json := JObj [("comments", JArr (map JObj l))] |} /\
    exists o,
      In o l /\
      get "comment_id" o = JNum (auto_increment w) /\
      get "commenter_id" o = JNum c /\
      get "comment_text" o = of_text (field "comment_text" (body req)).
Proof.
  intros Hc Hfree Hquiet w1.
  destruct (add_comment_run req w c Hc Hfree) as (_ & Htab & Hfaults).
  { apply quiet_weaken. exact Hquiet. }
  fold w1 in Htab, Hfaults.
  assert (Hf : hd None (faults w1) = None).
  { rewrite Hfaults. apply quiet_next in Hquiet. destruct Hquiet as [_ Hq].
    apply quiet_next in Hq. destruct Hq as [_ Hq].
    apply quiet_next in Hq. apply Hq. }
  unfold show_comments. run. rewrite Hf. cbn.
  eexists. split; [reflexivity |].
  eexists. split.
  - apply select_comments_rows. eexists _, _. split; [| split; [| reflexivity]].
    + rewrite Htab. cbn. apply lookup_insert_eq.
    + reflexivity.
  - repeat split.
Qed.

(** X17: deleting a stored comment twice is answered 200 and then 404, and
    the second run changes no table. *)
Theorem delete_comment_twice (req : request) (w : world) (row : comment_row) :
  comments (tables w) !! param "comment_id" (params req) = Some row ->
  quiet 2 (faults w) = true ->
  let w1 := snd (delete_comment req w) in
  fst (delete_comment req w) =
    inl {| status := 200; json := message_body "Comment deleted successfully" |} /\
  fst (delete_comment req w1) =
    inl {| status := 404; json := error_body "Comment not found" |} /\
  tables (snd (delete_comment req w1)) = tables w1.
Proof.
  intros Hrow Hquiet w1.
  apply quiet_next in Hquiet. destruct Hquiet as [Hf1 Hquiet].
  apply quiet_next in Hquiet. destruct Hquiet as [Hf2 _].
  assert (Hfirst : fst (delete_comment req w) =
                     inl {| status := 200;
                            json := message_body "Comment deleted successfully" |} /\
                   faults w1 = tl (faults w) /\
                   comments (tables w1) !! param "comment_id" (params req) = None).
  { subst w1. unfold delete_comment. run. rewrite Hf1. cbn.
    unfold Sql.affected. rewrite Hrow. cbn.
    repeat split. apply lookup_delete_eq. }
  destruct Hfirst as (Hout & Hfaults & Hgone).
  split; [exact Hout |].
  unfold delete_comment. run. rewrite Hfaults, Hf2. cbn.
  unfold Sql.affected. rewrite Hgone. cbn. split; [reflexivity |].
  rewrite (delete_id _ _ Hgone). apply with_comments_same.
Qed.

(** X18: the delete of a comment by the admin, [DELETE
    /comments/:comment_id] of both route files: when the statement is
    answered, an ID that no comment has is answered 404 and changes no
    table, and the ID of a stored comment is answered 200 with exactly that
    row removed. *)
Theorem delete_comments_by_id (req : request) (w : world) :
  hd None (faults w) = None ->
  let id := param "comment_id" (params req) in
  let r := delete_comments req w in
  match comments (tables w) !! id with
  | None =>
      fst r = inl {| status := 404; json := error_body "Comment not found" |} /\
      tables (snd r) = tables w
  | Some _ =>
      fst r = inl {| status := 200;
                     json := message_body "Comment deleted successfully" |} /\
      tables (snd r) =
        Sql.with_comments (base.delete id (comments (tables w))) (tables w)
  end.
Proof.
  intros Hfault id r. subst id r. unfold delete_comments. run.
  rewrite Hfault. cbn. unfold Sql.affected.
  destruct (comments (tables w) !! _) eqn:Hrow; cbn; split; try reflexivity.
  rewrite (delete_id _ _ Hrow). apply with_comments_same.
Qed.

(** ** Bookmarks *)

(** what the join behind show-bookmarks returns *)
Lemma select_bookmarks_rows (student : Z) (d : database) (o : object) :
  In o (flat_map (Rows.bookmark_listing d)
          (List.filter
             (fun entry => Z.eqb (bookmark_student_id (snd entry)) student)
             (map_to_list (bookmarks d)))) <->
  exists id b p,
    bookmarks d !! id = Some b /\ bookmark_student_id b = student /\
    projects d !! bookmark_project_id b = Some p /\
    o = [("bookmark_id", JNum id); ("title", of_text (title p));
         ("department_name", of_text (department_name p));
         ("total_votes", JNum (total_votes p))].
Proof.
  rewrite in_flat_map. split.
  - intros ([id b] & Hin & Ho). apply filter_In in Hin.
    destruct Hin as [Hin Hs]. cbn in Hs. apply Z.eqb_eq in Hs.
    apply In_map_to_list in Hin. unfold Rows.bookmark_listing in Ho.
    cbn in Ho. destruct (projects d !! bookmark_project_id b) as [p |] eqn:Hp;
      [| destruct Ho].
    destruct Ho as [<- | []]. exists id, b, p. auto.
  - intros (id & b & p & Hb & Hs & Hp & ->). exists (id, b). split.
    + apply filter_In. split; [apply In_map_to_list; exact Hb |].
      cbn. apply Z.eqb_eq. exact Hs.
    + unfold Rows.bookmark_listing. cbn. rewrite Hp. left. reflexivity.
Qed.

(** X19: show-bookmarks, when its statement is answered, lists exactly the
    bookmarks of the student of the path whose project still exists, and
    shows for each the title, department and votes the project has now. *)
Theorem show_bookmarks_lists_live_projects (req : request) (w : world) :
  hd None (faults w) = None ->
  exists l,
    fst (show_bookmarks req w) =
      inl {| status := 200; json := JArr (map JObj l) |} /\
    forall o,
      In o l <->
      exists id b p,
        bookmarks (tables w) !! id = Some b /\
        bookmark_student_id b = param "student_id" (params req) /\
        projects (tables w) !! bookmark_project_id b = Some p /\
        o = [("bookmark_id", JNum id); ("title", of_text (title p));
             ("department_name", of_text (department_name p));
             ("total_votes", JNum (total_votes p))].
Proof.
  intros Hfault. unfold show_bookmarks. run. rewrite Hfault. cbn.
  eexists. split; [reflexivity |]. intros o. apply select_bookmarks_rows.
Qed.

(** X20: deleting a project leaves the bookmarks on it in their table, and
    show-bookmarks no longer lists any of them. *)
Theorem delete_project_hides_bookmarks (del req : request) (w : world) :
  quiet 2 (faults w) = true ->
  let w1 := snd (delete_project del w) in
  bookmarks (tables w1) = bookmarks (tables w) /\
  exists l,
    fst (show_bookmarks req w1) =
      inl {| status := 200; json := JArr (map JObj l) |} /\
    forall id b,
      bookmarks (tables w) !! id = Some b ->
      bookmark_project_id b = param "id" (params del) ->
      forall o, In o l -> get "bookmark_id" o <> JNum id.
Proof.
  intros Hquiet w1.
  apply quiet_next in Hquiet. destruct Hquiet as [Hf1 Hquiet].
  apply quiet_next in Hquiet. destruct Hquiet as [Hf2 _].
  assert (Hw1 : tables w1 =
                  Sql.with_projects
                    (base.delete (param "id" (params del)) (projects (tables w)))
                    (tables w) /\
                faults w1 = tl (faults w)).
  { subst w1. unfold delete_project. run. rewrite Hf1. split; reflexivity. }
  destruct Hw1 as [Htab Hfaults].
  split; [rewrite Htab; reflexivity |].
  unfold show_bookmarks. run. rewrite Hfaults, Hf2. cbn.
  eexists. split; [reflexivity |].
  intros id b Hb Hp o Hin Hget.
  apply select_bookmarks_rows in Hin.
  destruct Hin as (id' & b' & p & Hb' & _ & Hproj & ->).
  cbn in Hget. injection Hget as ->.
  rewrite Htab in Hb', Hproj. cbn in Hb', Hproj.
  rewrite Hb in Hb'. injection Hb' as <-.
  rewrite Hp, lookup_delete_eq in Hproj. discriminate.
Qed.

(** ** Departments and graduation terms *)

Lemma options_of_readable (type : string) (opts : list string) :
  options_of type = Some opts -> Forall readable opts /\ opts <> [].
Proof.
  unfold options_of, match_quoted.
  destruct (scan_readable type None I) as (l & Hl & Hall).
  rewrite Hl. destruct l as [| o l]; [discriminate |].
  change (map literal (o :: l)) with (literal o :: map literal l).
  cbv iota. change (literal o :: map literal l) with (map literal (o :: l)).
  rewrite options_of_literals by exact Hall.
  intros Hopts. injection Hopts as <-. split; [exact Hall | discriminate].
Qed.

Lemma options_of_rewritten (l : list string) :
  Forall readable l -> l <> [] ->
  options_of ("enum(" ++ enum_definition (map JStr l) ++ ")") = Some l.
Proof.
  intros Hall Hne. unfold options_of, match_quoted.
  rewrite definition_of_options.
  change ("enum(" ++ join "," (map literal l) ++ ")")%string
    with ("enum(" ++ (join "," (map literal l) ++ ")"))%string.
  rewrite scan_skip by reflexivity.
  rewrite scan_definition by (assumption || reflexivity).
  destruct l as [| o l]; [contradiction |].
  change (map literal (o :: l)) with (literal o :: map literal l).
  cbv iota. change (literal o :: map literal l) with (map literal (o :: l)).
  rewrite options_of_literals by exact Hall. reflexivity.
Qed.

Lemma current_options_of (type : string) (w : world) (opts : list string) :
  options_of type = Some opts ->
  current_options type w = (inl opts, w).
Proof.
  unfold options_of, current_options.
  destruct (match_quoted type); [| discriminate].
  intros Hopts. injection Hopts as <-. reflexivity.
Qed.

Lemma post_graduation_terms_run (req : request) (w : world)
    (opts : list string) (n : string) :
  field "graduation_term" (body req) = Some n ->
  graduation_terms w = Some opts ->
  quiet 2 (faults w) = true ->
  let r := post_graduation_terms req w in
  if includes opts (JStr n) then
    fst r = inl {| status := 400;
                   json := error_body "Graduation term already exists" |} /\
    tables (snd r) = tables w
  else
    fst r = inl {| status := 200;
                   json := message_body "New graduation term added successfully" |} /\
    graduation_term_type (tables (snd r)) =
      ("enum(" ++ enum_definition (map JStr (opts ++ [n])) ++ ")")%string /\
    faults (snd r) = tl (tl (faults w)).
Proof.
  intros Hfield Hopts Hquiet r. subst r.
  apply quiet_next in Hquiet. destruct Hquiet as [Hf1 Hquiet].
  apply quiet_next in Hquiet. destruct Hquiet as [Hf2 _].
  unfold post_graduation_terms. rewrite (field_value _ _ _ Hfield).
  run. rewrite Hf1. cbn.
  rewrite (current_options_of _ _ opts Hopts).
  destruct (includes opts (JStr n)); cbn; [split; reflexivity |].
  rewrite Hf2. cbn. rewrite map_app. repeat split.
Qed.

Lemma delete_graduation_terms_run (req : request) (w : world)
    (opts : list string) (n : string) :
  field "graduation_term" (body req) = Some n ->
  n <> "" ->
  graduation_terms w = Some opts ->
  quiet 2 (faults w) = true ->
  let r := delete_graduation_terms req w in
  if includes opts (JStr n) then
    fst r = inl {| status := 200;
                   json := message_body "Graduation term deleted successfully" |} /\
    graduation_term_type (tables (snd r)) =
      ("enum(" ++
       enum_definition
         (map JStr (List.filter (fun option => negb (String.eqb option n)) opts)) ++
       ")")%string
  else
    fst r = inl {| status := 404;
                   json := error_body "Graduation term not found in ENUM" |} /\
    tables (snd r) = tables w.
Proof.
  intros Hfield Hne Hopts Hquiet r. subst r.
  apply quiet_next in Hquiet. destruct Hquiet as [Hf1 Hquiet].
  apply quiet_next in Hquiet. destruct Hquiet as [Hf2 _].
  unfold delete_graduation_terms. rewrite (field_value _ _ _ Hfield). cbn [falsy_value].
  destruct (String.eqb_spec n ""); [contradiction |].
  run. rewrite Hf1. cbn.
  rewrite (current_options_of _ _ opts Hopts).
  destruct (includes opts (JStr n)); cbn; [| split; reflexivity].
  rewrite Hf2. cbn. split; reflexivity.
Qed.

(** X21: the graduation-term handlers, with their statements answered.
    Adding a term that is already allowed is answered 400 and changes no
    table; deleting a non-empty term that is not allowed is answered 404
    and changes no table; and adding a term that is not empty, has no
    apostrophe and is not allowed, then deleting it, is answered 200 twice
    and leaves the allowed terms exactly as they were. *)
Theorem graduation_terms_add_delete (req : request) (w : world)
    (opts : list string) (n : string) :
  field "graduation_term" (body req) = Some n ->
  graduation_terms w = Some opts ->
  quiet 4 (faults w) = true ->
  (In n opts ->
   fst (post_graduation_terms req w) =
     inl {| status := 400; json := error_body "Graduation term already exists" |} /\
   tables (snd (post_graduation_terms req w)) = tables w) /\
  (n <> "" -> ~ In n opts ->
   fst (delete_graduation_terms req w) =
     inl {| status := 404;
            json := error_body "Graduation term not found in ENUM" |} /\
   tables (snd (delete_graduation_terms req w)) = tables w) /\
  (readable n -> ~ In n opts ->
   let w1 := snd (post_graduation_terms req w) in
   let w2 := snd (delete_graduation_terms req w1) in
   fst (post_graduation_terms req w) =
     inl {| status := 200;
            json := message_body "New graduation term added successfully" |} /\
   graduation_terms w1 = Some (opts ++ [n]) /\
   fst (delete_graduation_terms req w1) =
     inl {| status := 200;
            json := message_body "Graduation term deleted successfully" |} /\
   graduation_terms w2 = Some opts).
Proof.
  intros Hfield Hopts Hquiet.
  assert (Hq2 : quiet 2 (faults w) = true)
    by (apply quiet_weaken, quiet_weaken; exact Hquiet).
  destruct (options_of_readable _ opts Hopts) as [Hread Hsome].
  pose proof (post_graduation_terms_run req w opts n Hfield Hopts Hq2) as Hpost.
  cbv zeta in Hpost.
  repeat apply conj.
  - intros Hin. apply includes_In in Hin. rewrite Hin in Hpost. exact Hpost.
  - intros Hne Hnot.
    pose proof (delete_graduation_terms_run req w opts n Hfield Hne Hopts Hq2)
      as Hdel.
    cbv zeta in Hdel. rewrite (includes_not_In _ _ Hnot) in Hdel. exact Hdel.
  - intros [Hplain Hne] Hnot w1 w2.
    rewrite (includes_not_In _ _ Hnot) in Hpost.
    destruct Hpost as (Hadd & Htype1 & Hfaults1).
    fold w1 in Htype1, Hfaults1.
    assert (Hread1 : Forall readable (opts ++ [n])).
    { apply Forall_app. split; [exact Hread |].
      constructor; [split; assumption | constructor]. }
    assert (Hopts1 : graduation_terms w1 = Some (opts ++ [n])).
    { unfold graduation_terms. rewrite Htype1.
      apply options_of_rewritten; [exact Hread1 |].
      destruct opts; discriminate. }
    assert (Hq : quiet 2 (faults w1) = true).
    { rewrite Hfaults1. apply quiet_two_more. exact Hquiet. }
    pose proof (delete_graduation_terms_run req w1 (opts ++ [n]) n Hfield Hne
                  Hopts1 Hq) as Hdel.
    cbv zeta in Hdel.
    assert (Hin : includes (opts ++ [n]) (JStr n) = true).
    { apply includes_In. apply in_or_app. right. left. reflexivity. }
    rewrite Hin in Hdel. destruct Hdel as (Hdel & Htype2).
    fold w2 in Htype2. rewrite (filter_out_new opts n Hnot) in Htype2.
    repeat split; try assumption.
    unfold graduation_terms. rewrite Htype2.
    apply options_of_rewritten; assumption.
Qed.

(** adding the term "Summer" to the sample column and deleting it again *)
Lemma graduation_terms_add_delete_witness :
  let req := Sample.named "graduation_term" "Summer" in
  let w := Sample.world_of Sample.campus [] [] in
  let w1 := snd (post_graduation_terms req w) in
  let w2 := snd (delete_graduation_terms req w1) in
  graduation_terms w = Some ["Fall"; "Spring"] /\
  fst (delete_graduation_terms req w) =
    inl {| status := 404;
           json := error_body "Graduation term not found in ENUM" |} /\
  fst (post_graduation_terms req w) =
    inl {| status := 200;
           json := message_body "New graduation term added successfully" |} /\
  graduation_terms w1 = Some ["Fall"; "Spring"; "Summer"] /\
  fst (delete_graduation_terms req w1) =
    inl {| status := 200;
           json := message_body "Graduation term deleted successfully" |} /\
  graduation_terms w2 = Some ["Fall"; "Spring"].
Proof.
  intros req w w1 w2.
  assert (Hnew : ~ In "Summer" ["Fall"; "Spring"])
    by (cbn; intuition discriminate).
  destruct (graduation_terms_add_delete req w ["Fall"; "Spring"] "Summer"
              eq_refl eq_refl eq_refl)
    as (_ & Habsent & Hround).
  split; [reflexivity |].
  split; [apply Habsent; [discriminate | exact Hnew] |].
  apply Hround; [split; [reflexivity | discriminate] | exact Hnew].
Defined.

Lemma with_department_name_type_same (d : database) :
  Sql.with_department_name_type (department_name_type d) d = d.
Proof. destruct d; reflexivity. Qed.

Lemma with_graduation_term_type_same (d : database) :
  Sql.with_graduation_term_type (graduation_term_type d) d = d.
Proof. destruct d; reflexivity. Qed.

(** X22: each of the four taxonomy handlers, whatever the request and
    whatever the gateway does, changes at most the text of its own column:
    no row of any table, and not the other column. *)
Theorem taxonomy_handlers_frame (req : request) (w : world) :
  (exists type,
     tables (snd (post_departments req w)) =
       Sql.with_department_name_type type (tables w)) /\
  (exists type,
     tables (snd (delete_departments req w)) =
       Sql.with_department_name_type type (tables w)) /\
  (exists type,
     tables (snd (post_graduation_terms req w)) =
       Sql.with_graduation_term_type type (tables w)) /\
  (exists type,
     tables (snd (delete_graduation_terms req w)) =
       Sql.with_graduation_term_type type (tables w)).
Proof.
  repeat apply conj.
  - unfold post_departments. run.
    destruct (hd None (faults w)); cbn;
      [eexists; symmetry; apply with_department_name_type_same |].
    unfold current_options.
    destruct (match_quoted _); cbn;
      [| eexists; symmetry; apply with_department_name_type_same].
    destruct (includes _ _); cbn;
      [eexists; symmetry; apply with_department_name_type_same |].
    destruct (hd None (tl (faults w))); cbn;
      [eexists; symmetry; apply with_department_name_type_same |].
    eexists. reflexivity.
  - unfold delete_departments.
    destruct (falsy_value _);
      [eexists; symmetry; apply with_department_name_type_same |].
    run.
    destruct (hd None (faults w)); cbn;
      [eexists; symmetry; apply with_department_name_type_same |].
    unfold current_options.
    destruct (match_quoted _); cbn;
      [| eexists; symmetry; apply with_department_name_type_same].
    destruct (includes _ _); cbn;
      [| eexists; symmetry; apply with_department_name_type_same].
    destruct (hd None (tl (faults w))); cbn;
      [eexists; symmetry; apply with_department_name_type_same |].
    eexists. reflexivity.
  - unfold post_graduation_terms. run.
    destruct (hd None (faults w)); cbn;
      [eexists; symmetry; apply with_graduation_term_type_same |].
    unfold current_options.
    destruct (match_quoted _); cbn;
      [| eexists; symmetry; apply with_graduation_term_type_same].
    destruct (includes _ _); cbn;
      [eexists; symmetry; apply with_graduation_term_type_same |].
    destruct (hd None (tl (faults w))); cbn;
      [eexists; symmetry; apply with_graduation_term_type_same |].
    eexists. reflexivity.
  - unfold delete_graduation_terms.
    destruct (falsy_value _);
      [eexists; symmetry; apply with_graduation_term_type_same |].
    run.
    destruct (hd None (faults w)); cbn;
      [eexists; symmetry; apply with_graduation_term_type_same |].
    unfold current_options.
    destruct (match_quoted _); cbn;
      [| eexists; symmetry; apply with_graduation_term_type_same].
    destruct (includes _ _); cbn;
      [| eexists; symmetry; apply with_graduation_term_type_same].
    destruct (hd None (tl (faults w))); cbn;
      [eexists; symmetry; apply with_graduation_term_type_same |].
    eexists. reflexivity.
Qed.

Lemma includes_undefined (l : list string) :
  includes l JUndefined = false.
Proof.
  unfold includes. induction l as [| o l IH]; [reflexivity | exact IH].
Qed.

(** X23: a POST /departments without a department name is not refused: it
    is answered 200 and the column gains the option "undefined". *)
Theorem post_departments_missing_name (req : request) (w : world)
    (opts : list string) :
  value "department_name" (body req) = JUndefined ->
  department_names w = Some opts ->
  quiet 2 (faults w) = true ->
  let r := post_departments req w in
  fst r = inl {| status := 200;
                 json := message_body "New department added successfully" |} /\
  department_names (snd r) = Some (opts ++ ["undefined"]).
Proof.
  intros Hfield Hopts Hquiet r. subst r.
  destruct (department_names_readable w opts Hopts) as [Hread Hsome].
  apply quiet_next in Hquiet. destruct Hquiet as [Hf1 Hquiet].
  apply quiet_next in Hquiet. destruct Hquiet as [Hf2 _].
  unfold post_departments. rewrite Hfield.
  run. rewrite Hf1. cbn.
  rewrite (current_options_run w _ opts Hopts).
  rewrite includes_undefined. cbn. rewrite Hf2. cbn. split; [reflexivity |].
  apply department_names_rewritten.
  - apply Forall_app. split; [exact Hread |].
    constructor; [split; [reflexivity | discriminate] | constructor].
  - destruct opts; discriminate.
  - cbn. unfold enum_definition. rewrite !map_app, !map_map. reflexivity.
Qed.

Lemma post_departments_missing_name_witness :
  let w := Sample.world_of Sample.campus [] [] in
  let r := post_departments Cases.nothing w in
  fst r = inl {| status := 200;
                 json := message_body "New department added successfully" |} /\
  department_names (snd r) = Some (["CS"; "IS"] ++ ["undefined"]).
Proof.
  intros w.
  apply (post_departments_missing_name Cases.nothing w ["CS"; "IS"]);
    reflexivity.
Defined.

(** X24: show-departments, when its statement is answered, either lists
    the options of the column, none of them empty or with an apostrophe
    and at least one, or, when the text of the column has no quoted
    literal, ends on a TypeError without an answer. It changes no table. *)
Theorem show_departments_lists_options (req : request) (w : world) :
  hd None (faults w) = None ->
  let r := show_departments req w in
  tables (snd r) = tables w /\
  match department_names w with
  | Some opts =>
      fst r = inl {| status := 200;
                     json := JObj [("department_names",
                                    JArr (map JStr opts))] |} /\
      Forall readable opts /\ opts <> []
  | None =>
      fst r = inr (TypeError "Cannot read properties of null (reading 'map')")
  end.
Proof.
  intros Hfault r. subst r.
  pose proof (department_names_readable w) as Hread.
  unfold show_departments. run. rewrite Hfault. cbn.
  unfold current_options. unfold department_names in *.
  destruct (match_quoted (department_name_type (tables w))) as [found |]; cbn.
  - split; [reflexivity |]. split; [reflexivity |]. apply Hread. reflexivity.
  - split; reflexivity.
Qed.

Lemma show_departments_lists_options_witness :
  let w := Sample.world_of Sample.campus [] [] in
  let r := show_departments Cases.nothing w in
  tables (snd r) = tables w /\
  fst r = inl {| status := 200;
                 json := JObj [("department_names",
                                JArr [JStr "CS"; JStr "IS"])] |} /\
  Forall readable ["CS"; "IS"] /\ ["CS"; "IS"] <> [].
Proof.
  intros w. apply (show_departments_lists_options Cases.nothing w eq_refl).
Defined.

(** ** Professors created by the admin *)

Section CreateProfessorProperties.
Context `{Bcrypt}.

(** X25: a create-professor request without a password never reaches the
    gateway: the hashing refuses the missing value and 500 is answered. *)
Theorem create_professor_without_password (req : request) (w : world) :
  field "password" (body req) = None ->
  let r := create_professor req w in
  fst r = inl {| status := 500;
                 json := error_body "Server error while creating professor" |} /\
  tables (snd r) = tables w /\
  events (snd r) = events w ++ [ConsoleError "Error creating professor:"].
Proof.
  intros Hpw r. subst r. unfold create_professor, hashPassword, hash.
  unfold field in Hpw.
  destruct (value "password" (body req)); try discriminate;
    run; repeat split.
Qed.

(** X26: a create-professor request with a password, on a free generated
    ID and an email no professor has, is answered 201 with a token, and the
    row stored under the generated ID carries that token, the email of the
    body and the bcrypt hash of the password at ten rounds. *)
Theorem create_professor_stores (req : request) (w : world)
    (password : string) :
  field "password" (body req) = Some password ->
  professor (tables w) !! auto_increment w = None ->
  (forall r, In r (Sql.rows (professor (tables w))) ->
             professor_email r <> field "email" (body req)) ->
  hd None (faults w) = None ->
  let r := create_professor req w in
  let token := hd "00000000000000000000000000000000" (entropy w) in
  let salt := hd "00000000000000000000000000000000" (tl (entropy w)) in
  fst r = inl {| status := 201;
                 json := JObj [("message", JStr "Professor created successfully");
                               ("token", JStr token)] |} /\
  exists row,
    professor (tables (snd r)) !! auto_increment w = Some row /\
    professor_token row = Some token /\
    professor_email row = field "email" (body req) /\
    professor_password row = Some (bcrypt_hash password 10 salt).
Proof.
  intros Hpw Hfree Hemail Hfault r token salt. subst r.
  pose proof (no_professor_with_email _ _ Hemail) as Hnot.
  unfold create_professor, hashPassword, hash, insertProfessor.
  rewrite (field_value _ _ _ Hpw). run. rewrite Hfault. cbn.
  unfold Rows.insert_professor_row. cbn.
  rewrite Hfree, text_value_value, Hnot. cbn.
  split; [reflexivity |]. eexists. split; [apply lookup_insert_eq |].
  cbn. repeat split.
Qed.

End CreateProfessorProperties.

Lemma create_professor_without_password_witness :
  let w := Cases.world_of [] in
  let r := @create_professor Sample.toy_bcrypt Cases.unnamed_professor w in
  fst r = inl {| status := 500;
                 json := error_body "Server error while creating professor" |} /\
  tables (snd r) = tables w /\
  events (snd r) = events w ++ [ConsoleError "Error creating professor:"].
Proof.
  intros w.
  apply (@create_professor_without_password Sample.toy_bcrypt
           Cases.unnamed_professor w); reflexivity.
Defined.

Lemma create_professor_stores_witness :
  let w := Cases.world_of [] in
  let r := @create_professor Sample.toy_bcrypt Cases.new_professor w in
  fst r = inl {| status := 201;
                 json := JObj [("message", JStr "Professor created successfully");
                               ("token", JStr "9f86d081884c7d659a2feaa0c55ad015")] |} /\
  exists row,
    professor (tables (snd r)) !! 10 = Some row /\
    professor_token row = Some "9f86d081884c7d659a2feaa0c55ad015" /\
    professor_email row = Some "hany@fci.helwan.edu.eg" /\
    professor_password row =
      Some (@bcrypt_hash Sample.toy_bcrypt "s3cretpass" 10
              "c29tZXNhbHRzb21lc2FsdA").
Proof.
  intros w.
  apply (@create_professor_stores Sample.toy_bcrypt Cases.new_professor w
           "s3cretpass"); try reflexivity.
  intros r Hin. vm_compute in Hin. destruct Hin.
Defined.

(** ** Sample runs of the comment, bookmark and delete handlers *)

(** a comment by an ID no student has *)
Lemma add_comment_stores_name_witness :
  let req := Cases.comment_by "4711" "Well done" in
  let w := Cases.world_of [] in
  let r := add_comment req w in
  fst r = inl {| status := 201;
                 json := JObj [("message", JStr "Comment added successfully");
                               ("comment_id", JNum 10)] |} /\
  comments (tables (snd r)) !! 10 =
    Some {| comment_project_id := 7; commenter_id := 4711;
            commenter_name := None; comment_text := Some "Well done" |} /\
  (forall other, other <> 10 ->
     comments (tables (snd r)) !! other = comments (tables w) !! other) /\
  students (tables (snd r)) = students (tables w).
Proof.
  intros req w.
  apply (add_comment_stores_name req w 4711); reflexivity.
Defined.

Lemma add_comment_lookup_failure_500_witness :
  let req := Cases.comment_by "20201" "Well done" in
  let w := Cases.world_of [Some Sample.lost_connection] in
  let r := add_comment req w in
  fst r = inl {| status := 500;
                 json := error_body "Server error while adding comment" |} /\
  tables (snd r) = tables w /\
  events (snd r) =
    events w ++ [Query "SELECT student_name FROM students WHERE student_id = ?";
                 ConsoleError "Error adding comment:"].
Proof.
  intros req w.
  apply (add_comment_lookup_failure_500 req w Sample.lost_connection).
  reflexivity.
Defined.

Lemma show_comments_lists_project_witness :
  let req := Sample.by_id "project_id" 7 in
  let w := Cases.world_of [] in
  exists l,
    fst (show_comments req w) =
      inl {| status := 200; json := JObj [("comments", JArr (map JObj l))] |} /\
    forall o,
      In o l <->
      exists id row,
        comments (tables w) !! id = Some row /\
        comment_project_id row = 7 /\
        o = Rows.comment_object (id, row).
Proof.
  intros req w. apply (show_comments_lists_project req w eq_refl).
Defined.

(** Mona commenting on project 7 and reading the comments of project 7 *)
Lemma add_comment_then_show_witness :
  let req := Cases.comment_by "20201" "Well done" in
  let w := Cases.world_of [] in
  let w1 := snd (add_comment req w) in
  exists l,
    fst (show_comments req w1) =
      inl {| status := 200; json := JObj [("comments", JArr (map JObj l))] |} /\
    exists o,
      In o l /\
      get "comment_id" o = JNum 10 /\
      get "commenter_id" o = JNum 20201 /\
      get "comment_text" o = JStr "Well done".
Proof.
  intros req w.
  apply (add_comment_then_show req w 20201); reflexivity.
Defined.

Lemma delete_comment_twice_witness :
  let req := Sample.by_id "comment_id" 3 in
  let w := Cases.world_of [] in
  let w1 := snd (delete_comment req w) in
  fst (delete_comment req w) =
    inl {| status := 200; json := message_body "Comment deleted successfully" |} /\
  fst (delete_comment req w1) =
    inl {| status := 404; json := error_body "Comment not found" |} /\
  tables (snd (delete_comment req w1)) = tables w1.
Proof.
  intros req w.
  apply (delete_comment_twice req w
           {| comment_project_id := 7; commenter_id := 20201;
              commenter_name := Some "Mona Ibrahim";
              comment_text := Some "Nice work" |}); reflexivity.
Defined.

Lemma delete_comments_by_id_witness :
  let req := Sample.by_id "comment_id" 3 in
  let w := Cases.world_of [] in
  let r := delete_comments req w in
  fst r = inl {| status := 200;
                 json := message_body "Comment deleted successfully" |} /\
  tables (snd r) = Sql.with_comments (base.delete 3 (comments (tables w))) (tables w).
Proof.
  intros req w. apply (delete_comments_by_id req w eq_refl).
Defined.

(** Mona's bookmarks: the one on project 7 is listed with the project's
    present title and votes, the one on the vanished project 8 is not *)
Lemma show_bookmarks_lists_live_projects_witness :
  let req := Sample.by_id "student_id" 20201 in
  let w := Cases.world_of [] in
  fst (show_bookmarks req w) =
    inl {| status := 200;
           json := JArr [JObj [("bookmark_id", JNum 5);
                               ("title", JStr "Portal");
                               ("department_name", JStr "CS");
                               ("total_votes", JNum 12)]] |} /\
  exists l,
    fst (show_bookmarks req w) =
      inl {| status := 200; json := JArr (map JObj l) |} /\
    forall o,
      In o l <->
      exists id b p,
        bookmarks (tables w) !! id = Some b /\
        bookmark_student_id b = 20201 /\
        projects (tables w) !! bookmark_project_id b = Some p /\
        o = [("bookmark_id", JNum id); ("title", of_text (title p));
             ("department_name", of_text (department_name p));
             ("total_votes", JNum (total_votes p))].
Proof.
  intros req w. split; [vm_compute; reflexivity |].
  apply (show_bookmarks_lists_live_projects req w eq_refl).
Defined.

(** project 7 deleted, then Mona's bookmarks *)
Lemma delete_project_hides_bookmarks_witness :
  let del := Sample.by_id "id" 7 in
  let req := Sample.by_id "student_id" 20201 in
  let w := Cases.world_of [] in
  let w1 := snd (delete_project del w) in
  bookmarks (tables w1) = bookmarks (tables w) /\
  exists l,
    fst (show_bookmarks req w1) =
      inl {| status := 200; json := JArr (map JObj l) |} /\
    forall id b,
      bookmarks (tables w) !! id = Some b ->
      bookmark_project_id b = 7 ->
      forall o, In o l -> get "bookmark_id" o <> JNum id.
Proof.
  intros del req w.
  apply (delete_project_hides_bookmarks del req w eq_refl).
Defined.

(** ** What a delete leaves behind *)

(** X27: deleting a student, when the statement is answered, is answered
    200 if the ID was stored and 404 if not; afterwards no student has the
    ID, every other student is as before, and nothing else is cleaned up:
    the comments, bookmarks, memberships and projects are untouched, those
    of the deleted student included. *)
Theorem delete_student_no_cascade (req : request) (w : world) :
  hd None (faults w) = None ->
  let id := param "student_id" (params req) in
  let r := delete_student req w in
  (exists c,
     fst r = inl {| status := c;
                    json := if Z.eqb c 200
                            then message_body "Student account deleted successfully"
                            else error_body "Student account not found" |} /\
     c = match students (tables w) !! id with Some _ => 200 | None => 404 end) /\
  students (tables (snd r)) !! id = None /\
  (forall other, other <> id ->
     students (tables (snd r)) !! other = students (tables w) !! other) /\
  comments (tables (snd r)) = comments (tables w) /\
  bookmarks (tables (snd r)) = bookmarks (tables w) /\
  project_students (tables (snd r)) = project_students (tables w) /\
  projects (tables (snd r)) = projects (tables w).
Proof.
  intros Hfault id r.
  pose proof (delete_student_by_id req w Hfault) as Hrun.
  cbv zeta in Hrun. fold id in Hrun. fold r in Hrun.
  destruct (students (tables w) !! id) as [row |] eqn:Hrow;
    destruct Hrun as [Hout Htab]; rewrite Htab.
  - split; [exists 200; split; [exact Hout | reflexivity] |]. cbn.
    split; [apply lookup_delete_eq |]. repeat split.
    intros other Hne. apply lookup_delete_ne. congruence.
  - split; [exists 404; split; [exact Hout | reflexivity] |].
    split; [exact Hrow |]. repeat split.
Qed.

(** Mona's account deleted: her comment, her bookmarks and the memberships
    stay *)
Lemma delete_student_no_cascade_witness :
  let req := Sample.by_id "student_id" 20201 in
  let w := Cases.world_of [] in
  let r := delete_student req w in
  (exists c,
     fst r = inl {| status := c;
                    json := if Z.eqb c 200
                            then message_body "Student account deleted successfully"
                            else error_body "Student account not found" |} /\
     c = 200) /\
  students (tables (snd r)) !! 20201 = None /\
  (forall other, other <> 20201 ->
     students (tables (snd r)) !! other = students (tables w) !! other) /\
  comments (tables (snd r)) = comments (tables w) /\
  bookmarks (tables (snd r)) = bookmarks (tables w) /\
  project_students (tables (snd r)) = project_students (tables w) /\
  projects (tables (snd r)) = projects (tables w).
Proof.
  intros req w. apply (delete_student_no_cascade req w eq_refl).
Defined.

(** X28: deleting a bookmark, when the statement is answered, is answered
    200 if the ID was stored and 404 if not; afterwards no bookmark has the
    ID and every other bookmark, and every other table, is as before. *)
Theorem delete_bookmarks_outcome (req : request) (w : world) :
  hd None (faults w) = None ->
  let id := param "bookmark_id" (params req) in
  let r := delete_bookmarks req w in
  (exists c,
     fst r = inl {| status := c;
                    json := if Z.eqb c 200
                            then message_body "Bookmark deleted successfully"
                            else error_body "Bookmark not found" |} /\
     c = match bookmarks (tables w) !! id with Some _ => 200 | None => 404 end) /\
  bookmarks (tables (snd r)) !! id = None /\
  (forall other, other <> id ->
     bookmarks (tables (snd r)) !! other = bookmarks (tables w) !! other) /\
  students (tables (snd r)) = students (tables w) /\
  projects (tables (snd r)) = projects (tables w) /\
  comments (tables (snd r)) = comments (tables w).
Proof.
  intros Hfault id r.
  pose proof (delete_bookmarks_by_id req w Hfault) as Hrun.
  cbv zeta in Hrun. fold id in Hrun. fold r in Hrun.
  destruct (bookmarks (tables w) !! id) as [row |] eqn:Hrow;
    destruct Hrun as [Hout Htab]; rewrite Htab.
  - split; [exists 200; split; [exact Hout | reflexivity] |]. cbn.
    split; [apply lookup_delete_eq |]. repeat split.
    intros other Hne. apply lookup_delete_ne. congruence.
  - split; [exists 404; split; [exact Hout | reflexivity] |].
    split; [exact Hrow |]. repeat split.
Qed.

Lemma delete_bookmarks_outcome_witness :
  let req := Sample.by_id "bookmark_id" 999 in
  let w := Cases.world_of [] in
  let r := delete_bookmarks req w in
  (exists c,
     fst r = inl {| status := c;
                    json := if Z.eqb c 200
                            then message_body "Bookmark deleted successfully"
                            else error_body "Bookmark not found" |} /\
     c = 404) /\
  bookmarks (tables (snd r)) !! 999 = None /\
  (forall other, other <> 999 ->
     bookmarks (tables (snd r)) !! other = bookmarks (tables w) !! other) /\
  students (tables (snd r)) = students (tables w) /\
  projects (tables (snd r)) = projects (tables w) /\
  comments (tables (snd r)) = comments (tables w).
Proof.
  intros req w. apply (delete_bookmarks_outcome req w eq_refl).
Defined.

(** X29: a delete whose statement fails is answered 500 by every one of
    the five delete handlers, and no table changes. *)
Theorem delete_failure_500 (req : request) (w : world) (e : sql_error) :
  hd None (faults w) = Some e ->
  (fst (delete_project req w) =
     inl {| status := 500; json := error_body "Error deleting project" |} /\
   tables (snd (delete_project req w)) = tables w) /\
  (fst (delete_comment req w) =
     inl {| status := 500; json := error_body "Server error" |} /\
   tables (snd (delete_comment req w)) = tables w) /\
  (fst (delete_bookmarks req w) =
     inl {| status := 500; json := error_body "Server error" |} /\
   tables (snd (delete_bookmarks req w)) = tables w) /\
  (fst (delete_comments req w) =
     inl {| status := 500; json := error_body "Error deleting comment" |} /\
   tables (snd (delete_comments req w)) = tables w) /\
  (fst (delete_student req w) =
     inl {| status := 500; json := error_body "Error deleting student account" |} /\
   tables (snd (delete_student req w)) = tables w).
Proof.
  intros Hfault.
  unfold delete_project, delete_comment, delete_bookmarks, delete_comments,
    delete_student.
  run. rewrite Hfault. cbn. repeat split.
Qed.

Lemma delete_failure_500_witness :
  let req := Sample.by_id "id" 7 in
  let w := Cases.world_of [Some Sample.lost_connection] in
  (fst (delete_project req w) =
     inl {| status := 500; json := error_body "Error deleting project" |} /\
   tables (snd (delete_project req w)) = tables w) /\
  (fst (delete_comment req w) =
     inl {| status := 500; json := error_body "Server error" |} /\
   tables (snd (delete_comment req w)) = tables w) /\
  (fst (delete_bookmarks req w) =
     inl {| status := 500; json := error_body "Server error" |} /\
   tables (snd (delete_bookmarks req w)) = tables w) /\
  (fst (delete_comments req w) =
     inl {| status := 500; json := error_body "Error deleting comment" |} /\
   tables (snd (delete_comments req w)) = tables w) /\
  (fst (delete_student req w) =
     inl {| status := 500; json := error_body "Error deleting student account" |} /\
   tables (snd (delete_student req w)) = tables w).
Proof.
  intros req w.
  apply (delete_failure_500 req w Sample.lost_connection). reflexivity.
Defined.
